(** * KubeVela resource assembler: workload options and metadata helpers

    A shallow embedding of
    - [pkg/controller/core.oam.dev/v1alpha2/application/assemble/options.go]
      (the three built-in workload options), and
    - the helpers of package [util] they rest on ([MergeMapOverrideWithDst],
      [AddLabels], [GenTraitName], [ComputeHash], ...), and
    - further helpers of that package: labels and annotations
      ([RemoveLabels], [PassLabel], ...), revision names
      ([ExtractRevisionNum], [ConvertDefinitionRevName]), the lookup of
      definitions ([GetDefinition], [GetCapabilityDefinition],
      [GetDefinitionName]), [FetchWorkload] and [LocateParentAppConfig],
    together with the parts of the Kubernetes [unstructured] accessors, of
    [metav1.GetControllerOf] and of crossplane's [fieldpath] that this code
    calls.

    Go values are embedded as follows.
    - a Go [string] is a byte sequence: Rocq's [string] (a list of 8-bit
      [ascii]); [len] is [String.length];
    - [map[string]string] that may be nil is [option (gmap string string)],
      [None] standing for the nil map; indexing a map (nil or not) at a
      missing key gives the empty string;
    - [map[string]interface{}] and [interface{}] holding decoded JSON are the
      inductive type [value];
    - a function that mutates its pointer argument and returns an [error] is a
      function from the state before to the state after and the returned
      error; a nil-pointer dereference is the outcome [Panics]. *)

From Stdlib Require Import ZArith String Ascii List Lia.
From stdpp Require Import gmap strings list fin_maps pretty.

#[local] Set Warnings "-register-all".
#[local] Open Scope Z_scope.
#[local] Open Scope nat_scope.

(* ===================================================================== *)
(** ** Package [strings] of the Go standard library *)
(* ===================================================================== *)

Module GoStrings.

(** [s[:n]] *)
Fixpoint take (n : nat) (s : string) : string :=
  match n, s with
  | S n', String c s' => String c (take n' s')
  | _, _ => EmptyString
  end.

(** [s[n:]] *)
Fixpoint drop (n : nat) (s : string) : string :=
  match n, s with
  | S n', String _ s' => drop n' s'
  | _, _ => s
  end.

(** [strings.HasPrefix] *)
Fixpoint HasPrefix (s prefix : string) {struct prefix} : bool :=
  match prefix, s with
  | EmptyString, _ => true
  | String p prefix', String c s' => Ascii.eqb c p && HasPrefix s' prefix'
  | String _ _, EmptyString => false
  end.

(** [strings.HasSuffix]:
    [len(s) >= len(suffix) && s[len(s)-len(suffix):] == suffix] *)
Definition HasSuffix (s suffix : string) : bool :=
  (String.length suffix <=? String.length s)
  && String.eqb (drop (String.length s - String.length suffix) s) suffix.

(** [strings.TrimSuffix] *)
Definition TrimSuffix (s suffix : string) : string :=
  if HasSuffix s suffix
  then take (String.length s - String.length suffix) s
  else s.

(** [strings.Contains]: some suffix of [s] starts with [substr]. *)
Fixpoint Contains (s substr : string) : bool :=
  HasPrefix s substr
  || match s with
     | EmptyString => false
     | String _ s' => Contains s' substr
     end.

(** [strings.Count(s, sep)] for a separator of one byte. *)
Fixpoint Count (s : string) (sep : ascii) : nat :=
  match s with
  | EmptyString => 0
  | String c s' => (if Ascii.eqb c sep then 1 else 0) + Count s' sep
  end.

(** [strings.Index(s, sep)] for a separator of one byte, as the pair
    [(s[:i], s[i+1:])]; [None] when [sep] does not occur. *)
Fixpoint Cut (s : string) (sep : ascii) : option (string * string) :=
  match s with
  | EmptyString => None
  | String c s' =>
      if Ascii.eqb c sep then Some (EmptyString, s')
      else match Cut s' sep with
           | Some (before, after) => Some (String c before, after)
           | None => None
           end
  end.

(** [strings.ToLower].  Go first scans the bytes of [s]: when all of them
    are below [utf8.RuneSelf] (0x80) the string is lower-cased byte by byte,
    [A]..[Z] becoming [a]..[z]; otherwise the result is
    [strings.Map(unicode.ToLower, s)], which decodes [s] as UTF-8 and maps
    every rune with Unicode's case tables.  That second function belongs to
    Go's library and is the parameter [mapToLower]. *)
Definition lower_byte (c : ascii) : ascii :=
  let n := nat_of_ascii c in
  if (65 <=? n) && (n <=? 90) then ascii_of_nat (n + 32) else c.

Fixpoint isASCII (s : string) : bool :=
  match s with
  | EmptyString => true
  | String c s' => (nat_of_ascii c <? 128) && isASCII s'
  end.

Fixpoint lowerASCII (s : string) : string :=
  match s with
  | EmptyString => EmptyString
  | String c s' => String (lower_byte c) (lowerASCII s')
  end.

Definition ToLower (mapToLower : string → string) (s : string) : string :=
  if isASCII s then lowerASCII s else mapToLower s.

(** [strings.Join(elems, sep)] *)
Fixpoint Join (elems : list string) (sep : string) : string :=
  match elems with
  | [] => EmptyString
  | [e] => e
  | e :: rest => e +:+ sep +:+ Join rest sep
  end.

End GoStrings.

(* ===================================================================== *)
(** ** Errors *)
(* ===================================================================== *)

(** Go [error] values.  [ErrorString] is what [errors.New] and [fmt.Errorf]
    build, [Wrapped] what [errors.Wrap] builds; [StatusError] stands for the
    errors of the API client (for instance [NotFound]). *)
Inductive error : Type :=
  | ErrorString (msg : string)
  | Wrapped (cause : error) (msg : string)
  | StatusError (reason : string) (msg : string).

(* ===================================================================== *)
(** ** Decoded JSON and [unstructured.Unstructured] *)
(* ===================================================================== *)

(** What [encoding/json] decodes into an [interface{}]: nil, bool, number,
    string, [[]interface{}] and [map[string]interface{}]. *)
Inductive value : Type :=
  | VNull
  | VBool (b : bool)
  | VNum (n : Z)
  | VStr (s : string)
  | VArr (items : list value)
  | VObj (fields : gmap string value).

(** The three results of the [Nested*] accessors, which return
    [(val, found, err)]: found, not found without error, and not found with an
    accessor error (a value of the wrong type on the way). *)
Inductive nested (A : Type) : Type :=
  | Found (a : A)
  | NotFound
  | AccessError.
Arguments Found {A} a.
Arguments NotFound {A}.
Arguments AccessError {A}.

Module unstructured.

(** [unstructured.Unstructured]: [Object map[string]interface{}].  A nil
    [Object] reads as the empty map, and the setters allocate it. *)
Record Unstructured : Type := mkUnstructured { Object : gmap string value }.

(** [NestedFieldNoCopy(obj, fields...)] *)
Fixpoint NestedFieldNoCopy (val : value) (fields : list string) : nested value :=
  match fields with
  | [] => Found val
  | field :: rest =>
      match val with
      | VNull => NotFound
      | VObj m =>
          match m !! field with
          | Some v => NestedFieldNoCopy v rest
          | None => NotFound
          end
      | _ => AccessError
      end
  end.

(** [NestedString] *)
Definition NestedString (obj : gmap string value) (fields : list string) : nested string :=
  match NestedFieldNoCopy (VObj obj) fields with
  | Found (VStr s) => Found s
  | Found _ => AccessError
  | NotFound => NotFound
  | AccessError => AccessError
  end.

(** [NestedBool] *)
Definition NestedBool (obj : gmap string value) (fields : list string) : nested bool :=
  match NestedFieldNoCopy (VObj obj) fields with
  | Found (VBool b) => Found b
  | Found _ => AccessError
  | NotFound => NotFound
  | AccessError => AccessError
  end.

(** [getNestedString]: the empty string unless found without error. *)
Definition getNestedString (obj : gmap string value) (fields : list string) : string :=
  match NestedString obj fields with
  | Found s => s
  | _ => EmptyString
  end.

Definition is_str (v : value) : Prop :=
  match v with VStr _ => True | _ => False end.

#[global] Instance is_str_dec v : Decision (is_str v).
Proof. destruct v; simpl; apply _. Defined.

Definition str_of (v : value) : option string :=
  match v with VStr s => Some s | _ => None end.

(** [NestedStringMap]: the map at [fields] with every value a string. *)
Definition NestedStringMap (obj : gmap string value) (fields : list string)
  : nested (gmap string string) :=
  match NestedFieldNoCopy (VObj obj) fields with
  | Found (VObj m) =>
      if decide (map_Forall (λ _ v, is_str v) m)
      then Found (omap str_of m)
      else AccessError
  | Found _ => AccessError
  | NotFound => NotFound
  | AccessError => AccessError
  end.

(** [setNestedFieldNoCopy(obj, value, fields...)] with
    [fields = field :: rest]; [None] is the error "value cannot be set
    because ... is not a map".  The error is raised before anything is
    written: a missing field is created only below maps, and what is
    created are maps. *)
Fixpoint setNestedFieldNoCopy (m : gmap string value) (v : value)
    (field : string) (rest : list string) {struct rest} : option (gmap string value) :=
  match rest with
  | [] => Some (<[field := v]> m)
  | next :: rest' =>
      match m !! field with
      | Some (VObj child) =>
          child' ← setNestedFieldNoCopy child v next rest';
          Some (<[field := VObj child']> m)
      | Some _ => None
      | None =>
          child' ← setNestedFieldNoCopy ∅ v next rest';
          Some (<[field := VObj child']> m)
      end
  end.

(** [RemoveNestedField(obj, fields...)] with [fields = field :: rest] *)
Fixpoint RemoveNestedField (m : gmap string value)
    (field : string) (rest : list string) {struct rest} : gmap string value :=
  match rest with
  | [] => delete field m
  | next :: rest' =>
      match m !! field with
      | Some (VObj child) => <[field := VObj (RemoveNestedField child next rest')]> m
      | _ => m
      end
  end.

(** [u.setNestedField]: the error of [SetNestedField] is dropped. *)
Definition setNestedField (u : Unstructured) (v : value)
    (field : string) (rest : list string) : Unstructured :=
  match setNestedFieldNoCopy (Object u) v field rest with
  | Some m => mkUnstructured m
  | None => u
  end.

Definition GetAPIVersion (u : Unstructured) : string :=
  getNestedString (Object u) ["apiVersion"].

Definition GetKind (u : Unstructured) : string :=
  getNestedString (Object u) ["kind"].

Definition GetNamespace (u : Unstructured) : string :=
  getNestedString (Object u) ["metadata"; "namespace"].

Definition GetName (u : Unstructured) : string :=
  getNestedString (Object u) ["metadata"; "name"].

(** [SetName]: an empty name removes the field. *)
Definition SetName (u : Unstructured) (name : string) : Unstructured :=
  if String.length name =? 0
  then mkUnstructured (RemoveNestedField (Object u) "metadata" ["name"])
  else setNestedField u (VStr name) "metadata" ["name"].

(** [GetLabels], [GetAnnotations]: [m, _, _ := NestedStringMap(...)], nil
    unless found without error. *)
Definition GetLabels (u : Unstructured) : option (gmap string string) :=
  match NestedStringMap (Object u) ["metadata"; "labels"] with
  | Found m => Some m
  | _ => None
  end.

Definition GetAnnotations (u : Unstructured) : option (gmap string string) :=
  match NestedStringMap (Object u) ["metadata"; "annotations"] with
  | Found m => Some m
  | _ => None
  end.

(** [UnstructuredContent] *)
Definition UnstructuredContent (u : Unstructured) : gmap string value := Object u.

End unstructured.
Export unstructured.

(** Indexing a Go [map[string]string]: the zero value for a missing key, and
    for every key of the nil map. *)
Definition index (m : option (gmap string string)) (k : string) : string :=
  match m with
  | Some m => default EmptyString (m !! k)
  | None => EmptyString
  end.

(** The value [v] of the two-valued index [v, ok := m[k]] on a map that may
    be nil, [None] when [ok] is false. *)
Definition at_key (m : option (gmap string string)) (k : string) : option string :=
  m ≫= (λ m, m !! k).

(* ===================================================================== *)
(** ** [schema.GroupVersionKind] and [metav1.OwnerReference] *)
(* ===================================================================== *)

Module schema.

Record GroupVersion : Type := mkGV { gvGroup : string; gvVersion : string }.

Record GroupVersionKind : Type :=
  mkGVK { Group : string; Version : string; Kind : string }.

(** [schema.ParseGroupVersion]; [None] is the error "unexpected
    GroupVersion string". *)
Definition ParseGroupVersion (gv : string) : option GroupVersion :=
  if (String.length gv =? 0) || String.eqb gv "/" then Some (mkGV "" "")
  else match GoStrings.Count gv "/" with
       | 0 => Some (mkGV "" gv)
       | 1 => match GoStrings.Cut gv "/" with
              | Some (g, v) => Some (mkGV g v)
              | None => Some (mkGV "" gv)
              end
       | _ => None
       end.

(** [GroupVersionKind.String] *)
Definition String (gvk : GroupVersionKind) : string :=
  Group gvk +:+ "/" +:+ Version gvk +:+ ", Kind=" +:+ Kind gvk.

End schema.

(** [Unstructured.GroupVersionKind]: the empty value when the apiVersion
    does not parse. *)
Definition GroupVersionKind (u : Unstructured) : schema.GroupVersionKind :=
  match schema.ParseGroupVersion (GetAPIVersion u) with
  | Some gv => schema.mkGVK (schema.gvGroup gv) (schema.gvVersion gv) (GetKind u)
  | None => schema.mkGVK "" "" ""
  end.

Module metav1.

(** [metav1.OwnerReference]; the two [*bool] fields are [option bool]. *)
Record OwnerReference : Type := mkOwnerReference {
  APIVersion : string;
  Kind : string;
  Name : string;
  UID : string;
  Controller : option bool;
  BlockOwnerDeletion : option bool
}.

(** [extractOwnerReference] of package [unstructured] *)
Definition extractOwnerReference (v : gmap string value) : OwnerReference :=
  {| APIVersion := getNestedString v ["apiVersion"];
     Kind := getNestedString v ["kind"];
     Name := getNestedString v ["name"];
     UID := getNestedString v ["uid"];
     Controller :=
       match NestedBool v ["controller"] with Found b => Some b | _ => None end;
     BlockOwnerDeletion :=
       match NestedBool v ["blockOwnerDeletion"] with Found b => Some b | _ => None end |}.

(** [Unstructured.GetOwnerReferences]: a slice of structs built afresh
    from the content at every call; nil when the field is missing, is not
    an array, or holds something that is not a map. *)
Definition GetOwnerReferences (u : Unstructured) : list OwnerReference :=
  match NestedFieldNoCopy (VObj (Object u)) ["metadata"; "ownerReferences"] with
  | Found (VArr original) =>
      default []
        (mapM (λ obj, match obj with
                      | VObj o => Some (extractOwnerReference o)
                      | _ => None
                      end) original)
  | _ => []
  end.

(** [metav1.GetControllerOf]: "a pointer to a copy of the controllerRef if
    controllee has a controller", nil otherwise.  The result is a value of
    its own: nothing written to it reaches the controllee. *)
Definition GetControllerOf (controllee : Unstructured) : option OwnerReference :=
  List.find (λ ref, match Controller ref with Some true => true | _ => false end)
            (GetOwnerReferences controllee).

(** The assignment [ref.Controller = c] on a local [*OwnerReference]. *)
Definition withController (ref : OwnerReference) (c : option bool) : OwnerReference :=
  {| APIVersion := APIVersion ref; Kind := Kind ref; Name := Name ref; UID := UID ref;
     Controller := c; BlockOwnerDeletion := BlockOwnerDeletion ref |}.

End metav1.

(* ===================================================================== *)
(** ** crossplane-runtime [fieldpath] *)
(* ===================================================================== *)

Module fieldpath.

(** Field paths.  Only field segments occur in the paths this code sets, so
    a parsed path is the list of its field names. *)
Definition Segments : Type := list string.

(** [fieldpath.Parse] on the dotted syntax [a.b.c] (no brackets). *)
Fixpoint Parse (path : string) : Segments :=
  match path with
  | EmptyString => [EmptyString]
  | String c rest =>
      if Ascii.eqb c "." then EmptyString :: Parse rest
      else match Parse rest with
           | seg :: segs => String c seg :: segs
           | [] => [String c EmptyString]
           end
  end.

(** [Segments.String] for field segments without a period. *)
Definition String (s : Segments) : string := GoStrings.Join s ".".

(** [Paved.setValue(s, value)], started at the paved object.  [seen] is
    [s[:i]], the segments already walked.  A missing field on the way is
    created as an empty map ([prepareField]); a value on the way that is not
    a map gives the error "... is not an object", and then nothing has been
    written: only a freshly created field is written before the last
    segment, and below it every value is a map. *)
Fixpoint setValue (in_ : value) (seen s : Segments) (v : value) : error + value :=
  match s with
  | [] => inr in_
  | current :: rest =>
      match in_ with
      | VObj object =>
          match rest with
          | [] => inr (VObj (<[current := v]> object))
          | _ :: _ =>
              let child := default (VObj ∅) (object !! current) in
              match setValue child (seen ++ [current]) rest v with
              | inr child' => inr (VObj (<[current := child']> object))
              | inl e => inl e
              end
          end
      | _ => inl (ErrorString (String seen +:+ " is not an object"))
      end
  end.

(** [Paved.SetBool(path, value)] over [Pave(object)]: the paved object
    is the map it was given, so the caller's object is what is written. *)
Definition SetBool (object : gmap string value) (path : string) (b : bool)
  : error + gmap string value :=
  match setValue (VObj object) [] (Parse path) (VBool b) with
  | inr (VObj object') => inr object'
  | inr _ => inr object
  | inl e => inl e
  end.

End fieldpath.

(* ===================================================================== *)
(** ** Package [util] ([pkg/oam/util]) *)
(* ===================================================================== *)

(** The interface [labelAnnotationObject]: "a Kubernetes object that has
    label and annotation". *)
Class labelAnnotationObject (Obj : Type) : Type := {
  getLabels : Obj → option (gmap string string);
  setLabels : Obj → option (gmap string string) → Obj;
  getAnnotations : Obj → option (gmap string string);
  setAnnotations : Obj → option (gmap string string) → Obj
}.

(** [SetNestedStringMap] through [u.setNestedMap]: the strings become
    [interface{}] values; a nil map removes the field ([SetLabels],
    [SetAnnotations]). *)
Definition setNestedMap (u : Unstructured) (m : option (gmap string string))
    (field : string) (rest : list string) : Unstructured :=
  match m with
  | None => mkUnstructured (RemoveNestedField (Object u) field rest)
  | Some m => setNestedField u (VObj (VStr <$> m)) field rest
  end.

#[global] Instance Unstructured_labelAnnotationObject : labelAnnotationObject Unstructured := {
  getLabels := GetLabels;
  setLabels u m := setNestedMap u m "metadata" ["labels"];
  getAnnotations := GetAnnotations;
  setAnnotations u m := setNestedMap u m "metadata" ["annotations"]
}.

Module util.

(** [TraitPrefixKey] and [Dummy] *)
Definition TraitPrefixKey : string := "trait".
Definition Dummy : string := "dummy".

(** [MergeMapOverrideWithDst]: "merges two could be nil maps. Keep the dst
    for any conflicts".  The two [range] loops are folds writing into [r]. *)
Definition MergeMapOverrideWithDst (src dst : option (gmap string string))
  : option (gmap string string) :=
  match src, dst with
  | None, None => None
  | _, _ =>
      let r : gmap string string := ∅ in
      let r := map_fold (λ k v r, <[k := v]> r) r (default ∅ src) in
      let r := map_fold (λ k v r, <[k := v]> r) r (default ∅ dst) in
      Some r
  end.



(** [AddLabels] *)
Definition AddLabels {Obj : Type} `{!labelAnnotationObject Obj} (o : Obj)
    (labels : option (gmap string string)) : Obj :=
  setLabels o (MergeMapOverrideWithDst (getLabels o) labels).

(** [AddAnnotations] *)
Definition AddAnnotations {Obj : Type} `{!labelAnnotationObject Obj} (o : Obj)
    (annos : option (gmap string string)) : Obj :=
  setAnnotations o (MergeMapOverrideWithDst (getAnnotations o) annos).

(** *** [hash/fnv]: the 32-bit FNV-1a hash *)

Definition offset32 : Z := 2166136261.
Definition prime32 : Z := 16777619.

Definition byte (c : ascii) : Z := Z.of_N (N_of_ascii c).

(** [sum32a.Write]: [hash ^= c; hash *= prime32] on [uint32]. *)
Fixpoint fnv32a_Write (hash : Z) (data : string) : Z :=
  match data with
  | EmptyString => hash
  | String c rest => fnv32a_Write ((Z.lxor hash (byte c) * prime32) mod 2 ^ 32)%Z rest
  end.

(** *** [rand.SafeEncodeString] of apimachinery *)

Definition alphanums : string := "bcdfghjklmnpqrstvwxz2456789".

Definition safe_byte (b : ascii) : ascii :=
  default "b"%char (String.get (nat_of_ascii b mod String.length alphanums) alphanums).

(** [r[i] = alphanums[int(b) % len(alphanums)]] for every character of
    [s]; the strings encoded here are decimal numerals, one byte a
    character. *)
Fixpoint SafeEncodeString (s : string) : string :=
  match s with
  | EmptyString => EmptyString
  | String b rest => String (safe_byte b) (SafeEncodeString rest)
  end.

Section TraitName.

(** [v1alpha2.ComponentTrait] is declared in package [v1alpha2] of the API types, and
    the deep printer is go-spew's.  Both are parameters: [deepPrint ct] is
    the byte sequence that [printer.Fprintf(hasher, "%#v", ct)] writes
    with [SortKeys] and [SpewKeys] set and methods disabled. *)
Variable ComponentTrait : Type.
Variable deepPrint : ComponentTrait → string.

(** [strings.Map(unicode.ToLower, s)], see [GoStrings.ToLower]. *)
Variable mapToLower : string → string.

(** [DeepHashObject] on a fresh 32-bit FNV-1a hasher, followed by
    [Sum32]: the hasher is reset and receives the deep print. *)
Definition DeepHashObject (objectToWrite : ComponentTrait) : Z :=
  fnv32a_Write offset32 (deepPrint objectToWrite).

(** [ComputeHash]: the sum printed in decimal ([fmt.Sprint]) and safe
    encoded. *)
Definition ComputeHash (trait : ComponentTrait) : string :=
  SafeEncodeString (pretty (Z.to_N (DeepHashObject trait))).

(** The local [traitMiddleName] of [GenTraitName] *)
Definition traitMiddleName (traitType : string) : string :=
  if negb (String.eqb traitType "") && negb (String.eqb traitType Dummy)
  then GoStrings.ToLower mapToLower traitType
  else TraitPrefixKey.

(** [GenTraitName]: [fmt.Sprintf("%s-%s-%s", ...)] *)
Definition GenTraitName (componentName : string) (ct : ComponentTrait)
    (traitType : string) : string :=
  componentName +:+ "-" +:+ traitMiddleName traitType +:+ "-" +:+ ComputeHash ct.

End TraitName.

End util.

(* ===================================================================== *)
(** ** API types and the cluster reader *)
(* ===================================================================== *)

Module runtime.
(** [runtime.RawExtension]: raw JSON bytes. *)
Record RawExtension : Type := mkRawExtension { Raw : string }.
End runtime.

Module v1alpha2.

(** [common.Helm], [v1alpha2.ComponentSpec] and [v1alpha2.Component] with
    the fields the options read.  [Helm] is a pointer in Go: [None] is
    nil. *)
Record Helm : Type := mkHelm {
  Release : runtime.RawExtension;
  Repository : runtime.RawExtension
}.

Record ComponentSpec : Type := mkComponentSpec {
  Workload : runtime.RawExtension;
  SpecHelm : option Helm
}.

Record Component : Type := mkComponent {
  Name : string;
  Spec : ComponentSpec
}.

End v1alpha2.

Module client.

(** [client.ObjectKey] *)
Record ObjectKey : Type := mkObjectKey { Namespace : string; Name : string }.

(** [client.Reader], its method [Get(ctx, key, obj)]: an error, or the
    object read into [obj]. *)
Definition Reader : Type := ObjectKey → Unstructured → error + Unstructured.

End client.

(* ===================================================================== *)
(** ** Package [assemble]: the workload options *)
(* ===================================================================== *)

(** How a call of an option ends: it returns an [error] (nil is [None])
    leaving the workload it was given in the state [after], or it panics. *)
Inductive Outcome : Type :=
  | Returns (after : Unstructured) (err : option error)
  | Panics.

(** A run of an option: the reads issued to the cluster, in order, and the
    outcome.  Log lines ([klog]) are not part of the model. *)
Record Run : Type := mkRun { reads : list client.ObjectKey; outcome : Outcome }.

Module assemble.

Section Options.

(** [v1beta1.ComponentDefinition]: passed to every option, read by
    none of the three. *)
Variable ComponentDefinition : Type.

(** [encoding/json]'s [Unmarshal] into a [map[string]interface{}]. *)
Variable json_Unmarshal : string → error + gmap string value.

(** [helmapi.HelmChartNamePath] and [oam.LabelAppComponentRevision],
    constants of the packages [flux2apis] and [oam]. *)
Variable HelmChartNamePath : list string.
Variable LabelAppComponentRevision : string.

(** [WorkloadOptionFn] *)
Definition WorkloadOptionFn : Type :=
  Unstructured → option v1alpha2.Component → option ComponentDefinition → Run.

(** [ApplyToWorkload] *)
Definition ApplyToWorkload (fn : WorkloadOptionFn) (wl : Unstructured)
    (comp : option v1alpha2.Component) (compDefinition : option ComponentDefinition) : Run :=
  fn wl comp compDefinition.

(** [util.RawExtension2Unstructured] *)
Definition RawExtension2Unstructured (raw : runtime.RawExtension) : error + Unstructured :=
  match json_Unmarshal (runtime.Raw raw) with
  | inl err => inl err
  | inr objMap => inr (mkUnstructured objMap)
  end.

(** The local [qualifiedWorkloadName] of [discoverHelmModuleWorkload]:
    "If release name contains chart name it will be used as a full name",
    else [rlsName-chartName] cut at 63. *)
Definition qualifiedWorkloadName (rlsName chartName : string) : string :=
  if negb (GoStrings.Contains rlsName chartName) then
    let q := rlsName +:+ "-" +:+ chartName in
    if 63 <? String.length q
    then GoStrings.TrimSuffix (GoStrings.take 63 q) "-"
    else q
  else rlsName.

(** The condition under which a workload found by name is rejected. *)
Definition notManagedByHelm (annots labels : option (gmap string string))
    (rlsName ns : string) : bool :=
  bool_decide (annots = None) || bool_decide (labels = None)
  || negb (String.eqb (index annots "meta.helm.sh/release-name") rlsName)
  || negb (String.eqb (index annots "meta.helm.sh/release-namespace") ns)
  || negb (String.eqb (index labels "app.kubernetes.io/managed-by") "Helm").

Definition errNotMatchHelmInfo (rlsName ns : string) : error :=
  ErrorString
    ("the workload is found but not match with helm info(meta.helm.sh/release-name: "
     +:+ rlsName +:+ ", meta.helm.sh/namespace: " +:+ ns
     +:+ ", app.kubernetes.io/managed-by: Helm)").

(** [discoverHelmModuleWorkload] *)
Definition discoverHelmModuleWorkload (c : client.Reader)
    (assembledWorkload : Unstructured) (comp : option v1alpha2.Component) : Run :=
  match comp ≫= (λ comp, v1alpha2.SpecHelm (v1alpha2.Spec comp)) with
  | None => mkRun [] (Returns assembledWorkload None)
  | Some helm =>
      let ns := GetNamespace assembledWorkload in
      match RawExtension2Unstructured (v1alpha2.Release helm) with
      | inl err =>
          mkRun [] (Returns assembledWorkload
                      (Some (Wrapped err "cannot get helm release from component")))
      | inr rls =>
          let rlsName := GetName rls in
          match NestedString (Object rls) HelmChartNamePath with
          | Found chartName =>
              let key := client.mkObjectKey ns (qualifiedWorkloadName rlsName chartName) in
              match c key (mkUnstructured ∅) with
              | inl err => mkRun [key] (Returns assembledWorkload (Some err))
              | inr workloadByHelm =>
                  let annots := GetAnnotations workloadByHelm in
                  let labels := GetLabels workloadByHelm in
                  if notManagedByHelm annots labels rlsName ns
                  then mkRun [key] (Returns assembledWorkload
                                      (Some (errNotMatchHelmInfo rlsName ns)))
                  else mkRun [key] (Returns workloadByHelm None)
              end
          | _ =>
              mkRun [] (Returns assembledWorkload
                          (Some (ErrorString "cannot get helm chart name")))
          end
      end
  end.

(** [DiscoveryHelmBasedWorkload] *)
Definition DiscoveryHelmBasedWorkload (c : client.Reader) : WorkloadOptionFn :=
  λ assembledWorkload comp _, discoverHelmModuleWorkload c assembledWorkload comp.

(** [NameNonInplaceUpgradableWorkload] *)
Definition NameNonInplaceUpgradableWorkload : WorkloadOptionFn :=
  λ wl comp _,
    let compRevName := index (GetLabels wl) LabelAppComponentRevision in
    mkRun [] (Returns (SetName wl compRevName) None).

(** The disable paths and the group and kind names
    [PrepareWorkloadForRollout] compares with:
    [kruisev1alpha1.GroupVersion.Group], [appsv1.GroupName] and the
    names of the Go types [CloneSet], [StatefulSet], [Deployment]. *)
Definition cloneSetDisablePath : string := "spec.updateStrategy.paused".
Definition advancedStatefulSetDisablePath : string := "spec.updateStrategy.rollingUpdate.paused".
Definition deploymentDisablePath : string := "spec.paused".

Definition kruiseGroup : string := "apps.kruise.io".
Definition appsGroupName : string := "apps".
Definition kindCloneSet : string := "CloneSet".
Definition kindStatefulSet : string := "StatefulSet".
Definition kindDeployment : string := "Deployment".

Definition errUnknownType (wl : Unstructured) : error :=
  ErrorString
    ("we do not know how to prepare `" +:+ GetName wl
     +:+ "` as it has an unknown type " +:+ schema.String (GroupVersionKind wl)).

(** One arm of the dispatch: [pv.SetBool(path, true)], its error
    returned, nil otherwise. *)
Definition setPaused (assembledWorkload : Unstructured) (path : string) : Outcome :=
  match fieldpath.SetBool (UnstructuredContent assembledWorkload) path true with
  | inl err => Returns assembledWorkload (Some err)
  | inr content => Returns (mkUnstructured content) None
  end.

(** [PrepareWorkloadForRollout].  [ownerRef] is the copy that
    [metav1.GetControllerOf] hands out; the write to its [Controller]
    field goes through the pointer, which is nil when the workload has no
    controller. *)
Definition PrepareWorkloadForRollout : WorkloadOptionFn :=
  λ assembledWorkload _ _,
    match metav1.GetControllerOf assembledWorkload with
    | None => mkRun [] Panics
    | Some ownerRef =>
        let ownerRef := metav1.withController ownerRef (Some false) in
        mkRun []
          (if String.eqb (schema.Group (GroupVersionKind assembledWorkload)) kruiseGroup then
             if String.eqb (GetKind assembledWorkload) kindCloneSet then
               setPaused assembledWorkload cloneSetDisablePath
             else if String.eqb (GetKind assembledWorkload) kindStatefulSet then
               setPaused assembledWorkload advancedStatefulSetDisablePath
             else Returns assembledWorkload (Some (errUnknownType assembledWorkload))
           else if String.eqb (schema.Group (GroupVersionKind assembledWorkload)) appsGroupName
                   && String.eqb (GetKind assembledWorkload) kindDeployment then
             setPaused assembledWorkload deploymentDisablePath
           else Returns assembledWorkload (Some (errUnknownType assembledWorkload)))
    end.

End Options.

End assemble.

(* ===================================================================== *)
(** ** The resource assembler *)
(* ===================================================================== *)

(** More setters of [unstructured.Unstructured], used to stamp metadata. *)

(** [SetNamespace]: an empty namespace removes the field. *)
Definition SetNamespace (u : Unstructured) (namespace : string) : Unstructured :=
  if String.length namespace =? 0
  then mkUnstructured (RemoveNestedField (Object u) "metadata" ["namespace"])
  else setNestedField u (VStr namespace) "metadata" ["namespace"].

(** An owner reference as the unstructured converter writes it: the two
    pointer fields are written when they are not nil. *)
Definition ownerReferenceValue (ref : metav1.OwnerReference) : value :=
  let fields : gmap string value :=
    <["apiVersion" := VStr (metav1.APIVersion ref)]>
      (<["kind" := VStr (metav1.Kind ref)]>
         (<["name" := VStr (metav1.Name ref)]>
            (<["uid" := VStr (metav1.UID ref)]> ∅))) in
  let fields :=
    match metav1.Controller ref with
    | Some b => <["controller" := VBool b]> fields
    | None => fields
    end in
  let fields :=
    match metav1.BlockOwnerDeletion ref with
    | Some b => <["blockOwnerDeletion" := VBool b]> fields
    | None => fields
    end in
  VObj fields.

(** [SetOwnerReferences] with a slice that is not nil. *)
Definition SetOwnerReferences (u : Unstructured) (references : list metav1.OwnerReference)
  : Unstructured :=
  setNestedField u (VArr (ownerReferenceValue <$> references)) "metadata" ["ownerReferences"].

Module oam.
(** Modelled from the spec: the label and annotation keys of package
    [oam], which is missing from the sources embedded here.  They are
    the seven keys a workload carries (application name, application
    revision name, application-revision hash, component name, component
    revision name, workload type, resource role), the trait type key, and
    the one reserved annotation key. *)
Definition LabelAppName : string := "app.oam.dev/name".
Definition LabelAppRevision : string := "app.oam.dev/appRevision".
Definition LabelAppRevisionHash : string := "app.oam.dev/app-revision-hash".
Definition LabelAppComponent : string := "app.oam.dev/component".
Definition LabelAppComponentRevision : string := "app.oam.dev/revision".
Definition WorkloadTypeLabel : string := "workload.oam.dev/type".
Definition TraitTypeLabel : string := "trait.oam.dev/type".
Definition LabelOAMResourceType : string := "app.oam.dev/resourceType".
Definition ResourceTypeWorkload : string := "WORKLOAD".
Definition ResourceTypeTrait : string := "TRAIT".
Definition AnnotationAppGeneration : string := "app.oam.dev/generation".
End oam.

Module runtimev1alpha1.
(** [runtimev1alpha1.TypedReference] *)
Record TypedReference : Type :=
  mkTypedReference { APIVersion : string; Kind : string; Name : string }.
End runtimev1alpha1.

Module assembler.

Section Assembler.

Variable ComponentDefinition : Type.

(** The deep printer of the trait hash and the lower-casing of strings
    that are not ASCII, see [util.GenTraitName]. *)
Variable deepPrint : Unstructured → string.
Variable mapToLower : string → string.

(** Modelled from the spec: one entry of the revision bundle, "raw
    per-component manifests (workload + traits + scope bindings)", with
    the identity of the component: its name, its revision name and its
    workload type.  The assembler itself ([NewAppManifests],
    [GroupAssembledManifests], [AssembledManifests]) and the revision it
    reads are missing from the sources embedded here. *)
Record RawTrait : Type := mkRawTrait {
  traitType : string;
  traitManifest : Unstructured
}.

(** Modelled from the spec: a component of the bundle, the assembler's
    input, which is missing from the sources embedded here. *)
Record ComponentManifest : Type := mkComponentManifest {
  component : v1alpha2.Component;
  componentRevision : string;
  workloadType : string;
  rawWorkload : Unstructured;
  rawTraits : list RawTrait;
  scopeBindings : list runtimev1alpha1.TypedReference
}.

(** Modelled from the spec: the application revision as the assembler
    reads it: the identity of the application and of the revision, the
    namespace the resources inherit, the value of the reserved
    annotation, and the bundle. *)
Record Revision : Type := mkRevision {
  applicationName : string;
  applicationUID : string;
  revisionName : string;
  revisionHash : string;
  namespace : string;
  generation : string;
  bundle : list ComponentManifest
}.

(** Modelled from the spec: the identity of a component is its name. *)
Definition componentName (cm : ComponentManifest) : string :=
  v1alpha2.Name (component cm).

(** Modelled from the spec: "exactly one owner reference to the
    Application", the controller of what is assembled. *)
Definition applicationOwner (rev : Revision) : metav1.OwnerReference :=
  metav1.mkOwnerReference "core.oam.dev/v1beta1" "Application"
    (applicationName rev) (applicationUID rev) (Some true) (Some true).

(** Modelled from the spec: the labels every resource of a component
    carries. *)
Definition commonLabels (rev : Revision) (cm : ComponentManifest) : gmap string string :=
  <[oam.LabelAppName := applicationName rev]>
    (<[oam.LabelAppRevision := revisionName rev]>
       (<[oam.LabelAppRevisionHash := revisionHash rev]>
          (<[oam.LabelAppComponent := componentName cm]>
             (<[oam.LabelAppComponentRevision := componentRevision cm]> ∅)))).

(** Modelled from the spec: the workload adds the workload-type tag and the
    resource-role tag [workload] to the common labels. *)
Definition workloadLabels (rev : Revision) (cm : ComponentManifest) : gmap string string :=
  <[oam.WorkloadTypeLabel := workloadType cm]>
    (<[oam.LabelOAMResourceType := oam.ResourceTypeWorkload]> (commonLabels rev cm)).

(** Modelled from the spec: a trait mirrors the labels of the workload "but
    with resource-role tag = trait and an added trait-type tag". *)
Definition traitLabels (rev : Revision) (cm : ComponentManifest) (tr : RawTrait)
  : gmap string string :=
  <[oam.TraitTypeLabel := traitType tr]>
    (<[oam.LabelOAMResourceType := oam.ResourceTypeTrait]> (commonLabels rev cm)).

(** Modelled from the spec, step 2 of the algorithm, Metadata Stamping:
    the name of the component, "the full deterministic label set", the
    one reserved annotation, the namespace of the application, and the
    owner reference. *)
Definition stampWorkload (rev : Revision) (cm : ComponentManifest) : Unstructured :=
  let wl := SetName (rawWorkload cm) (componentName cm) in
  let wl := util.AddLabels wl (Some (workloadLabels rev cm)) in
  let wl := util.AddAnnotations wl (Some {[oam.AnnotationAppGeneration := generation rev]}) in
  let wl := SetNamespace wl (namespace rev) in
  SetOwnerReferences wl [applicationOwner rev].

(** Modelled from the spec: "assembly fails if the raw template already
    used a conflicting key that cannot be merged". *)
Definition annotationConflict (rev : Revision) (raw : Unstructured) : bool :=
  match at_key (GetAnnotations raw) oam.AnnotationAppGeneration with
  | Some v => negb (String.eqb v (generation rev))
  | None => false
  end.

(** Modelled from the spec: how the assembly of one component ends: a
    workload, the error of an option, or the crash of one. *)
Inductive Assembly : Type :=
  | Assembled (wl : Unstructured)
  | Failed (err : error)
  | Crashed.

(** Modelled from the spec, step 3: "Run the Workload Option Chain over
    the stamped workload, in configured order; any option returning an
    error aborts assembly for that component". *)
Fixpoint runOptions (options : list (assemble.WorkloadOptionFn ComponentDefinition))
    (wl : Unstructured) (comp : v1alpha2.Component)
    (def : option ComponentDefinition) : Assembly :=
  match options with
  | [] => Assembled wl
  | wo :: rest =>
      match outcome (assemble.ApplyToWorkload ComponentDefinition wo wl (Some comp) def) with
      | Returns wl' None => runOptions rest wl' comp def
      | Returns _ (Some err) => Failed err
      | Panics => Crashed
      end
  end.

(** Modelled from the spec, steps 2 and 3 for one component: the template
    is stamped and handed to the option chain. *)
Definition assembleWorkload (rev : Revision)
    (definitions : gmap string ComponentDefinition)
    (options : list (assemble.WorkloadOptionFn ComponentDefinition))
    (cm : ComponentManifest) : Assembly :=
  if annotationConflict rev (rawWorkload cm)
  then Failed (ErrorString "conflicting annotation in the workload template")
  else runOptions options (stampWorkload rev cm) (component cm)
         (definitions !! workloadType cm).

(** Modelled from the spec, step 4: a trait is stamped like the
    workload, named from the component name, the trait type and the hash
    of its content, and its [workloadRef] is set to the apiVersion, kind
    and name of the finalized workload. *)
Definition workloadRef (wl : Unstructured) : value :=
  VObj (<["apiVersion" := VStr (GetAPIVersion wl)]>
          (<["kind" := VStr (GetKind wl)]>
             (<["name" := VStr (GetName wl)]> ∅))).

(** Modelled from the spec, step 4 for one trait of a component. *)
Definition assembleTrait (rev : Revision) (cm : ComponentManifest)
    (wl : Unstructured) (tr : RawTrait) : Unstructured :=
  let trait := traitManifest tr in
  let name := util.GenTraitName Unstructured deepPrint mapToLower (componentName cm) trait
                (traitType tr) in
  let trait := SetName trait name in
  let trait := util.AddLabels trait (Some (traitLabels rev cm tr)) in
  let trait := util.AddAnnotations trait
                 (Some {[oam.AnnotationAppGeneration := generation rev]}) in
  let trait := SetNamespace trait (namespace rev) in
  let trait := SetOwnerReferences trait [applicationOwner rev] in
  setNestedField trait (workloadRef wl) "spec" ["workloadRef"].

(** Modelled from the spec, step 5: the typed reference of a finalized
    workload, the key of the Scope Reference Map. *)
Definition typedReference (u : Unstructured) : runtimev1alpha1.TypedReference :=
  runtimev1alpha1.mkTypedReference (GetAPIVersion u) (GetKind u) (GetName u).

(** Modelled from the spec: the contract
    [Assemble(revision) → (workloads, traits, scopes, error)], the error
    kept per component ("partial-failure semantics"). *)
Record Manifests : Type := mkManifests {
  workloads : gmap string Unstructured;
  traits : gmap string (list Unstructured);
  scopes : list (runtimev1alpha1.TypedReference * list runtimev1alpha1.TypedReference);
  failures : gmap string error;
  crashed : bool
}.

(** Modelled from the spec: nothing assembled yet. *)
Definition noManifests : Manifests := mkManifests ∅ ∅ [] ∅ false.

(** Modelled from the spec, steps 1 to 5 for one component; a component
    whose assembly fails is recorded and the others proceed. *)
Definition assembleComponent (rev : Revision)
    (definitions : gmap string ComponentDefinition)
    (options : list (assemble.WorkloadOptionFn ComponentDefinition))
    (acc : Manifests) (cm : ComponentManifest) : Manifests :=
  match assembleWorkload rev definitions options cm with
  | Assembled wl =>
      mkManifests
        (<[componentName cm := wl]> (workloads acc))
        (<[componentName cm := assembleTrait rev cm wl <$> rawTraits cm]> (traits acc))
        (match scopeBindings cm with
         | [] => scopes acc
         | bindings => scopes acc ++ [(typedReference wl, bindings)]
         end)
        (failures acc) (crashed acc)
  | Failed err =>
      mkManifests (workloads acc) (traits acc) (scopes acc)
        (<[componentName cm := err]> (failures acc)) (crashed acc)
  | Crashed =>
      mkManifests (workloads acc) (traits acc) (scopes acc) (failures acc) true
  end.

(** Modelled from the spec: [GroupAssembledManifests], the algorithm of
    the Resource Assembler over the components of the bundle in order. *)
Definition GroupAssembledManifests (rev : Revision)
    (definitions : gmap string ComponentDefinition)
    (options : list (assemble.WorkloadOptionFn ComponentDefinition)) : Manifests :=
  foldl (assembleComponent rev definitions options) noManifests (bundle rev).

(** Modelled from the spec: [AssembledManifests], every assembled
    resource: per component, in order, the workload and its traits. *)
Definition AssembledManifests (rev : Revision) (m : Manifests) : list Unstructured :=
  flat_map (λ cm,
              match workloads m !! componentName cm with
              | Some wl => wl :: default [] (traits m !! componentName cm)
              | None => []
              end) (bundle rev).

End Assembler.

End assembler.

(* ===================================================================== *)
(** ** The example application [test-assemble] *)
(* ===================================================================== *)

Module example.

Definition object (fields : list (string * value)) : value := VObj (list_to_map fields).

(** Modelled from the spec: manifests for the application [test-assemble]
    of the test, written by hand from the application in the test's
    comment: one component [test-comp] of type [webservice], a Deployment,
    with the traits [ingress], rendered as a Service and an Ingress, and
    [manualscaler].  The file [testdata/apprevision.yaml] the test reads is
    missing from the sources embedded here; these manifests carry no
    metadata of their own and serve as a sample input of the assembler, on
    which nothing is proved but by instantiating a general theorem. *)
Definition deployment : Unstructured :=
  mkUnstructured (list_to_map [
    ("apiVersion", VStr "apps/v1");
    ("kind", VStr "Deployment");
    ("spec", object [
       ("selector", object [("matchLabels", object [("app.oam.dev/component", VStr "test-comp")])]);
       ("template", object [
          ("metadata", object [("labels", object [("app.oam.dev/component", VStr "test-comp")])]);
          ("spec", object [("containers", VArr [object [
             ("name", VStr "test-comp");
             ("image", VStr "crccheck/hello-world");
             ("ports", VArr [object [("containerPort", VNum 8000)]])]])])])])]).

(** Modelled from the spec: the first resource of the trait [ingress]. *)
Definition service : Unstructured :=
  mkUnstructured (list_to_map [
    ("apiVersion", VStr "v1");
    ("kind", VStr "Service");
    ("spec", object [
       ("selector", object [("app.oam.dev/component", VStr "test-comp")]);
       ("ports", VArr [object [("port", VNum 8000); ("targetPort", VNum 8000)]])])]).

(** Modelled from the spec: the second resource of the trait [ingress]. *)
Definition ingress : Unstructured :=
  mkUnstructured (list_to_map [
    ("apiVersion", VStr "networking.k8s.io/v1beta1");
    ("kind", VStr "Ingress");
    ("spec", object [("rules", VArr [object [
       ("host", VStr "localhost");
       ("http", object [("paths", VArr [object [
          ("path", VStr "/");
          ("backend", object [("serviceName", VStr "test-comp");
                              ("servicePort", VNum 8000)])]])])]])])]).

(** Modelled from the spec: the resource of the trait [manualscaler],
    three replicas. *)
Definition manualscaler : Unstructured :=
  mkUnstructured (list_to_map [
    ("apiVersion", VStr "core.oam.dev/v1alpha2");
    ("kind", VStr "ManualScalerTrait");
    ("spec", object [("replicaCount", VNum 3)])]).

(** Modelled from the spec: the component [test-comp] with its three trait
    resources and the health scope the test looks up. *)
Definition testComp : assembler.ComponentManifest :=
  assembler.mkComponentManifest
    (v1alpha2.mkComponent "test-comp"
       (v1alpha2.mkComponentSpec (runtime.mkRawExtension "") None))
    "test-comp-v1" "webservice" deployment
    [assembler.mkRawTrait "ingress" service;
     assembler.mkRawTrait "ingress" ingress;
     assembler.mkRawTrait "manualscaler" manualscaler]
    [runtimev1alpha1.mkTypedReference "core.oam.dev/v1beta1" "HealthScope" "sample-health-scope"].

(** Modelled from the spec: the revision of [test-assemble] in the namespace
    [default]. *)
Definition testAssemble : assembler.Revision :=
  assembler.mkRevision "test-assemble" "" "test-assemble-v1" "1ee2d1c5f8b7f5a4" "default" "1"
    [testComp].

(** A Deployment and a ConfigMap that carry a controller owner reference
    to the application, and a ConfigMap that carries none. *)
Definition applicationReference : value :=
  object [("apiVersion", VStr "core.oam.dev/v1beta1");
          ("kind", VStr "Application");
          ("name", VStr "test-assemble");
          ("uid", VStr "");
          ("controller", VBool true);
          ("blockOwnerDeletion", VBool true)].

Definition ownedDeployment : Unstructured :=
  mkUnstructured (list_to_map [
    ("apiVersion", VStr "apps/v1");
    ("kind", VStr "Deployment");
    ("metadata", object [
       ("name", VStr "test-comp");
       ("namespace", VStr "default");
       ("labels", object [("app.oam.dev/revision", VStr "test-comp-v1")]);
       ("ownerReferences", VArr [applicationReference])]);
    ("spec", object [("replicas", VNum 1)])]).

Definition ownedConfigMap : Unstructured :=
  mkUnstructured (list_to_map [
    ("apiVersion", VStr "v1");
    ("kind", VStr "ConfigMap");
    ("metadata", object [
       ("name", VStr "test-comp");
       ("ownerReferences", VArr [applicationReference])])]).

Definition configMap : Unstructured :=
  mkUnstructured (list_to_map [
    ("apiVersion", VStr "v1");
    ("kind", VStr "ConfigMap");
    ("metadata", object [("name", VStr "test-comp")])]).

(** A Helm release, and a component that carries it. *)
Definition release : gmap string value :=
  list_to_map [
    ("metadata", object [("name", VStr "myrelease")]);
    ("spec", object [("chart", object [("spec", object [("chart", VStr "podinfo")])])])].

Definition HelmChartNamePath : list string := ["spec"; "chart"; "spec"; "chart"].

Definition helmComponent : v1alpha2.Component :=
  v1alpha2.mkComponent "test-comp"
    (v1alpha2.mkComponentSpec (runtime.mkRawExtension "")
       (Some (v1alpha2.mkHelm (runtime.mkRawExtension "release") (runtime.mkRawExtension "")))).

(** A decoder that knows the release above, and a cluster that holds one
    workload created by Helm for it. *)
Definition decoder (raw : string) : error + gmap string value :=
  if String.eqb raw "release" then inr release
  else inl (ErrorString "unexpected end of JSON input").

Definition helmWorkload : Unstructured :=
  mkUnstructured (list_to_map [
    ("apiVersion", VStr "apps/v1");
    ("kind", VStr "Deployment");
    ("metadata", object [
       ("name", VStr "myrelease-podinfo");
       ("namespace", VStr "default");
       ("annotations", object [("meta.helm.sh/release-name", VStr "myrelease");
                               ("meta.helm.sh/release-namespace", VStr "default")]);
       ("labels", object [("app.kubernetes.io/managed-by", VStr "Helm")])])]).

Definition cluster : client.Reader :=
  λ key _,
    if String.eqb (client.Namespace key) "default"
       && String.eqb (client.Name key) "myrelease-podinfo"
    then inr helmWorkload
    else inl (StatusError "NotFound" (client.Name key)).

(** A deep printer to run the assembler with: it prints the kind and the
    name of a manifest. *)
Definition printer (u : Unstructured) : string := GetKind u +:+ "/" +:+ GetName u.

End example.

(* ===================================================================== *)
(** ** Vocabulary of the statements *)
(* ===================================================================== *)

(** A component is Helm based when it is not nil and its Helm spec is not
    nil. *)
Definition helmOf (comp : option v1alpha2.Component) : option v1alpha2.Helm :=
  comp ≫= (λ comp, v1alpha2.SpecHelm (v1alpha2.Spec comp)).

(** The provenance of a live object matches a release: it has annotations
    and labels, its annotations [meta.helm.sh/release-name] and
    [meta.helm.sh/release-namespace] are the release name and the namespace,
    and its label [app.kubernetes.io/managed-by] is [Helm]. *)
Definition helmInfoMatches (live : Unstructured) (rlsName ns : string) : Prop :=
  ∃ annots labels,
    GetAnnotations live = Some annots ∧ GetLabels live = Some labels
    ∧ default "" (annots !! "meta.helm.sh/release-name") = rlsName
    ∧ default "" (annots !! "meta.helm.sh/release-namespace") = ns
    ∧ default "" (labels !! "app.kubernetes.io/managed-by") = "Helm".

(** [sub] occurs in [s]. *)
Definition substring_of (sub s : string) : Prop :=
  ∃ before after, s = before +:+ sub +:+ after.

(** The three kinds pre-rollout preparation knows: kruise [CloneSet], kruise
    advanced [StatefulSet], and [Deployment] of group [apps]. *)
Definition knownKind (wl : Unstructured) : Prop :=
  (schema.Group (GroupVersionKind wl) = "apps.kruise.io"
   ∧ (GetKind wl = "CloneSet" ∨ GetKind wl = "StatefulSet"))
  ∨ (schema.Group (GroupVersionKind wl) = "apps" ∧ GetKind wl = "Deployment").

(** Two field paths part ways: after a common prefix they name different
    fields. *)
Fixpoint diverge (p s : list string) : Prop :=
  match p, s with
  | a :: p', b :: s' => a ≠ b ∨ (a = b ∧ diverge p' s')
  | _, _ => False
  end.

(** The update-pause field of each known kind. *)
Definition pauseFieldOf (wl : Unstructured) : option (list string) :=
  if decide (schema.Group (GroupVersionKind wl) = "apps.kruise.io") then
    if decide (GetKind wl = "CloneSet") then Some ["spec"; "updateStrategy"; "paused"]
    else if decide (GetKind wl = "StatefulSet")
         then Some ["spec"; "updateStrategy"; "rollingUpdate"; "paused"]
         else None
  else if decide (schema.Group (GroupVersionKind wl) = "apps" ∧ GetKind wl = "Deployment")
       then Some ["spec"; "paused"]
       else None.

(** The object under [metadata], empty when there is none, and the
    manifests whose [metadata], when they have one, is an object. *)
Definition metadataOf (u : Unstructured) : gmap string value :=
  match Object u !! "metadata" with
  | Some (VObj md) => md
  | _ => ∅
  end.

Definition wfMetadata (u : Unstructured) : Prop :=
  Object u !! "metadata" = None ∨ ∃ md, Object u !! "metadata" = Some (VObj md).

(** A stamping step that writes the field [f] of [metadata]. *)
Definition stamps (f : string) (u u' : Unstructured) : Prop :=
  wfMetadata u'
  ∧ (∀ g, g ≠ f → metadataOf u' !! g = metadataOf u !! g)
  ∧ (∀ k, k ≠ "metadata" → Object u' !! k = Object u !! k).

(** Decimal numerals: strings of the digits [0] to [9]. *)
Inductive decimal : string → Prop :=
  | decimal_nil : decimal ""
  | decimal_cons (n : N) (s : string) :
      (n < 10)%N → decimal s → decimal (String (pretty_N_char n) s).

(** ** More vocabulary *)


(** A decoded JSON value that is an object. *)
Definition is_obj (v : value) : Prop :=
  match v with VObj _ => True | _ => False end.

#[global] Instance is_obj_dec (v : value) : Decision (is_obj v).
Proof. destruct v; simpl; apply _. Defined.

(** A field path is blocked in an object when one of its proper prefixes
    leads to a value that is not an object (a string, a number, a list,
    null). *)
Definition blocked (object : gmap string value) (path : list string) : Prop :=
  ∃ n v, n < length path
         ∧ NestedFieldNoCopy (VObj object) (take n path) = Found v ∧ ¬ is_obj v.

(** The byte [d] occurs in [s]. *)
Fixpoint has_byte (d : ascii) (s : string) : bool :=
  match s with
  | EmptyString => false
  | String c s' => Ascii.eqb c d || has_byte d s'
  end.


(* ===================================================================== *)
(** ** More of package [util]: labels, revision names, definitions *)
(* ===================================================================== *)

(** [error.Error()]: the message of an error; [errors.Wrap] prints its
    message, a colon and the cause. *)
Fixpoint Error (e : error) : string :=
  match e with
  | ErrorString msg => msg
  | Wrapped cause msg => msg +:+ ": " +:+ Error cause
  | StatusError _ msg => msg
  end.

Module oamutil.

(** *** Labels and annotations *)

(** [delete(exist, key)] for every key of [removeKeys]; deleting from the nil
    map does nothing. *)
Definition deleteKeys (exist : option (gmap string string)) (removeKeys : list string)
  : option (gmap string string) :=
  foldl (λ exist key, delete key <$> exist) exist removeKeys.

(** [RemoveLabels] *)
Definition RemoveLabels {Obj : Type} `{!labelAnnotationObject Obj} (o : Obj)
    (removeKeys : list string) : Obj :=
  let exist := getLabels o in
  let exist := deleteKeys exist removeKeys in
  setLabels o exist.

(** [RemoveAnnotations] *)
Definition RemoveAnnotations {Obj : Type} `{!labelAnnotationObject Obj} (o : Obj)
    (removeKeys : list string) : Obj :=
  let exist := getAnnotations o in
  let exist := deleteKeys exist removeKeys in
  setAnnotations o exist.

(** *** [strings.Split], [strings.TrimPrefix] and [strconv.Atoi] *)

(** [strings.TrimPrefix] *)
Definition strings_TrimPrefix (s prefix : string) : string :=
  if GoStrings.HasPrefix s prefix then GoStrings.drop (String.length prefix) s else s.

(** [strings.Split(s, sep)] for a separator that is not empty, read from
    left to right: [cur] is the piece being read, and [skip] counts the bytes
    of a separator just found that are still to be passed over. *)
Fixpoint splitFrom (s sep : string) (skip : nat) (cur : string) : list string :=
  match s with
  | EmptyString => [cur]
  | String c s' =>
      match skip with
      | S skip' => splitFrom s' sep skip' cur
      | 0 =>
          if GoStrings.HasPrefix s sep
          then cur :: splitFrom s' sep (String.length sep - 1) EmptyString
          else splitFrom s' sep 0 (cur +:+ String c EmptyString)
      end
  end.

(** [strings.Split]; with the empty separator the string is exploded, here
    byte by byte (Go explodes into UTF-8 sequences), and the empty string
    gives the empty slice. *)
Definition strings_Split (s sep : string) : list string :=
  match sep with
  | EmptyString => (λ c, String c EmptyString) <$> list_ascii_of_string s
  | _ => splitFrom s sep 0 EmptyString
  end.

(** The three ways [strconv.ParseUint] ends on a string of digits. *)
Inductive parsed : Type :=
  | Number (un : Z)
  | Syntax
  | Range.

Definition digit (c : ascii) : option Z :=
  let n := nat_of_ascii c in
  if (48 <=? n) && (n <=? 57) then Some (Z.of_nat (n - 48)) else None.

Definition maxUint64 : Z := 2 ^ 64 - 1.

(** The loop of [strconv.ParseUint(s, 10, 64)]: a byte that is no digit is a
    syntax error; an overflow of [uint64] is a range error, raised where it
    happens. *)
Fixpoint parseUint (s : string) (n : Z) : parsed :=
  match s with
  | EmptyString => Number n
  | String c s' =>
      match digit c with
      | None => Syntax
      | Some d =>
          if (maxUint64 / 10 + 1 <=? n)%Z then Range
          else if (maxUint64 <? n * 10 + d)%Z then Range
          else parseUint s' (n * 10 + d)
      end
  end.

Section Revisions.

(** The [*NumError] values of [strconv.Atoi] for an input: [ErrSyntax] and
    [ErrRange]. *)
Variable ErrSyntax ErrRange : string → error.

(** [strconv.Atoi] on a 64-bit platform: an optional sign, then digits; the
    value returned beside a range error is the nearest [int]. *)
Definition strconv_Atoi (s : string) : Z * option error :=
  let '(neg, body) :=
    match s with
    | String "-" body => (true, body)
    | String "+" body => (false, body)
    | _ => (false, s)
    end in
  match body with
  | EmptyString => (0%Z, Some (ErrSyntax s))
  | _ =>
      match parseUint body 0 with
      | Syntax => (0%Z, Some (ErrSyntax s))
      | Range =>
          if neg then ((- 2 ^ 63)%Z, Some (ErrRange s))
          else ((2 ^ 63 - 1)%Z, Some (ErrRange s))
      | Number un =>
          if neg then
            if (2 ^ 63 <? un)%Z then ((- 2 ^ 63)%Z, Some (ErrRange s))
            else ((- un)%Z, None)
          else
            if (2 ^ 63 <=? un)%Z then ((2 ^ 63 - 1)%Z, Some (ErrRange s))
            else (un, None)
      end
  end.

(** [ExtractRevisionNum].  [ErrBadRevisionName] is a package variable: its
    value at the time of the call is an argument.  [None] is the panic of
    [splits[len(splits)-1]] on an empty slice. *)
Definition ExtractRevisionNum (ErrBadRevisionName : error)
    (appRevision delimiter : string) : option (Z * option error) :=
  let splits := strings_Split appRevision delimiter in
  if length splits =? 1 then Some (0%Z, Some ErrBadRevisionName)
  else
    match last splits with
    | None => None
    | Some lastSplit =>
        if negb (GoStrings.HasPrefix lastSplit "v")
        then Some (0%Z, Some ErrBadRevisionName)
        else Some (strconv_Atoi (strings_TrimPrefix lastSplit "v"))
    end.

(** [ConvertDefinitionRevName]: "worker@v2 will be convert to worker-v2". *)
Definition ConvertDefinitionRevName (ErrBadRevisionName : error)
    (definitionName : string) : option (string * option error) :=
  match ExtractRevisionNum ErrBadRevisionName definitionName "@" with
  | None => None
  | Some (revNum, Some err) => Some (EmptyString, Some err)
  | Some (revNum, None) =>
      let defName := GoStrings.TrimSuffix definitionName ("@v" +:+ pretty revNum) in
      if String.eqb defName ""
      then Some (EmptyString,
                 Some (ErrorString ("invalid definition defName " +:+ definitionName)))
      else Some (defName +:+ "-v" +:+ pretty revNum, None)
  end.

End Revisions.

(** *** Definitions and their namespaces *)

(** The value a [context.Context] holds for the key
    [AppDefinitionNamespace], if any; the values stored under this key are
    strings. *)
Record Context : Type := mkContext { appDefinitionNamespace : option string }.

(** A reader at one type of object, [Get(ctx, key, obj)]: an error, or the
    object read into [obj]. *)
Definition TypedReader (Obj : Type) : Type := client.ObjectKey → Obj → error + Obj.

(** What a lookup leaves: the keys read, in order, the object the caller
    holds afterwards, and the error returned. *)
Record Fetch (Obj : Type) : Type :=
  mkFetch { lookups : list client.ObjectKey; fetched : Obj; failure : option error }.
Arguments mkFetch {Obj} lookups fetched failure.
Arguments lookups {Obj} f.
Arguments fetched {Obj} f.
Arguments failure {Obj} f.

(** [checkRequestNamespaceError] of a non-nil error *)
Definition checkRequestNamespaceError (err : error) : bool :=
  String.eqb (Error err) "an empty namespace may not be set when a resource name is provided".

Section Definitions.

(** [oam.SystemDefinitonNamespace] and [apierrors.IsNotFound]. *)
Variable SystemDefinitonNamespace : string.
Variable IsNotFound : error → bool.

(** [GetDefinitionNamespaceWithCtx] *)
Definition GetDefinitionNamespaceWithCtx (ctx : Context) : string :=
  match appDefinitionNamespace ctx with
  | None => SystemDefinitonNamespace
  | Some app => app
  end.

(** [SetNamespaceInCtx] *)
Definition SetNamespaceInCtx (ctx : Context) (namespace : string) : Context :=
  let namespace := if String.eqb namespace "" then "default" else namespace in
  mkContext (Some namespace).

(** [GetDefinition]: "get definition from two level namespace".  [dns] is
    the value of the environment variable [DEFINITION_NAMESPACE]. *)
Definition GetDefinition {Obj : Type} (dns : string) (ctx : Context)
    (cli : TypedReader Obj) (definition : Obj) (definitionName : string) : Fetch Obj :=
  let envKey := client.mkObjectKey dns definitionName in
  let appKey := client.mkObjectKey (GetDefinitionNamespaceWithCtx ctx) definitionName in
  let sysKey := client.mkObjectKey SystemDefinitonNamespace definitionName in
  let clusterKey := client.mkObjectKey "" definitionName in
  let fromApp (before : list client.ObjectKey) : Fetch Obj :=
    match cli appKey definition with
    | inr found => mkFetch (before ++ [appKey]) found None
    | inl err =>
        if IsNotFound err then
          match cli sysKey definition with
          | inr found => mkFetch (before ++ [appKey; sysKey]) found None
          | inl err =>
              if IsNotFound err then
                match cli clusterKey definition with
                | inr found =>
                    mkFetch (before ++ [appKey; sysKey; clusterKey]) found None
                | inl newErr =>
                    if checkRequestNamespaceError newErr
                    then mkFetch (before ++ [appKey; sysKey; clusterKey]) definition (Some err)
                    else mkFetch (before ++ [appKey; sysKey; clusterKey]) definition
                           (Some newErr)
                end
              else mkFetch (before ++ [appKey; sysKey]) definition (Some err)
          end
        else mkFetch (before ++ [appKey]) definition (Some err)
    end in
  if negb (String.eqb dns "") then
    match cli envKey definition with
    | inr found => mkFetch [envKey] found None
    | inl err =>
        if negb (IsNotFound err) then mkFetch [envKey] definition (Some err)
        else fromApp [envKey]
    end
  else fromApp [].

End Definitions.

(** *** [Min], [Max], [Abs] on the 64-bit [int] *)

Definition minInt : Z := (- 2 ^ 63)%Z.
Definition maxInt : Z := (2 ^ 63 - 1)%Z.

(** The value of an [int] expression: two's complement wrap-around. *)
Definition wrap (z : Z) : Z := ((z + 2 ^ 63) mod 2 ^ 64 - 2 ^ 63)%Z.

Definition Min (a b : Z) : Z := if (a <? b)%Z then a else b.
Definition Max (a b : Z) : Z := if (b <? a)%Z then a else b.
Definition Abs (a : Z) : Z := if (a <? 0)%Z then wrap (- a) else a.

End oamutil.


Module definitions.

Section Capabilities.

(** The four kinds of definition and the revision that records one of
    each: [v1beta1.ComponentDefinition], [v1beta1.TraitDefinition],
    [v1beta1.PolicyDefinition], [v1beta1.WorkflowStepDefinition] and
    [v1beta1.DefinitionRevision], declared with the API types. *)
Variable ComponentDefinition TraitDefinition PolicyDefinition WorkflowStepDefinition : Type.
Variable OtherObject : Type.

Record DefinitionRevisionSpec : Type := mkDefinitionRevisionSpec {
  specComponentDefinition : ComponentDefinition;
  specTraitDefinition : TraitDefinition;
  specPolicyDefinition : PolicyDefinition;
  specWorkflowStepDefinition : WorkflowStepDefinition
}.

Record DefinitionRevision : Type := mkDefinitionRevision {
  revisionObjectName : string;
  revisionSpec : DefinitionRevisionSpec
}.

(** The [runtime.Object] a caller passes as [definition], by its dynamic
    type. *)
Inductive Object : Type :=
  | ComponentDefinitionObject (def : ComponentDefinition)
  | TraitDefinitionObject (def : TraitDefinition)
  | PolicyDefinitionObject (def : PolicyDefinition)
  | WorkflowStepDefinitionObject (def : WorkflowStepDefinition)
  | Other (obj : OtherObject).

Variable ErrSyntax ErrRange : string → error.
Variable SystemDefinitonNamespace : string.
Variable IsNotFound : error → bool.

(** [new(v1beta1.DefinitionRevision)] *)
Variable newDefinitionRevision : DefinitionRevision.

(** The reader, at the two types of object it is asked for here. *)
Record Reader : Type := mkReader {
  GetObject : oamutil.TypedReader Object;
  GetRevision : oamutil.TypedReader DefinitionRevision
}.

(** What [fetchDefinitionRev] returns, the keys it read and the value it
    leaves in the package variable [ErrBadRevisionName]. *)
Record RevisionFetch : Type := mkRevisionFetch {
  isLatestRevision : bool;
  defRev : option DefinitionRevision;
  revisionError : option error;
  revisionLookups : list client.ObjectKey;
  ErrBadRevisionName' : error
}.

(** [fetchDefinitionRev].  The target of [errors.As(err,
    &ErrBadRevisionName)] is a pointer to a variable of the interface type
    [error]: every error is assignable to it, so [As] stores [err] in the
    variable and reports true.  [None] is a panic. *)
Definition fetchDefinitionRev (ErrBadRevisionName : error) (dns : string)
    (ctx : oamutil.Context) (cli : Reader) (definitionName : string)
  : option RevisionFetch :=
  match oamutil.ConvertDefinitionRevName ErrSyntax ErrRange ErrBadRevisionName
          definitionName with
  | None => None
  | Some (_, Some err) => Some (mkRevisionFetch true None None [] err)
  | Some (defRevName, None) =>
      let fetch :=
        oamutil.GetDefinition SystemDefinitonNamespace IsNotFound dns ctx
          (GetRevision cli) newDefinitionRevision defRevName in
      match oamutil.failure fetch with
      | Some err =>
          Some (mkRevisionFetch false None (Some err) (oamutil.lookups fetch)
                  ErrBadRevisionName)
      | None =>
          Some (mkRevisionFetch false (Some (oamutil.fetched fetch)) None
                  (oamutil.lookups fetch) ErrBadRevisionName)
      end
  end.

(** [GetCapabilityDefinition]: "can get different versions of
    ComponentDefinition/TraitDefinition".  The result is the fetch and the
    value left in [ErrBadRevisionName]. *)
Definition GetCapabilityDefinition (ErrBadRevisionName : error) (dns : string)
    (ctx : oamutil.Context) (cli : Reader) (definition : Object) (definitionName : string)
  : option (oamutil.Fetch Object * error) :=
  match fetchDefinitionRev ErrBadRevisionName dns ctx cli definitionName with
  | None => None
  | Some rev =>
      match revisionError rev with
      | Some err =>
          Some (oamutil.mkFetch (revisionLookups rev) definition (Some err),
                ErrBadRevisionName' rev)
      | None =>
          if isLatestRevision rev then
            let fetch :=
              oamutil.GetDefinition SystemDefinitonNamespace IsNotFound dns ctx
                (GetObject cli) definition definitionName in
            Some (oamutil.mkFetch (revisionLookups rev ++ oamutil.lookups fetch)
                    (oamutil.fetched fetch) (oamutil.failure fetch),
                  ErrBadRevisionName' rev)
          else
            match defRev rev with
            | None => None
            | Some defRev =>
                let spec := revisionSpec defRev in
                let definition :=
                  match definition with
                  | ComponentDefinitionObject _ =>
                      ComponentDefinitionObject (specComponentDefinition spec)
                  | TraitDefinitionObject _ =>
                      TraitDefinitionObject (specTraitDefinition spec)
                  | PolicyDefinitionObject _ =>
                      PolicyDefinitionObject (specPolicyDefinition spec)
                  | WorkflowStepDefinitionObject _ =>
                      WorkflowStepDefinitionObject (specWorkflowStepDefinition spec)
                  | Other obj => Other obj
                  end in
                Some (oamutil.mkFetch (revisionLookups rev) definition None,
                      ErrBadRevisionName' rev)
            end
      end
  end.

End Capabilities.

End definitions.

Module workloads.

Section Fetching.

(** [discoverymapper.DiscoveryMapper], its method [RESTMapping]: the
    resource of a group, kind and version, or an error. *)
Variable RESTMapping : string → string → string → error + string.

(** [GetDefinitionName]: "the format of the definition of a resource is
    <kind plurals>.<group>"; "typeLabel specified which Definition it is, if
    specified, will directly get definition from label". *)
Definition GetDefinitionName (u : Unstructured) (typeLabel : string) : error + string :=
  let fromMapper :=
    match schema.ParseGroupVersion (GetAPIVersion u) with
    | None => inl (ErrorString ("unexpected GroupVersion string: " +:+ GetAPIVersion u))
    | Some groupVersion =>
        match RESTMapping (schema.gvGroup groupVersion) (GetKind u)
                (schema.gvVersion groupVersion) with
        | inl err => inl err
        | inr resource => inr (resource +:+ "." +:+ schema.gvGroup groupVersion)
        end
    end in
  if negb (String.eqb typeLabel "") then
    match GetLabels u with
    | Some labels =>
        match labels !! typeLabel with
        | Some definitionName => inr definitionName
        | None => fromMapper
        end
    | None => fromMapper
    end
  else fromMapper.

(** A trait as [FetchWorkload] sees it ([oam.Trait]): its namespace and its
    workload reference. *)
Record Trait : Type := mkTrait {
  traitNamespace : string;
  workloadReference : runtimev1alpha1.TypedReference
}.

(** [SetAPIVersion] and [SetKind] of [unstructured.Unstructured] *)
Definition SetAPIVersion (u : Unstructured) (version : string) : Unstructured :=
  setNestedField u (VStr version) "apiVersion" [].

Definition SetKind (u : Unstructured) (kind : string) : Unstructured :=
  setNestedField u (VStr kind) "kind" [].

(** [FetchWorkload]: "fetch the workload that a trait refers to"; the keys
    read and the workload or the error. *)
Definition FetchWorkload (c : client.Reader) (oamTrait : Trait)
  : list client.ObjectKey * (error + Unstructured) :=
  let workload := mkUnstructured ∅ in
  let workloadRef := workloadReference oamTrait in
  if (String.length (runtimev1alpha1.Kind workloadRef) =? 0)
     || (String.length (runtimev1alpha1.APIVersion workloadRef) =? 0)
     || (String.length (runtimev1alpha1.Name workloadRef) =? 0)
  then ([], inl (ErrorString "no workload reference"))
  else
    let workload := SetAPIVersion workload (runtimev1alpha1.APIVersion workloadRef) in
    let workload := SetKind workload (runtimev1alpha1.Kind workloadRef) in
    let wn := client.mkObjectKey (traitNamespace oamTrait) (runtimev1alpha1.Name workloadRef) in
    ([wn], c wn workload).

End Fetching.

Section Parents.

(** [v1alpha2.ApplicationConfigurationKind] and
    [v1alpha2.ApplicationContextKind], and the two types of parent. *)
Variable ApplicationConfigurationKind ApplicationContextKind : string.
Variable ApplicationConfiguration ApplicationContext : Type.
Variable newApplicationConfiguration : ApplicationConfiguration.
Variable newApplicationContext : ApplicationContext.

Inductive Parent : Type :=
  | ParentConfiguration (ac : ApplicationConfiguration)
  | ParentContext (ctx : ApplicationContext).

(** [ErrLocateAppConfig] *)
Definition ErrLocateAppConfig : string :=
  "cannot locate the parent application configuration to emit event to".

(** The body of the loop of [LocateParentAppConfig] for one owner: [Some]
    when the function returns in this iteration. *)
Definition locateAt (getConfiguration : oamutil.TypedReader ApplicationConfiguration)
    (getContext : oamutil.TypedReader ApplicationContext) (namespace : string)
    (o : metav1.OwnerReference) : option (list client.ObjectKey * (error + Parent)) :=
  let nn := client.mkObjectKey namespace (metav1.Name o) in
  let first :=
    if String.eqb (metav1.Kind o) ApplicationConfigurationKind then
      if 0 <? String.length (metav1.Name o) then
        Some ([nn], match getConfiguration nn newApplicationConfiguration with
                    | inl err => inl err
                    | inr eventObj => inr (ParentConfiguration eventObj)
                    end)
      else None
    else None in
  match first with
  | Some result => Some result
  | None =>
      if String.eqb (metav1.Kind o) ApplicationContextKind then
        if 0 <? String.length (metav1.Name o) then
          Some ([nn], match getContext nn newApplicationContext with
                      | inl err => inl err
                      | inr eventObj => inr (ParentContext eventObj)
                      end)
        else None
      else None
  end.

(** [LocateParentAppConfig] over the owner references and the namespace of
    the object. *)
Fixpoint LocateParentAppConfig (getConfiguration : oamutil.TypedReader ApplicationConfiguration)
    (getContext : oamutil.TypedReader ApplicationContext) (namespace : string)
    (owners : list metav1.OwnerReference) : list client.ObjectKey * (error + Parent) :=
  match owners with
  | [] => ([], inl (ErrorString ErrLocateAppConfig))
  | o :: rest =>
      match locateAt getConfiguration getContext namespace o with
      | Some result => result
      | None => LocateParentAppConfig getConfiguration getContext namespace rest
      end
  end.

End Parents.

End workloads.


(** The namespaces in which a definition is looked for, in order: the one of
    the environment when it is set, the one of the application, the system
    one, and none (a cluster-scoped definition). *)
Definition candidates (SystemDefinitonNamespace dns : string) (ctx : oamutil.Context)
    (definitionName : string) : list client.ObjectKey :=
  (if String.eqb dns "" then [] else [client.mkObjectKey dns definitionName])
  ++ [client.mkObjectKey
        (oamutil.GetDefinitionNamespaceWithCtx SystemDefinitonNamespace ctx) definitionName;
      client.mkObjectKey SystemDefinitonNamespace definitionName;
      client.mkObjectKey "" definitionName].

(** An owner reference that names a parent application: its kind is one of
    the two parent kinds and its name is not empty. *)
Definition namesParent (ApplicationConfigurationKind ApplicationContextKind : string)
    (o : metav1.OwnerReference) : Prop :=
  (metav1.Kind o = ApplicationConfigurationKind ∨ metav1.Kind o = ApplicationContextKind)
  ∧ metav1.Name o ≠ "".


(* ===================================================================== *)
(** ** More sample objects *)
(* ===================================================================== *)

Module sample.

(** The Deployment of the examples after preparation: [spec.paused] is
    set. *)
Definition pausedDeployment : Unstructured :=
  mkUnstructured (list_to_map [
    ("apiVersion", VStr "apps/v1");
    ("kind", VStr "Deployment");
    ("metadata", example.object [
       ("name", VStr "test-comp");
       ("namespace", VStr "default");
       ("labels", example.object [("app.oam.dev/revision", VStr "test-comp-v1")]);
       ("ownerReferences", VArr [example.applicationReference])]);
    ("spec", example.object [("replicas", VNum 1); ("paused", VBool true)])]).

(** A Helm-based component whose release does not decode. *)
Definition brokenComponent : v1alpha2.Component :=
  v1alpha2.mkComponent "test-comp"
    (v1alpha2.mkComponentSpec (runtime.mkRawExtension "")
       (Some (v1alpha2.mkHelm (runtime.mkRawExtension "{") (runtime.mkRawExtension "")))).

(** A manifest with two labels and one annotation, its metadata, and an
    application that its labels and annotations are passed from. *)
Definition webMetadata : gmap string value :=
  list_to_map [
    ("name", VStr "web");
    ("labels", example.object [("app", VStr "web"); ("tier", VStr "front")]);
    ("annotations", example.object [("owner", VStr "team-a")])].

Definition web : Unstructured :=
  mkUnstructured (list_to_map [
    ("apiVersion", VStr "v1");
    ("kind", VStr "ConfigMap");
    ("metadata", VObj webMetadata)]).


(** A manifest whose [metadata] is a string, and one whose labels hold a
    number. *)
Definition brokenMetadata : Unstructured :=
  mkUnstructured (list_to_map [("kind", VStr "ConfigMap"); ("metadata", VStr "web")]).

Definition numberedMetadata : gmap string value :=
  list_to_map [("name", VStr "web"); ("labels", example.object [("replicas", VNum 3)])].

Definition numbered : Unstructured :=
  mkUnstructured (list_to_map [("kind", VStr "ConfigMap"); ("metadata", VObj numberedMetadata)]).

(** A deep printer to hash with: it prints the kind and the name of a
    manifest. *)
Definition printer (u : Unstructured) : string := GetKind u +:+ "/" +:+ GetName u.

(** Errors: those of [strconv.Atoi], standing for its [*NumError] values,
    the initial value of [ErrBadRevisionName], and [apierrors.IsNotFound]
    on the errors of the sample readers. *)
Definition ErrSyntax (s : string) : error :=
  Wrapped (ErrorString "invalid syntax") ("strconv.Atoi: parsing " +:+ s).

Definition ErrRange (s : string) : error :=
  Wrapped (ErrorString "value out of range") ("strconv.Atoi: parsing " +:+ s).

Definition ErrBadRevisionName : error := ErrorString "bad revision name".

Definition IsNotFound (e : error) : bool :=
  match e with
  | StatusError reason _ => String.eqb reason "NotFound"
  | _ => false
  end.

(** A cluster that holds the component definition [worker] and its second
    revision in the system namespace; definitions are told apart by a
    description. *)
Definition SystemDefinitonNamespace : string := "vela-system".

Definition workerRevision : definitions.DefinitionRevision string string string string :=
  definitions.mkDefinitionRevision string string string string "worker-v2"
    (definitions.mkDefinitionRevisionSpec string string string string
       "worker, revision 2" "" "" "").

Definition capabilities : definitions.Reader string string string string unit :=
  definitions.mkReader string string string string unit
    (λ key _,
       if String.eqb (client.Namespace key) SystemDefinitonNamespace
          && String.eqb (client.Name key) "worker"
       then inr (definitions.ComponentDefinitionObject string string string string unit
                   "worker, latest")
       else inl (StatusError "NotFound" (client.Name key)))
    (λ key _,
       if String.eqb (client.Namespace key) SystemDefinitonNamespace
          && String.eqb (client.Name key) "worker-v2"
       then inr workerRevision
       else inl (StatusError "NotFound" (client.Name key))).

End sample.

(* ===================================================================== *)
(** * Properties *)
(* ===================================================================== *)

(** ** Strings *)

Lemma append_cons (x : ascii) (a b : string) : String x a +:+ b = String x (a +:+ b).
Proof. reflexivity. Qed.

Lemma append_nil_l (s : string) : "" +:+ s = s.
Proof. reflexivity. Qed.

Lemma append_assoc (a b c : string) : (a +:+ b) +:+ c = a +:+ (b +:+ c).
Proof.
  induction a as [|x a IH]; [done |]. by rewrite !append_cons, IH.
Qed.

Lemma append_nil_r (s : string) : s +:+ "" = s.
Proof. induction s as [|x s IH]; [done |]. by rewrite append_cons, IH. Qed.

Lemma length_append (a b : string) :
  String.length (a +:+ b) = String.length a + String.length b.
Proof. induction a as [|x a IH]; [done |]. rewrite append_cons. simpl. by rewrite IH. Qed.

Lemma take_drop (n : nat) (s : string) : GoStrings.take n s +:+ GoStrings.drop n s = s.
Proof.
  revert s. induction n as [|n IH]; intros [|c s]; simpl; try done.
  by rewrite append_cons, IH.
Qed.

Lemma length_take (n : nat) (s : string) :
  n ≤ String.length s → String.length (GoStrings.take n s) = n.
Proof.
  revert s. induction n as [|n IH]; intros [|c s]; simpl; try done; try lia.
  intros Hle. rewrite IH; lia.
Qed.

Lemma take_append (a b : string) : GoStrings.take (String.length a) (a +:+ b) = a.
Proof.
  induction a as [|x a IH]; [by destruct b |].
  rewrite append_cons. simpl. by rewrite IH.
Qed.

Lemma drop_append (a b : string) : GoStrings.drop (String.length a) (a +:+ b) = b.
Proof. induction a as [|x a IH]; [by destruct b | by rewrite append_cons]. Qed.

Lemma HasPrefix_spec (s prefix : string) :
  GoStrings.HasPrefix s prefix = true ↔ ∃ rest, s = prefix +:+ rest.
Proof.
  revert s. induction prefix as [|p prefix IH]; intros s; simpl.
  - split; [intros _; by exists s | done].
  - destruct s as [|c s].
    + split; [done | intros [rest Hrest]; discriminate].
    + rewrite andb_true_iff, Ascii.eqb_eq, IH. split.
      * intros [-> [rest ->]]. by exists rest.
      * intros [rest Hrest]. rewrite append_cons in Hrest.
        injection Hrest as -> ->. split; [done | by exists rest].
Qed.

Lemma HasSuffix_spec (s suffix : string) :
  GoStrings.HasSuffix s suffix = true ↔ ∃ front, s = front +:+ suffix.
Proof.
  unfold GoStrings.HasSuffix. rewrite andb_true_iff, Nat.leb_le, String.eqb_eq. split.
  - intros [_ Hdrop].
    exists (GoStrings.take (String.length s - String.length suffix) s).
    pose proof (take_drop (String.length s - String.length suffix) s) as Hsplit.
    by rewrite Hdrop in Hsplit.
  - intros [front ->]. rewrite length_append. split; [lia |].
    replace (String.length front + String.length suffix - String.length suffix)
      with (String.length front) by lia.
    apply drop_append.
Qed.

(** [strings.Contains] decides the substring relation. *)
Lemma Contains_spec (s substr : string) :
  GoStrings.Contains s substr = true ↔ ∃ before after, s = before +:+ substr +:+ after.
Proof.
  induction s as [|c s IH].
  - simpl. rewrite orb_false_r, HasPrefix_spec. split.
    + intros [rest Hrest]. by exists "", rest.
    + intros [[|b before] [after Heq]]; [by exists after | discriminate].
  - cbn [GoStrings.Contains]. rewrite orb_true_iff, HasPrefix_spec, IH. split.
    + intros [[rest Hrest] | (before & after & ->)].
      * by exists "", rest.
      * by exists (String c before), after.
    + intros [[|b before] [after Heq]].
      * left. by exists after.
      * right. rewrite append_cons in Heq. injection Heq as -> ->. by exists before, after.
Qed.

(** [strings.TrimSuffix] removes one trailing occurrence of the suffix, if
    there is one. *)
Lemma TrimSuffix_spec (s suffix : string) :
  (s = GoStrings.TrimSuffix s suffix +:+ suffix)
  ∨ (GoStrings.TrimSuffix s suffix = s ∧ ∀ front, s ≠ front +:+ suffix).
Proof.
  unfold GoStrings.TrimSuffix.
  destruct (GoStrings.HasSuffix s suffix) eqn:Hsuf.
  - left. apply HasSuffix_spec in Hsuf as [front ->].
    rewrite length_append.
    replace (String.length front + String.length suffix - String.length suffix)
      with (String.length front) by lia.
    by rewrite take_append.
  - right. split; [done |]. intros front ->.
    assert (GoStrings.HasSuffix (front +:+ suffix) suffix = true) as Htrue
      by (apply HasSuffix_spec; by exists front).
    congruence.
Qed.

(** ** Maps *)

Lemma fold_insert_union (m r0 : gmap string string) :
  map_fold (λ k v r, <[k := v]> r) r0 m = m ∪ r0.
Proof.
  apply (map_fold_weak_ind (λ r m, r = m ∪ r0)).
  - by rewrite (left_id_L ∅ (∪)).
  - intros k v m' r Hfresh ->. by rewrite insert_union_l.
Qed.

Lemma MergeMapOverrideWithDst_union (src dst : option (gmap string string)) :
  util.MergeMapOverrideWithDst src dst =
  match src, dst with
  | None, None => None
  | _, _ => Some (default ∅ dst ∪ default ∅ src)
  end.
Proof.
  unfold util.MergeMapOverrideWithDst.
  destruct src, dst; simpl; rewrite ?fold_insert_union, ?map_fold_empty; try done;
    by rewrite ?(right_id_L ∅ (∪)), ?(left_id_L ∅ (∪)).
Qed.

(** C10.  [MergeMapOverrideWithDst src dst] is nil exactly when both
    arguments are nil, so an empty map that is not nil gives a map that is
    not nil; and at every key the result holds the value of [dst] when [dst]
    has the key, and what [src] holds there otherwise: [dst] wins every
    conflict. *)
Theorem MergeMapOverrideWithDst_dst_wins (src dst : option (gmap string string)) :
  (util.MergeMapOverrideWithDst src dst = None ↔ src = None ∧ dst = None)
  ∧ (∀ k, at_key (util.MergeMapOverrideWithDst src dst) k =
          match at_key dst k with
          | Some v => Some v
          | None => at_key src k
          end)
  ∧ util.MergeMapOverrideWithDst (Some ∅) None = Some ∅
  ∧ util.MergeMapOverrideWithDst None (Some ∅) = Some ∅.
Proof.
  rewrite !MergeMapOverrideWithDst_union. split_and!.
  - destruct src, dst; intuition congruence.
  - intros k. unfold at_key.
    destruct src as [src|], dst as [dst|]; simpl; try done;
      rewrite lookup_union, ?lookup_empty;
      repeat match goal with |- context [?m !! k] => destruct (m !! k) end; done.
  - simpl. by rewrite (left_id_L ∅ (∪)).
  - simpl. by rewrite (left_id_L ∅ (∪)).
Qed.

(** ** The discovery option *)

Lemma qualifiedWorkloadName_spec (R C : string) :
  let q := assemble.qualifiedWorkloadName R C in
  let joined := R +:+ "-" +:+ C in
  (substring_of C R → q = R)
  ∧ (¬ substring_of C R → String.length joined ≤ 63 → q = joined)
  ∧ (¬ substring_of C R → 63 < String.length joined →
       ∃ first63 rest,
         joined = first63 +:+ rest ∧ String.length first63 = 63
         ∧ (first63 = q +:+ "-" ∨ (q = first63 ∧ ∀ front, first63 ≠ front +:+ "-"))).
Proof.
  intros q joined. subst q joined. unfold assemble.qualifiedWorkloadName.
  set (joined := R +:+ "-" +:+ C).
  destruct (GoStrings.Contains R C) eqn:Hcontains; simpl.
  - apply Contains_spec in Hcontains. by split_and!.
  - assert (¬ substring_of C R) as Hnot.
    { intros Hsub. apply Contains_spec in Hsub. congruence. }
    split_and!; [done | |].
    + intros _ Hlen. destruct (Nat.ltb_spec 63 (String.length joined)); [lia | done].
    + intros _ Hlen. destruct (Nat.ltb_spec 63 (String.length joined)); [| lia].
      exists (GoStrings.take 63 joined), (GoStrings.drop 63 joined).
      split_and!.
      * by rewrite take_drop.
      * apply length_take. lia.
      * destruct (TrimSuffix_spec (GoStrings.take 63 joined) "-") as [Htrim | [Htrim Hno]].
        -- by left.
        -- right. by split.
Qed.

Section DiscoveryProperties.

Context (ComponentDefinition : Type).
Context (json_Unmarshal : string → error + gmap string value).
Context (HelmChartNamePath : list string).

Abbreviation discover := (assemble.discoverHelmModuleWorkload json_Unmarshal HelmChartNamePath).
Abbreviation decode := (assemble.RawExtension2Unstructured json_Unmarshal).

(** C9.  For a component that is not Helm based (the component is nil, or
    its Helm spec is nil) the discovery option returns no error, leaves the
    assembled workload as it is and issues no read. *)
Theorem discoverHelmModuleWorkload_not_helm
    (c : client.Reader) (wl : Unstructured) (comp : option v1alpha2.Component) :
  comp = None ∨ (∃ comp', comp = Some comp' ∧ v1alpha2.SpecHelm (v1alpha2.Spec comp') = None) →
  discover c wl comp = mkRun [] (Returns wl None)
  ∧ assemble.DiscoveryHelmBasedWorkload ComponentDefinition json_Unmarshal
      HelmChartNamePath c wl comp None = mkRun [] (Returns wl None).
Proof.
  unfold assemble.DiscoveryHelmBasedWorkload, assemble.discoverHelmModuleWorkload.
  intros [-> | (comp' & -> & Hhelm)]; simpl; [done |]. by rewrite Hhelm.
Qed.

(** C2.  For a Helm-based component whose release decodes, with release
    name [R] and chart name [C], the option reads exactly one object, in
    the namespace of the workload and under the qualified name [q]: [q] is
    [R] when [C] occurs in [R]; otherwise it is [R-C], and when that is
    longer than 63 it is the first 63 characters of [R-C] without a
    trailing [-]. *)
Theorem discoverHelmModuleWorkload_qualified_name
    (c : client.Reader) (wl : Unstructured) (comp : option v1alpha2.Component)
    (helm : v1alpha2.Helm) (rls : Unstructured) (C : string) :
  helmOf comp = Some helm →
  decode (v1alpha2.Release helm) = inr rls →
  NestedString (Object rls) HelmChartNamePath = Found C →
  let R := GetName rls in
  let joined := R +:+ "-" +:+ C in
  ∃ q,
    reads (discover c wl comp) = [client.mkObjectKey (GetNamespace wl) q]
    ∧ (substring_of C R → q = R)
    ∧ (¬ substring_of C R → String.length joined ≤ 63 → q = joined)
    ∧ (¬ substring_of C R → 63 < String.length joined →
         ∃ first63 rest,
           joined = first63 +:+ rest ∧ String.length first63 = 63
           ∧ (first63 = q +:+ "-" ∨ (q = first63 ∧ ∀ front, first63 ≠ front +:+ "-"))).
Proof.
  intros Hhelm Hdecode Hchart R joined.
  exists (assemble.qualifiedWorkloadName R C). split.
  - unfold assemble.discoverHelmModuleWorkload. unfold helmOf in Hhelm.
    rewrite Hhelm, Hdecode, Hchart. fold R.
    destruct (c _ _) as [err | live]; [done |].
    by destruct (assemble.notManagedByHelm _ _ _ _).
  - apply qualifiedWorkloadName_spec.
Qed.

Lemma notManagedByHelm_spec (live : Unstructured) (rlsName ns : string) :
  assemble.notManagedByHelm (GetAnnotations live) (GetLabels live) rlsName ns = false
  ↔ helmInfoMatches live rlsName ns.
Proof.
  unfold assemble.notManagedByHelm, helmInfoMatches.
  rewrite !orb_false_iff, !negb_false_iff, !String.eqb_eq, !bool_decide_eq_false.
  destruct (GetAnnotations live) as [annots|], (GetLabels live) as [labels|]; simpl.
  - split.
    + intros ((((_ & _) & ?) & ?) & ?). by exists annots, labels.
    + intros (a & l & [= <-] & [= <-] & ? & ? & ?). done.
  - split; [intros ((((_ & ?) & _) & _) & _); done | intros (a & l & _ & ? & _); done].
  - split; [intros ((((? & _) & _) & _) & _); done | intros (a & l & ? & _); done].
  - split; [intros ((((? & _) & _) & _) & _); done | intros (a & l & ? & _); done].
Qed.

(** C4.  For a Helm-based component whose release decodes to the name
    [R] and the chart [C], with [key] the namespace of the workload and the
    qualified name: when the read fails (no live object under the name) its
    error is returned; when a live object is found whose provenance does
    not match the release name, the namespace and [Helm], the mismatch
    error is returned; in both cases the workload is left as it was.  When
    the provenance matches, the workload becomes the live object and no
    error is returned; and the option returns without error only so. *)
Theorem discoverHelmModuleWorkload_found_or_not
    (c : client.Reader) (wl : Unstructured) (comp : option v1alpha2.Component)
    (helm : v1alpha2.Helm) (rls : Unstructured) (C : string) :
  helmOf comp = Some helm →
  decode (v1alpha2.Release helm) = inr rls →
  NestedString (Object rls) HelmChartNamePath = Found C →
  let R := GetName rls in
  let ns := GetNamespace wl in
  let key := client.mkObjectKey ns (assemble.qualifiedWorkloadName R C) in
  let found := c key (mkUnstructured ∅) in
  (∀ err, found = inl err →
     discover c wl comp = mkRun [key] (Returns wl (Some err)))
  ∧ (∀ live, found = inr live → ¬ helmInfoMatches live R ns →
       discover c wl comp =
       mkRun [key] (Returns wl (Some (assemble.errNotMatchHelmInfo R ns))))
  ∧ (∀ live, found = inr live → helmInfoMatches live R ns →
       discover c wl comp = mkRun [key] (Returns live None))
  ∧ (∀ after, outcome (discover c wl comp) = Returns after None ↔
              found = inr after ∧ helmInfoMatches after R ns).
Proof.
  intros Hhelm Hdecode Hchart R ns key found.
  unfold assemble.discoverHelmModuleWorkload. unfold helmOf in Hhelm.
  rewrite Hhelm, Hdecode, Hchart. fold R ns key. subst found.
  destruct (c key (mkUnstructured ∅)) as [err | live].
  - split_and!; try (intros; by simplify_eq).
    intros after. split; [done | intros [? _]; done].
  - destruct (assemble.notManagedByHelm _ _ R ns) eqn:Hcheck.
    + assert (¬ helmInfoMatches live R ns) as Hno.
      { intros Hyes. apply notManagedByHelm_spec in Hyes. congruence. }
      split_and!; try (intros; by simplify_eq).
      intros after. split; [done | intros [[= <-] Hyes]; done].
    + apply notManagedByHelm_spec in Hcheck.
      split_and!; try (intros; by simplify_eq).
      intros after. simpl. split; [intros [= <-]; done | intros [[= <-] _]; done].
Qed.

End DiscoveryProperties.

(** ** Field paths *)

Lemma NestedFieldNoCopy_empty (p : list string) :
  p ≠ [] → NestedFieldNoCopy (VObj ∅) p = NotFound.
Proof. destruct p as [|f p]; [done |]. intros _. simpl. by rewrite lookup_empty. Qed.

(** What [setValue] returns holds the value at the path. *)
Lemma setValue_found (s seen : fieldpath.Segments) (v in_ r : value) :
  s ≠ [] → fieldpath.setValue in_ seen s v = inr r → NestedFieldNoCopy r s = Found v.
Proof.
  revert seen in_ r. induction s as [|current rest IH]; [done |].
  intros seen in_ r _ Hset. simpl in Hset.
  destruct in_ as [| | | | |object]; try done.
  destruct rest as [|next rest'].
  - injection Hset as <-. simpl. by rewrite lookup_insert_eq.
  - destruct (fieldpath.setValue _ _ (next :: rest') v) as [e|child'] eqn:Hchild; [done |].
    injection Hset as <-. cbn [NestedFieldNoCopy]. rewrite lookup_insert_eq.
    by eapply IH.
Qed.

(** [setValue] writes below its path only: what a path that parts ways with
    it leads to is the same before and after. *)
Lemma setValue_frame (s seen p : fieldpath.Segments) (v in_ r : value) :
  diverge p s → fieldpath.setValue in_ seen s v = inr r →
  NestedFieldNoCopy r p = NestedFieldNoCopy in_ p.
Proof.
  revert seen p in_ r. induction s as [|current rest IH]; intros seen p in_ r Hdiv Hset.
  { by destruct p. }
  destruct p as [|a p']; [done |]. simpl in Hdiv, Hset.
  destruct in_ as [| | | | |object]; try done.
  destruct rest as [|next rest'].
  - injection Hset as <-. destruct Hdiv as [Hne | [_ Hdiv]]; [| by destruct p'].
    simpl. by rewrite lookup_insert_ne.
  - destruct (fieldpath.setValue _ _ (next :: rest') v) as [e|child'] eqn:Hchild; [done |].
    injection Hset as <-. cbn [NestedFieldNoCopy].
    destruct Hdiv as [Hne | [-> Hdiv]].
    + by rewrite lookup_insert_ne.
    + rewrite lookup_insert_eq. rewrite (IH _ _ _ _ Hdiv Hchild).
      destruct (object !! current) as [child|]; [done |]. simpl.
      apply NestedFieldNoCopy_empty. by destruct p'.
Qed.

(** [setValue] on an object gives an object that agrees with it outside the
    first field of the path. *)
Lemma setValue_top (object : gmap string value) (current : string)
    (rest seen : fieldpath.Segments) (v r : value) :
  fieldpath.setValue (VObj object) seen (current :: rest) v = inr r →
  ∃ object', r = VObj object' ∧ ∀ k, k ≠ current → object' !! k = object !! k.
Proof.
  simpl. destruct rest as [|next rest'].
  - intros [= <-]. eexists; split; [done |]. intros k Hk. by rewrite lookup_insert_ne.
  - destruct (fieldpath.setValue _ _ (next :: rest') v) as [e|child']; [done |].
    intros [= <-]. eexists; split; [done |]. intros k Hk. by rewrite lookup_insert_ne.
Qed.

Lemma SetBool_spec (object object' : gmap string value) (path : string) (b : bool) :
  fieldpath.Parse path ≠ [] →
  fieldpath.SetBool object path b = inr object' →
  NestedFieldNoCopy (VObj object') (fieldpath.Parse path) = Found (VBool b)
  ∧ (∀ p, diverge p (fieldpath.Parse path) →
          NestedFieldNoCopy (VObj object') p = NestedFieldNoCopy (VObj object) p)
  ∧ (∀ k, Some k ≠ head (fieldpath.Parse path) → object' !! k = object !! k).
Proof.
  unfold fieldpath.SetBool. intros Hpath.
  destruct (fieldpath.setValue _ _ _ _) as [e|r] eqn:Hset; [done |].
  destruct (fieldpath.Parse path) as [|current rest] eqn:Hparse; [done |].
  destruct (setValue_top _ _ _ _ _ _ Hset) as (o' & -> & Hframe).
  intros [= <-]. split_and!.
  - by eapply setValue_found.
  - intros p Hdiv. by eapply setValue_frame.
  - intros k Hk. apply Hframe. simpl in Hk. congruence.
Qed.

(** The owner references are read from the field [metadata] alone. *)
Lemma GetOwnerReferences_metadata (u u' : Unstructured) :
  Object u' !! "metadata" = Object u !! "metadata" →
  metav1.GetOwnerReferences u' = metav1.GetOwnerReferences u.
Proof. unfold metav1.GetOwnerReferences. simpl. by intros ->. Qed.

(** ** Pre-rollout preparation *)

Section PrepareProperties.

Context (ComponentDefinition : Type).

Abbreviation prepare := (assemble.PrepareWorkloadForRollout ComponentDefinition).

Lemma knownKind_pauseFieldOf (wl : Unstructured) :
  knownKind wl ↔ is_Some (pauseFieldOf wl).
Proof.
  unfold knownKind, pauseFieldOf.
  generalize (schema.Group (GroupVersionKind wl)) (GetKind wl). intros g k.
  repeat case_decide; subst;
    (split; [intros Hk; try (by eexists) | intros Hs; try (by destruct Hs as [? [=]])]);
    intuition congruence.
Qed.

(** The dispatch of [PrepareWorkloadForRollout] on a workload that has a
    controller: one of the three arms, or the error at the end. *)
Lemma prepare_dispatch (wl : Unstructured) (ref : metav1.OwnerReference)
    (comp : option v1alpha2.Component) (def : option ComponentDefinition) :
  metav1.GetControllerOf wl = Some ref →
  reads (prepare wl comp def) = []
  ∧ ((∃ path, pauseFieldOf wl = Some (fieldpath.Parse path)
              ∧ head (fieldpath.Parse path) = Some "spec"
              ∧ outcome (prepare wl comp def) = assemble.setPaused wl path)
     ∨ (pauseFieldOf wl = None
        ∧ outcome (prepare wl comp def) = Returns wl (Some (assemble.errUnknownType wl)))).
Proof.
  intros Href. unfold assemble.PrepareWorkloadForRollout, pauseFieldOf. rewrite Href.
  split; [done |]. cbn [outcome].
  unfold assemble.kruiseGroup, assemble.appsGroupName, assemble.kindCloneSet,
    assemble.kindStatefulSet, assemble.kindDeployment.
  destruct (String.eqb_spec (schema.Group (GroupVersionKind wl)) "apps.kruise.io") as [Hg|Hg].
  - rewrite decide_True by done.
    destruct (String.eqb_spec (GetKind wl) "CloneSet") as [Hk|Hk].
    { rewrite decide_True by done. left. by exists assemble.cloneSetDisablePath. }
    rewrite decide_False by done.
    destruct (String.eqb_spec (GetKind wl) "StatefulSet") as [Hk'|Hk'].
    { rewrite decide_True by done. left. by exists assemble.advancedStatefulSetDisablePath. }
    rewrite decide_False by done. by right.
  - rewrite decide_False by done.
    destruct (String.eqb_spec (schema.Group (GroupVersionKind wl)) "apps") as [Hg'|Hg'];
      destruct (String.eqb_spec (GetKind wl) "Deployment") as [Hk|Hk]; simpl.
    + rewrite decide_True by done. left. by exists assemble.deploymentDisablePath.
    + rewrite decide_False by intuition congruence. by right.
    + rewrite decide_False by intuition congruence. by right.
    + rewrite decide_False by intuition congruence. by right.
Qed.

Lemma setPaused_cases (wl : Unstructured) (path : string) :
  (∃ err, assemble.setPaused wl path = Returns wl (Some err))
  ∨ (∃ content, fieldpath.SetBool (Object wl) path true = inr content
                ∧ assemble.setPaused wl path = Returns (mkUnstructured content) None).
Proof.
  unfold assemble.setPaused, UnstructuredContent.
  destruct (fieldpath.SetBool _ _ _) as [err|content]; [left | right]; by eexists.
Qed.

(** C1, as amended.  A workload whose group and kind are none of the three
    known ones is never prepared successfully, whatever else it holds.  When
    it carries a controller owner reference, as every workload that
    assembly has stamped does, the option returns the error "we do not know
    how to prepare ... as it has an unknown type ...", issues no read and
    leaves the workload as it is; when it carries none, the option panics
    before it looks at the kind. *)
Theorem PrepareWorkloadForRollout_unknown_kind (wl : Unstructured)
    (comp : option v1alpha2.Component) (def : option ComponentDefinition) :
  ¬ knownKind wl →
  (∀ after, outcome (prepare wl comp def) ≠ Returns after None)
  ∧ (is_Some (metav1.GetControllerOf wl) →
     prepare wl comp def = mkRun [] (Returns wl (Some (assemble.errUnknownType wl))))
  ∧ (metav1.GetControllerOf wl = None → prepare wl comp def = mkRun [] Panics).
Proof.
  intros Hunknown. rewrite knownKind_pauseFieldOf in Hunknown.
  destruct (metav1.GetControllerOf wl) as [ref|] eqn:Href.
  - destruct (prepare_dispatch wl ref comp def Href)
      as [Hreads [(path & Hfield & _) | [_ Hout]]].
    { destruct Hunknown. by rewrite Hfield. }
    split_and!; [intros after; by rewrite Hout | | done].
    intros _. destruct (prepare wl comp def) as [rds out]. simpl in *. by subst.
  - split_and!; [| by intros [? [=]] |].
    + intros after. unfold assemble.PrepareWorkloadForRollout. by rewrite Href.
    + intros _. unfold assemble.PrepareWorkloadForRollout. by rewrite Href.
Qed.

(** C6.  [PrepareWorkloadForRollout] panics exactly when the workload has
    no owner reference with the controller bit: then the write through the
    nil pointer that [metav1.GetControllerOf] returned is reached, and no
    error is returned; with a controller owner reference the option always
    returns. *)
Theorem PrepareWorkloadForRollout_panics_iff_no_controller (wl : Unstructured)
    (comp : option v1alpha2.Component) (def : option ComponentDefinition) :
  (outcome (prepare wl comp def) = Panics ↔ metav1.GetControllerOf wl = None)
  ∧ (metav1.GetControllerOf wl = None → prepare wl comp def = mkRun [] Panics)
  ∧ (is_Some (metav1.GetControllerOf wl) →
     ∃ after err, outcome (prepare wl comp def) = Returns after err).
Proof.
  destruct (metav1.GetControllerOf wl) as [ref|] eqn:Href.
  - assert (∃ after err, outcome (prepare wl comp def) = Returns after err) as Hret.
    { destruct (prepare_dispatch wl ref comp def Href)
        as [_ [(path & _ & _ & Hout) | [_ Hout]]]; rewrite Hout; [| by eexists _, _].
      destruct (setPaused_cases wl path) as [[err ->] | (content & _ & ->)];
        by eexists _, _. }
    split_and!; [| done | done].
    destruct Hret as (after & err & ->). done.
  - unfold assemble.PrepareWorkloadForRollout. rewrite Href. simpl.
    split_and!; [done | done | by intros [? [=]]].
Qed.

(** Where preparation succeeds, the update-pause field of the kind holds
    [true] and every path that parts ways with it leads to what it led to
    before. *)
Lemma PrepareWorkloadForRollout_pauses (wl after : Unstructured)
    (comp : option v1alpha2.Component) (def : option ComponentDefinition) :
  outcome (prepare wl comp def) = Returns after None →
  ∃ field, pauseFieldOf wl = Some field
    ∧ NestedFieldNoCopy (VObj (Object after)) field = Found (VBool true)
    ∧ ∀ p, diverge p field →
           NestedFieldNoCopy (VObj (Object after)) p = NestedFieldNoCopy (VObj (Object wl)) p.
Proof.
  intros Hout.
  destruct (metav1.GetControllerOf wl) as [ref|] eqn:Href.
  2:{ unfold assemble.PrepareWorkloadForRollout in Hout. by rewrite Href in Hout. }
  destruct (prepare_dispatch wl ref comp def Href)
    as [_ [(path & Hfield & Hhead & Hset) | [_ Hunknown]]]; [| congruence].
  rewrite Hset in Hout.
  destruct (setPaused_cases wl path) as [[err Herr] | (content & Hbool & Hok)]; [congruence |].
  rewrite Hok in Hout. injection Hout as <-.
  exists (fieldpath.Parse path). split; [done |].
  apply SetBool_spec in Hbool as (Hfound & Hframe & _); [done |].
  by destruct (fieldpath.Parse path).
Qed.

(** Whatever [PrepareWorkloadForRollout] returns, the owner references of
    the workload are what they were, the controller among them: the
    reference whose [Controller] field the option sets to false is the copy
    handed out by [metav1.GetControllerOf]. *)
Lemma PrepareWorkloadForRollout_owner_references (wl after : Unstructured)
    (err : option error) (comp : option v1alpha2.Component) (def : option ComponentDefinition) :
  outcome (prepare wl comp def) = Returns after err →
  metav1.GetOwnerReferences after = metav1.GetOwnerReferences wl
  ∧ metav1.GetControllerOf after = metav1.GetControllerOf wl.
Proof.
  intros Hout.
  enough (metav1.GetOwnerReferences after = metav1.GetOwnerReferences wl) as Heq.
  { split; [done |]. unfold metav1.GetControllerOf. by rewrite Heq. }
  destruct (metav1.GetControllerOf wl) as [ref|] eqn:Href.
  2:{ unfold assemble.PrepareWorkloadForRollout in Hout. by rewrite Href in Hout. }
  destruct (prepare_dispatch wl ref comp def Href)
    as [_ [(path & Hfield & Hhead & Hset) | [_ Hunknown]]].
  - rewrite Hset in Hout.
    destruct (setPaused_cases wl path) as [[e He] | (content & Hbool & Hok)].
    + rewrite He in Hout. by injection Hout as <- _.
    + rewrite Hok in Hout. injection Hout as <- _.
      apply GetOwnerReferences_metadata. simpl.
      apply SetBool_spec in Hbool as (_ & _ & Htop).
      * apply Htop. rewrite Hhead. by intros [=].
      * intros Hnil. by rewrite Hnil in Hhead.
  - rewrite Hunknown in Hout. by injection Hout as <- _.
Qed.

End PrepareProperties.

(** ** The naming override *)

Lemma GetLabels_metadata (wl : Unstructured) (labels : gmap string string) :
  GetLabels wl = Some labels → ∃ md, Object wl !! "metadata" = Some (VObj md).
Proof.
  unfold GetLabels, NestedStringMap. simpl.
  destruct (Object wl !! "metadata") as [[| | | | |md]|]; try done. by exists md.
Qed.

Lemma GetName_SetName_empty (wl : Unstructured) : GetName (SetName wl "") = "".
Proof.
  unfold SetName, GetName, getNestedString, NestedString. simpl.
  destruct (Object wl !! "metadata") as [[| | | | |md]|] eqn:Hmd; rewrite ?Hmd; try done.
  by rewrite lookup_insert_eq, lookup_delete_eq.
Qed.

Lemma GetName_SetName_object (wl : Unstructured) (name : string) (md : gmap string value) :
  Object wl !! "metadata" = Some (VObj md) → name ≠ "" → GetName (SetName wl name) = name.
Proof.
  intros Hmd Hname. unfold SetName, GetName, getNestedString, NestedString, setNestedField.
  destruct name as [|c name]; [done |]. simpl. rewrite Hmd. simpl.
  by rewrite !lookup_insert_eq.
Qed.

Section NamingProperties.

Context (ComponentDefinition : Type) (LabelAppComponentRevision : string).

(** The option returns no error and issues no read, and the name of the
    workload it leaves is the value of the component-revision label of the
    workload it was given (the empty name when the workload has no such
    label). *)
Lemma NameNonInplaceUpgradableWorkload_name (wl : Unstructured)
    (comp : option v1alpha2.Component) (def : option ComponentDefinition) :
  ∃ after,
    assemble.NameNonInplaceUpgradableWorkload ComponentDefinition
      LabelAppComponentRevision wl comp def = mkRun [] (Returns after None)
    ∧ GetName after = index (GetLabels wl) LabelAppComponentRevision.
Proof.
  unfold assemble.NameNonInplaceUpgradableWorkload. eexists. split; [done |].
  destruct (decide (index (GetLabels wl) LabelAppComponentRevision = "")) as [-> | Hname].
  - apply GetName_SetName_empty.
  - destruct (GetLabels wl) as [labels|] eqn:Hlabels; [| done].
    destruct (GetLabels_metadata wl labels Hlabels) as [md Hmd].
    by eapply GetName_SetName_object.
Qed.

End NamingProperties.

(** ** Trait names *)

Lemma fnv32a_Write_range (data : string) (hash : Z) :
  (0 ≤ hash < 2 ^ 32)%Z → (0 ≤ util.fnv32a_Write hash data < 2 ^ 32)%Z.
Proof.
  revert hash. induction data as [|c data IH]; intros hash Hrange; simpl; [done |].
  apply IH. apply Z.mod_pos_bound. lia.
Qed.

Lemma pretty_N_go_decimal (x : N) (s : string) : decimal s → decimal (pretty_N_go x s).
Proof.
  revert s. induction (N.lt_wf_0 x) as [x _ IH]. intros s Hs.
  destruct (decide (x = 0%N)) as [-> | Hx]; [by rewrite pretty_N_go_0 |].
  rewrite pretty_N_go_step by lia.
  apply IH.
  - apply N.div_lt; lia.
  - constructor; [| done]. apply N.mod_lt. lia.
Qed.

Lemma pretty_N_decimal (x : N) : decimal (pretty x).
Proof.
  unfold pretty, pretty_N. case_decide.
  - apply (decimal_cons 0 ""); [lia | constructor].
  - apply pretty_N_go_decimal. constructor.
Qed.

Lemma safe_byte_digit_inj (n m : N) :
  (n < 10)%N → (m < 10)%N →
  util.safe_byte (pretty_N_char n) = util.safe_byte (pretty_N_char m) → n = m.
Proof.
  intros Hn Hm.
  assert (n ∈ [0; 1; 2; 3; 4; 5; 6; 7; 8; 9]%N) as Hn'.
  { rewrite !elem_of_cons. lia. }
  assert (m ∈ [0; 1; 2; 3; 4; 5; 6; 7; 8; 9]%N) as Hm'.
  { rewrite !elem_of_cons. lia. }
  rewrite !elem_of_cons, elem_of_nil in Hn', Hm'.
  intros Heq.
  repeat (destruct Hn' as [-> | Hn']; [
    repeat (destruct Hm' as [-> | Hm']; [first [done | by vm_compute in Heq] |]); done |]).
  done.
Qed.

Lemma SafeEncodeString_decimal_inj (s1 s2 : string) :
  decimal s1 → decimal s2 →
  util.SafeEncodeString s1 = util.SafeEncodeString s2 → s1 = s2.
Proof.
  intros H1. revert s2. induction H1 as [|n s1 Hn Hs1 IH]; intros s2 H2 Heq.
  - by destruct H2.
  - destruct H2 as [|m s2 Hm Hs2]; [done |]. simpl in Heq.
    injection Heq as Hbyte Hrest.
    by rewrite (safe_byte_digit_inj n m Hn Hm Hbyte), (IH s2 Hs2 Hrest).
Qed.

Section TraitNameProperties.

Context (ComponentTrait : Type) (deepPrint : ComponentTrait → string).
Context (mapToLower : string → string).

Abbreviation genTraitName := (util.GenTraitName ComponentTrait deepPrint mapToLower).
Abbreviation computeHash := (util.ComputeHash ComponentTrait deepPrint).
Abbreviation sum32 := (util.DeepHashObject ComponentTrait deepPrint).

Lemma DeepHashObject_range (ct : ComponentTrait) : (0 ≤ sum32 ct < 2 ^ 32)%Z.
Proof. apply fnv32a_Write_range. unfold util.offset32. lia. Qed.

(** The encoded hash stands for the 32-bit sum: two traits have the same
    [ComputeHash] exactly when their deep prints have the same FNV-1a
    sum. *)
Lemma ComputeHash_eq_iff (ct1 ct2 : ComponentTrait) :
  computeHash ct1 = computeHash ct2 ↔ sum32 ct1 = sum32 ct2.
Proof.
  split; [| unfold util.ComputeHash; by intros ->].
  intros Heq. apply SafeEncodeString_decimal_inj in Heq; try apply pretty_N_decimal.
  apply (inj pretty) in Heq.
  pose proof (DeepHashObject_range ct1). pose proof (DeepHashObject_range ct2). lia.
Qed.

Lemma traitMiddleName_spec (traitType : string) :
  (traitType = "" ∨ traitType = "dummy" → util.traitMiddleName mapToLower traitType = "trait")
  ∧ (traitType ≠ "" → traitType ≠ "dummy" →
     util.traitMiddleName mapToLower traitType = GoStrings.ToLower mapToLower traitType).
Proof.
  unfold util.traitMiddleName, util.Dummy, util.TraitPrefixKey.
  destruct (String.eqb_spec traitType ""), (String.eqb_spec traitType "dummy");
    simpl; intuition congruence.
Qed.

Lemma GenTraitName_eq_iff (componentName traitType : string) (ct1 ct2 : ComponentTrait) :
  genTraitName componentName ct1 traitType = genTraitName componentName ct2 traitType
  ↔ sum32 ct1 = sum32 ct2.
Proof.
  rewrite <- (ComputeHash_eq_iff ct1 ct2). unfold util.GenTraitName. split.
  - intros Heq. by do 4 apply String.app_inj in Heq.
  - by intros ->.
Qed.

(** C7, as amended.  [GenTraitName] is a function of its three arguments,
    and the name is [componentName-middle-hash]: [middle] is the literal
    [trait] when the trait type is empty or [dummy] and the trait type
    lower-cased by [strings.ToLower] otherwise; [hash] is the safe encoding
    of the decimal print of the 32-bit FNV-1a sum of the deep print of the
    whole component trait.  Two traits of one component and one type get the
    same name exactly when the sums of their deep prints are equal. *)
Theorem GenTraitName_shape (componentName : string) (ct : ComponentTrait)
    (traitType : string) :
  (∀ componentName' ct' traitType',
     componentName' = componentName → ct' = ct → traitType' = traitType →
     genTraitName componentName' ct' traitType' = genTraitName componentName ct traitType)
  ∧ (∃ middle hash,
       genTraitName componentName ct traitType
       = componentName +:+ "-" +:+ middle +:+ "-" +:+ hash
       ∧ (traitType = "" ∨ traitType = "dummy" → middle = "trait")
       ∧ (traitType ≠ "" → traitType ≠ "dummy" →
          middle = GoStrings.ToLower mapToLower traitType)
       ∧ hash = util.SafeEncodeString
                  (pretty (Z.to_N (util.fnv32a_Write util.offset32 (deepPrint ct)))))
  ∧ (∀ ct', genTraitName componentName ct traitType = genTraitName componentName ct' traitType
            ↔ util.fnv32a_Write util.offset32 (deepPrint ct)
              = util.fnv32a_Write util.offset32 (deepPrint ct')).
Proof.
  split_and!.
  - by intros ? ? ? -> -> ->.
  - exists (util.traitMiddleName mapToLower traitType), (computeHash ct).
    destruct (traitMiddleName_spec traitType). by split_and!.
  - intros ct'. apply GenTraitName_eq_iff.
Qed.

(** Names are drawn from 2^32 hashes.  Whatever the deep printer prints,
    when component traits can hold arbitrary raw bytes ([ofRaw] builds the
    trait of a raw spec, as the field [Trait runtime.RawExtension] of
    [v1alpha2.ComponentTrait] allows), it cannot be that any two different
    traits of a component and a type get different names: among the traits
    of the specs [0], [1], ..., [4294967296] two have the same hash. *)
Lemma GenTraitName_not_injective (ofRaw : string → ComponentTrait)
    (componentName traitType : string) :
  Inj (=) (=) ofRaw →
  ¬ (∀ ct1 ct2, ct1 ≠ ct2 →
       genTraitName componentName ct1 traitType ≠ genTraitName componentName ct2 traitType).
Proof.
  intros Hinj Hdistinct.
  set (trait := λ z : Z, ofRaw (pretty (Z.to_N z))).
  set (specs := seqZ 0 (2 ^ 32 + 1)).
  assert (NoDup ((λ z, sum32 (trait z)) <$> specs)) as Hsums.
  { apply NoDup_fmap_2_strong; [| apply NoDup_seqZ].
    intros z1 z2 H1%elem_of_seqZ H2%elem_of_seqZ Hsum.
    destruct (decide (z1 = z2)) as [| Hne]; [done |].
    destruct (Hdistinct (trait z1) (trait z2)).
    - intros Heq. apply Hinj, (inj pretty) in Heq. lia.
    - by apply GenTraitName_eq_iff. }
  assert ((λ z, sum32 (trait z)) <$> specs ⊆+ seqZ 0 (2 ^ 32)) as Hsub.
  { apply NoDup_submseteq; [done |]. intros h [z [-> _]]%list_elem_of_fmap.
    apply elem_of_seqZ. pose proof (DeepHashObject_range (trait z)). lia. }
  apply submseteq_length in Hsub. subst specs.
  rewrite length_fmap, !length_seqZ in Hsub. lia.
Qed.

End TraitNameProperties.

(** C7, the claim as written: that two traits of one type with different
    specs always get different names fails for the code, whatever go-spew
    prints and whatever the rest of a component trait is.  A component
    trait holds the raw bytes of its spec, so different specs give
    different traits; no deep printer and no lower-casing make
    [GenTraitName] tell all of them apart. *)
Lemma GenTraitName_collision :
  ¬ ∃ (ComponentTrait : Type) (ofRaw : string → ComponentTrait)
      (deepPrint : ComponentTrait → string) (mapToLower : string → string)
      (componentName traitType : string),
      Inj (=) (=) ofRaw
      ∧ ∀ ct1 ct2 : ComponentTrait,
          ct1 ≠ ct2 →
          util.GenTraitName ComponentTrait deepPrint mapToLower componentName ct1 traitType
          ≠ util.GenTraitName ComponentTrait deepPrint mapToLower componentName ct2 traitType.
Proof.
  intros (ComponentTrait & ofRaw & deepPrint & mapToLower & componentName & traitType
          & Hinj & Hdistinct).
  by apply (GenTraitName_not_injective ComponentTrait deepPrint mapToLower ofRaw
              componentName traitType Hinj).
Qed.

(** ** Metadata stamping *)

Lemma GetName_metadataOf (u : Unstructured) :
  GetName u = match metadataOf u !! "name" with Some (VStr s) => s | _ => "" end.
Proof.
  unfold GetName, getNestedString, NestedString, metadataOf. simpl.
  destruct (Object u !! "metadata") as [[| | | | |md]|]; try done.
  by destruct (md !! "name") as [[| | | | |]|].
Qed.

Lemma GetLabels_metadataOf (u : Unstructured) :
  GetLabels u =
  match metadataOf u !! "labels" with
  | Some (VObj m) =>
      if decide (map_Forall (λ _ v, unstructured.is_str v) m)
      then Some (omap unstructured.str_of m) else None
  | _ => None
  end.
Proof.
  unfold GetLabels, NestedStringMap, metadataOf. simpl.
  destruct (Object u !! "metadata") as [[| | | | |md]|]; try done.
  destruct (md !! "labels") as [[| | | | |m]|]; try done. by case_decide.
Qed.

(** Writing and removing a field of [metadata] on a well-formed manifest:
    [metadata] stays an object, gets the field written or removed, and the
    rest of the manifest is as before. *)
Lemma setNestedField_metadata (u : Unstructured) (v : value) (f : string) :
  wfMetadata u →
  wfMetadata (setNestedField u v "metadata" [f])
  ∧ metadataOf (setNestedField u v "metadata" [f]) = <[f := v]> (metadataOf u)
  ∧ ∀ k, k ≠ "metadata" → Object (setNestedField u v "metadata" [f]) !! k = Object u !! k.
Proof.
  unfold wfMetadata, metadataOf, setNestedField. simpl.
  intros [Hmd | [md Hmd]]; rewrite Hmd; simpl; rewrite lookup_insert_eq;
    (split_and!; [right; by eexists | done | intros k Hk; by rewrite lookup_insert_ne]).
Qed.

Lemma RemoveNestedField_metadata (u : Unstructured) (f : string) :
  wfMetadata u →
  let u' := mkUnstructured (RemoveNestedField (Object u) "metadata" [f]) in
  wfMetadata u' ∧ metadataOf u' = delete f (metadataOf u)
  ∧ ∀ k, k ≠ "metadata" → Object u' !! k = Object u !! k.
Proof.
  unfold wfMetadata, metadataOf. simpl.
  intros [Hmd | [md Hmd]]; rewrite Hmd; simpl.
  - rewrite Hmd. split_and!; [by left | by rewrite delete_empty | done].
  - rewrite lookup_insert_eq.
    split_and!; [right; by eexists | done | intros k Hk; by rewrite lookup_insert_ne].
Qed.

Lemma stamps_set (u : Unstructured) (v : value) (f : string) :
  wfMetadata u → stamps f u (setNestedField u v "metadata" [f]).
Proof.
  intros Hwf. destruct (setNestedField_metadata u v f Hwf) as (Hwf' & Hmd & Htop).
  split_and!; [done | | done]. intros g Hg. by rewrite Hmd, lookup_insert_ne.
Qed.

Lemma stamps_remove (u : Unstructured) (f : string) :
  wfMetadata u → stamps f u (mkUnstructured (RemoveNestedField (Object u) "metadata" [f])).
Proof.
  intros Hwf. destruct (RemoveNestedField_metadata u f Hwf) as (Hwf' & Hmd & Htop).
  split_and!; [done | | done]. intros g Hg. by rewrite Hmd, lookup_delete_ne.
Qed.

Lemma SetName_empty (u : Unstructured) :
  SetName u "" = mkUnstructured (RemoveNestedField (Object u) "metadata" ["name"]).
Proof. reflexivity. Qed.

Lemma SetName_nonempty (u : Unstructured) (c : ascii) (name : string) :
  SetName u (String c name) = setNestedField u (VStr (String c name)) "metadata" ["name"].
Proof. reflexivity. Qed.

Lemma SetName_stamps (u : Unstructured) (name : string) :
  wfMetadata u → stamps "name" u (SetName u name) ∧ GetName (SetName u name) = name.
Proof.
  intros Hwf. destruct name as [|c name].
  - rewrite SetName_empty. split; [by apply stamps_remove |].
    rewrite GetName_metadataOf.
    destruct (RemoveNestedField_metadata u "name" Hwf) as (_ & -> & _).
    by rewrite lookup_delete_eq.
  - rewrite SetName_nonempty. split; [by apply stamps_set |].
    rewrite GetName_metadataOf.
    destruct (setNestedField_metadata u (VStr (String c name)) "name" Hwf) as (_ & -> & _).
    by rewrite lookup_insert_eq.
Qed.

Lemma SetNamespace_stamps (u : Unstructured) (ns : string) :
  wfMetadata u → stamps "namespace" u (SetNamespace u ns).
Proof.
  intros Hwf. unfold SetNamespace.
  destruct (String.length ns =? 0); [by apply stamps_remove | by apply stamps_set].
Qed.

Lemma SetOwnerReferences_stamps (u : Unstructured) (refs : list metav1.OwnerReference) :
  wfMetadata u → stamps "ownerReferences" u (SetOwnerReferences u refs).
Proof. intros Hwf. by apply stamps_set. Qed.

Lemma AddAnnotations_stamps (u : Unstructured) (annos : gmap string string) :
  wfMetadata u → stamps "annotations" u (util.AddAnnotations u (Some annos)).
Proof.
  intros Hwf. unfold util.AddAnnotations. rewrite MergeMapOverrideWithDst_union.
  destruct (getAnnotations u); simpl; by apply stamps_set.
Qed.

Lemma string_map_roundtrip (m : gmap string string) :
  map_Forall (λ _ v, unstructured.is_str v) (VStr <$> m)
  ∧ omap unstructured.str_of (VStr <$> m) = m.
Proof.
  split.
  - intros k v [s [<- _]]%lookup_fmap_Some. done.
  - apply map_eq. intros k. rewrite lookup_omap, lookup_fmap. by destruct (m !! k).
Qed.

Lemma AddLabels_stamps (u : Unstructured) (labels : gmap string string) :
  wfMetadata u →
  stamps "labels" u (util.AddLabels u (Some labels))
  ∧ metadataOf (util.AddLabels u (Some labels)) !! "labels"
    = Some (VObj (VStr <$> (labels ∪ default ∅ (GetLabels u)))).
Proof.
  intros Hwf. unfold util.AddLabels.
  assert (util.MergeMapOverrideWithDst (getLabels u) (Some labels)
          = Some (labels ∪ default ∅ (GetLabels u))) as ->.
  { rewrite MergeMapOverrideWithDst_union. change (getLabels u) with (GetLabels u).
    by destruct (GetLabels u). }
  simpl. split; [by apply stamps_set |].
  destruct (setNestedField_metadata u (VObj (VStr <$> (labels ∪ default ∅ (GetLabels u))))
              "labels" Hwf) as (_ & -> & _).
  by rewrite lookup_insert_eq.
Qed.

Lemma stamps_wf (f : string) (u u' : Unstructured) : stamps f u u' → wfMetadata u'.
Proof. by intros [? _]. Qed.

Lemma stamps_GetName (f : string) (u u' : Unstructured) :
  f ≠ "name" → stamps f u u' → GetName u' = GetName u.
Proof. intros Hf (_ & Hmd & _). by rewrite !GetName_metadataOf, Hmd. Qed.

Lemma stamps_labels (f : string) (u u' : Unstructured) :
  f ≠ "labels" → stamps f u u' → metadataOf u' !! "labels" = metadataOf u !! "labels".
Proof. intros Hf (_ & Hmd & _). by apply Hmd. Qed.

Section StampProperties.

Context (ComponentDefinition : Type).

(** A stamped workload is well formed, bears the name of its component,
    and its labels are the label set of the assembler laid over the labels
    of the template. *)
Lemma stampWorkload_spec (rev : assembler.Revision) (cm : assembler.ComponentManifest) :
  wfMetadata (assembler.rawWorkload cm) →
  let wl := assembler.stampWorkload rev cm in
  wfMetadata wl
  ∧ GetName wl = assembler.componentName cm
  ∧ ∃ template, GetLabels wl = Some (assembler.workloadLabels rev cm ∪ template).
Proof.
  intros Hraw wl. subst wl. unfold assembler.stampWorkload.
  destruct (SetName_stamps (assembler.rawWorkload cm) (assembler.componentName cm) Hraw)
    as [Hname Hgot].
  set (wl1 := SetName _ _) in *.
  destruct (AddLabels_stamps wl1 (assembler.workloadLabels rev cm) (stamps_wf _ _ _ Hname))
    as [Hlabels Hset].
  set (wl2 := util.AddLabels _ _) in *.
  pose proof (AddAnnotations_stamps wl2 {[oam.AnnotationAppGeneration := assembler.generation rev]}
                (stamps_wf _ _ _ Hlabels)) as Hannos.
  set (wl3 := util.AddAnnotations _ _) in *.
  pose proof (SetNamespace_stamps wl3 (assembler.namespace rev) (stamps_wf _ _ _ Hannos)) as Hns.
  set (wl4 := SetNamespace _ _) in *.
  pose proof (SetOwnerReferences_stamps wl4 [assembler.applicationOwner rev]
                (stamps_wf _ _ _ Hns)) as Hown.
  set (wl5 := SetOwnerReferences _ _) in *.
  split_and!.
  - by eapply stamps_wf.
  - rewrite (stamps_GetName "ownerReferences" wl4 wl5), (stamps_GetName "namespace" wl3 wl4),
      (stamps_GetName "annotations" wl2 wl3), (stamps_GetName "labels" wl1 wl2); done.
  - exists (default ∅ (GetLabels wl1)).
    rewrite GetLabels_metadataOf.
    rewrite (stamps_labels "ownerReferences" wl4 wl5), (stamps_labels "namespace" wl3 wl4),
      (stamps_labels "annotations" wl2 wl3), Hset by done.
    destruct (string_map_roundtrip (assembler.workloadLabels rev cm ∪ default ∅ (GetLabels wl1)))
      as [Hall ->].
    by rewrite decide_True.
Qed.

End StampProperties.

Section NamingOverride.

Context (ComponentDefinition : Type).

Lemma workloadLabels_revision (rev : assembler.Revision) (cm : assembler.ComponentManifest) :
  assembler.workloadLabels rev cm !! oam.LabelAppComponentRevision
  = Some (assembler.componentRevision cm).
Proof.
  unfold assembler.workloadLabels, assembler.commonLabels.
  rewrite !lookup_insert_ne by done. apply lookup_insert_eq.
Qed.

(** C3.  [NameNonInplaceUpgradableWorkload] returns no error and issues
    no read, and the name of the workload it leaves is the value of the
    component-revision label of the workload it was given.  On the
    assembler (modelled from the spec), for a template whose metadata is
    well formed and has no conflicting annotation: without the option in
    the chain the workload bears the name of its component, and with the
    option it bears the name of the component revision. *)
Theorem NameNonInplaceUpgradableWorkload_names :
  (∀ (label : string) (wl : Unstructured) (comp : option v1alpha2.Component)
     (def : option ComponentDefinition),
     ∃ after,
       assemble.NameNonInplaceUpgradableWorkload ComponentDefinition label wl comp def
       = mkRun [] (Returns after None)
       ∧ GetName after = index (GetLabels wl) label)
  ∧ (∀ (rev : assembler.Revision) (definitions : gmap string ComponentDefinition)
       (cm : assembler.ComponentManifest),
       wfMetadata (assembler.rawWorkload cm) →
       assembler.annotationConflict rev (assembler.rawWorkload cm) = false →
       (∃ wl, assembler.assembleWorkload ComponentDefinition rev definitions [] cm
              = assembler.Assembled wl
              ∧ GetName wl = assembler.componentName cm)
       ∧ (∃ wl, assembler.assembleWorkload ComponentDefinition rev definitions
                  [assemble.NameNonInplaceUpgradableWorkload ComponentDefinition
                     oam.LabelAppComponentRevision] cm
                = assembler.Assembled wl
                ∧ GetName wl = assembler.componentRevision cm)).
Proof.
  split.
  - intros label wl comp def.
    apply (NameNonInplaceUpgradableWorkload_name ComponentDefinition label wl comp def).
  - intros rev definitions cm Hwf Hconflict.
    destruct (stampWorkload_spec rev cm Hwf) as (Hwf' & Hname & template & Hlabels).
    unfold assembler.assembleWorkload. rewrite Hconflict. split.
    + eexists. by split.
    + eexists. split; [done |].
      destruct (SetName_stamps (assembler.stampWorkload rev cm)
                  (index (GetLabels (assembler.stampWorkload rev cm))
                     oam.LabelAppComponentRevision) Hwf') as [_ ->].
      rewrite Hlabels. simpl.
      by rewrite (lookup_union_Some_l _ _ _ _ (workloadLabels_revision rev cm)).
Qed.

End NamingOverride.

(** ** Assembling one component *)

Lemma GetAnnotations_metadataOf (u : Unstructured) :
  GetAnnotations u =
  match metadataOf u !! "annotations" with
  | Some (VObj m) =>
      if decide (map_Forall (λ _ v, unstructured.is_str v) m)
      then Some (omap unstructured.str_of m) else None
  | _ => None
  end.
Proof.
  unfold GetAnnotations, NestedStringMap, metadataOf. simpl.
  destruct (Object u !! "metadata") as [[| | | | |md]|]; try done.
  destruct (md !! "annotations") as [[| | | | |m]|]; try done. by case_decide.
Qed.

Lemma GetNamespace_metadataOf (u : Unstructured) :
  GetNamespace u = match metadataOf u !! "namespace" with Some (VStr s) => s | _ => "" end.
Proof.
  unfold GetNamespace, getNestedString, NestedString, metadataOf. simpl.
  destruct (Object u !! "metadata") as [[| | | | |md]|]; try done.
  by destruct (md !! "namespace") as [[| | | | |]|].
Qed.

Lemma setLabels_get (u : Unstructured) (m : option (gmap string string)) :
  wfMetadata u →
  wfMetadata (setLabels u m) ∧ GetLabels (setLabels u m) = m
  ∧ GetAnnotations (setLabels u m) = GetAnnotations u.
Proof.
  intros Hwf. rewrite GetLabels_metadataOf, !GetAnnotations_metadataOf.
  destruct m as [m|].
  - change (setLabels u (Some m))
      with (setNestedField u (VObj (VStr <$> m)) "metadata" ["labels"]).
    destruct (setNestedField_metadata u (VObj (VStr <$> m)) "labels" Hwf) as (Hwf' & -> & _).
    rewrite lookup_insert_eq, lookup_insert_ne by done.
    destruct (string_map_roundtrip m) as [Hall ->]. by rewrite decide_True.
  - change (setLabels u None)
      with (mkUnstructured (RemoveNestedField (Object u) "metadata" ["labels"])).
    destruct (RemoveNestedField_metadata u "labels" Hwf) as (Hwf' & -> & _).
    by rewrite lookup_delete_eq, lookup_delete_ne.
Qed.

Lemma setAnnotations_get (u : Unstructured) (m : option (gmap string string)) :
  wfMetadata u →
  wfMetadata (setAnnotations u m) ∧ GetAnnotations (setAnnotations u m) = m
  ∧ GetLabels (setAnnotations u m) = GetLabels u.
Proof.
  intros Hwf. rewrite GetAnnotations_metadataOf, !GetLabels_metadataOf.
  destruct m as [m|].
  - change (setAnnotations u (Some m))
      with (setNestedField u (VObj (VStr <$> m)) "metadata" ["annotations"]).
    destruct (setNestedField_metadata u (VObj (VStr <$> m)) "annotations" Hwf)
      as (Hwf' & -> & _).
    rewrite lookup_insert_eq, lookup_insert_ne by done.
    destruct (string_map_roundtrip m) as [Hall ->]. by rewrite decide_True.
  - change (setAnnotations u None)
      with (mkUnstructured (RemoveNestedField (Object u) "metadata" ["annotations"])).
    destruct (RemoveNestedField_metadata u "annotations" Hwf) as (Hwf' & -> & _).
    by rewrite lookup_delete_eq, lookup_delete_ne.
Qed.

Lemma stamps_fields (f : string) (u u' : Unstructured) :
  stamps f u u' →
  (f ≠ "name" → GetName u' = GetName u)
  ∧ (f ≠ "namespace" → GetNamespace u' = GetNamespace u)
  ∧ (f ≠ "labels" → GetLabels u' = GetLabels u)
  ∧ (f ≠ "annotations" → GetAnnotations u' = GetAnnotations u)
  ∧ GetAPIVersion u' = GetAPIVersion u ∧ GetKind u' = GetKind u
  ∧ Object u' !! "spec" = Object u !! "spec".
Proof.
  intros (_ & Hmd & Htop).
  rewrite !GetName_metadataOf, !GetNamespace_metadataOf, !GetLabels_metadataOf,
    !GetAnnotations_metadataOf.
  unfold GetAPIVersion, GetKind, getNestedString, NestedString. cbn [NestedFieldNoCopy].
  split_and!; try (intros Hf; by rewrite Hmd); by rewrite Htop.
Qed.

Lemma SetNamespace_get (u : Unstructured) (ns : string) :
  wfMetadata u → GetNamespace (SetNamespace u ns) = ns.
Proof.
  intros Hwf. rewrite GetNamespace_metadataOf. unfold SetNamespace.
  destruct ns as [|c ns]; cbn [String.length Nat.eqb].
  - destruct (RemoveNestedField_metadata u "namespace" Hwf) as (_ & -> & _).
    by rewrite lookup_delete_eq.
  - destruct (setNestedField_metadata u (VStr (String c ns)) "namespace" Hwf) as (_ & -> & _).
    by rewrite lookup_insert_eq.
Qed.

(** An owner reference written by the converter is read back as it was. *)
Lemma ownerReference_roundtrip (ref : metav1.OwnerReference) :
  ∃ o, ownerReferenceValue ref = VObj o ∧ metav1.extractOwnerReference o = ref.
Proof.
  destruct ref as [apiVersion kind name uid [c|] [b|]]; eexists; (split; [reflexivity |]);
    unfold metav1.extractOwnerReference, getNestedString, NestedString, NestedBool;
    cbn [NestedFieldNoCopy]; by rewrite ?lookup_insert_eq, ?lookup_insert_ne by done.
Qed.

Lemma SetOwnerReferences_get (u : Unstructured) (ref : metav1.OwnerReference) :
  wfMetadata u → metav1.GetOwnerReferences (SetOwnerReferences u [ref]) = [ref].
Proof.
  intros Hwf. unfold SetOwnerReferences.
  destruct (setNestedField_metadata u (VArr (ownerReferenceValue <$> [ref])) "ownerReferences"
              Hwf) as ([Hnone | [md Hmd]] & Hmeta & _).
  - unfold metadataOf in Hmeta. rewrite Hnone in Hmeta.
    by apply (f_equal (λ m, m !! "ownerReferences")) in Hmeta;
      rewrite lookup_empty, lookup_insert_eq in Hmeta.
  - unfold metadataOf in Hmeta. rewrite Hmd in Hmeta.
    unfold metav1.GetOwnerReferences. cbn [NestedFieldNoCopy]. rewrite Hmd, Hmeta.
    rewrite lookup_insert_eq.
    destruct (ownerReference_roundtrip ref) as (o & Hval & Hback).
    cbn [fmap list_fmap]. rewrite Hval. cbn. by rewrite Hback.
Qed.

Section AssemblyProperties.

Context (ComponentDefinition : Type) (deepPrint : Unstructured → string).
Context (mapToLower : string → string).

(** What stamping leaves on a workload whose template has well-formed
    metadata. *)
Lemma stampWorkload_metadata (rev : assembler.Revision) (cm : assembler.ComponentManifest) :
  wfMetadata (assembler.rawWorkload cm) →
  let raw := assembler.rawWorkload cm in
  let wl := assembler.stampWorkload rev cm in
  GetName wl = assembler.componentName cm
  ∧ GetNamespace wl = assembler.namespace rev
  ∧ GetLabels wl = Some (assembler.workloadLabels rev cm ∪ default ∅ (GetLabels raw))
  ∧ GetAnnotations wl
    = Some ({[oam.AnnotationAppGeneration := assembler.generation rev]}
            ∪ default ∅ (GetAnnotations raw))
  ∧ metav1.GetOwnerReferences wl = [assembler.applicationOwner rev]
  ∧ GetAPIVersion wl = GetAPIVersion raw ∧ GetKind wl = GetKind raw.
Proof.
  intros Hraw raw wl. subst raw wl. unfold assembler.stampWorkload.
  destruct (SetName_stamps (assembler.rawWorkload cm) (assembler.componentName cm) Hraw)
    as [Hname Hgot].
  set (wl1 := SetName _ _) in *.
  pose proof (stamps_wf _ _ _ Hname) as Hwf1.
  destruct (AddLabels_stamps wl1 (assembler.workloadLabels rev cm) Hwf1) as [Hlabels _].
  destruct (setLabels_get wl1
              (util.MergeMapOverrideWithDst (getLabels wl1)
                 (Some (assembler.workloadLabels rev cm))) Hwf1) as (_ & Hl2 & _).
  change (setLabels wl1 _) with (util.AddLabels wl1 (Some (assembler.workloadLabels rev cm)))
    in Hl2.
  set (wl2 := util.AddLabels _ _) in *.
  pose proof (stamps_wf _ _ _ Hlabels) as Hwf2.
  pose proof (AddAnnotations_stamps wl2
                {[oam.AnnotationAppGeneration := assembler.generation rev]} Hwf2) as Hannos.
  destruct (setAnnotations_get wl2
              (util.MergeMapOverrideWithDst (getAnnotations wl2)
                 (Some {[oam.AnnotationAppGeneration := assembler.generation rev]})) Hwf2)
    as (_ & Ha3 & _).
  change (setAnnotations wl2 _)
    with (util.AddAnnotations wl2
            (Some {[oam.AnnotationAppGeneration := assembler.generation rev]})) in Ha3.
  set (wl3 := util.AddAnnotations _ _) in *.
  pose proof (stamps_wf _ _ _ Hannos) as Hwf3.
  pose proof (SetNamespace_stamps wl3 (assembler.namespace rev) Hwf3) as Hns.
  pose proof (SetNamespace_get wl3 (assembler.namespace rev) Hwf3) as Hns4.
  set (wl4 := SetNamespace _ _) in *.
  pose proof (stamps_wf _ _ _ Hns) as Hwf4.
  pose proof (SetOwnerReferences_stamps wl4 [assembler.applicationOwner rev] Hwf4) as Hown.
  pose proof (SetOwnerReferences_get wl4 (assembler.applicationOwner rev) Hwf4) as Hrefs.
  set (wl5 := SetOwnerReferences _ _) in *.
  destruct (stamps_fields _ _ _ Hname) as (_ & N1 & L1 & A1 & V1 & K1 & _).
  destruct (stamps_fields _ _ _ Hlabels) as (M2 & N2 & _ & A2 & V2 & K2 & _).
  destruct (stamps_fields _ _ _ Hannos) as (M3 & N3 & L3 & _ & V3 & K3 & _).
  destruct (stamps_fields _ _ _ Hns) as (M4 & _ & L4 & A4 & V4 & K4 & _).
  destruct (stamps_fields _ _ _ Hown) as (M5 & N5 & L5 & A5 & V5 & K5 & _).
  split_and!.
  - by rewrite M5, M4, M3, M2.
  - by rewrite N5.
  - rewrite L5, L4, L3, Hl2 by done. rewrite MergeMapOverrideWithDst_union.
    change (getLabels wl1) with (GetLabels wl1). rewrite L1 by done.
    by destruct (GetLabels (assembler.rawWorkload cm)).
  - rewrite A5, A4, Ha3 by done. rewrite MergeMapOverrideWithDst_union.
    change (getAnnotations wl2) with (GetAnnotations wl2). rewrite A2, A1 by done.
    by destruct (GetAnnotations (assembler.rawWorkload cm)).
  - done.
  - by rewrite V5, V4, V3, V2, V1.
  - by rewrite K5, K4, K3, K2, K1.
Qed.

(** A stamped trait whose [spec] is an object, or missing, holds the
    reference to the workload under [spec.workloadRef]. *)
Lemma assembleTrait_workloadRef (rev : assembler.Revision) (cm : assembler.ComponentManifest)
    (wl : Unstructured) (tr : assembler.RawTrait) :
  wfMetadata (assembler.traitManifest tr) →
  Object (assembler.traitManifest tr) !! "spec" = None
  ∨ (∃ o, Object (assembler.traitManifest tr) !! "spec" = Some (VObj o)) →
  NestedFieldNoCopy
    (VObj (Object (assembler.assembleTrait deepPrint mapToLower rev cm wl tr)))
    ["spec"; "workloadRef"]
  = Found (assembler.workloadRef wl).
Proof.
  intros Hraw Hspec. unfold assembler.assembleTrait.
  set (name := util.GenTraitName _ _ _ _ _ _).
  destruct (SetName_stamps (assembler.traitManifest tr) name Hraw) as [H1 _].
  set (t1 := SetName _ _) in *.
  destruct (AddLabels_stamps t1 (assembler.traitLabels rev cm tr) (stamps_wf _ _ _ H1))
    as [H2 _].
  set (t2 := util.AddLabels _ _) in *.
  pose proof (AddAnnotations_stamps t2
                {[oam.AnnotationAppGeneration := assembler.generation rev]}
                (stamps_wf _ _ _ H2)) as H3.
  set (t3 := util.AddAnnotations _ _) in *.
  pose proof (SetNamespace_stamps t3 (assembler.namespace rev) (stamps_wf _ _ _ H3)) as H4.
  set (t4 := SetNamespace _ _) in *.
  pose proof (SetOwnerReferences_stamps t4 [assembler.applicationOwner rev]
                (stamps_wf _ _ _ H4)) as H5.
  set (t5 := SetOwnerReferences _ _) in *.
  assert (Object t5 !! "spec" = Object (assembler.traitManifest tr) !! "spec") as Hsame.
  { destruct (stamps_fields _ _ _ H5) as (_ & _ & _ & _ & _ & _ & ->).
    destruct (stamps_fields _ _ _ H4) as (_ & _ & _ & _ & _ & _ & ->).
    destruct (stamps_fields _ _ _ H3) as (_ & _ & _ & _ & _ & _ & ->).
    destruct (stamps_fields _ _ _ H2) as (_ & _ & _ & _ & _ & _ & ->).
    by destruct (stamps_fields _ _ _ H1) as (_ & _ & _ & _ & _ & _ & ->). }
  unfold setNestedField. cbn [setNestedFieldNoCopy]. rewrite Hsame.
  destruct Hspec as [-> | [o ->]]; cbn; by rewrite !lookup_insert_eq.
Qed.

(** C8.  On the assembler modelled from the spec, a revision of one
    component whose workload template has well-formed metadata and no
    conflicting annotation assembles, with no option in the chain, without
    failure: to one workload and one trait resource for each rendered trait
    manifest, the workload and these traits being all the assembled
    resources.  The workload bears the name of the component and the
    namespace of the application; its label keys are the seven required
    keys and those of its template, its annotation keys the reserved one
    and those of its template; its controller owner reference is the one
    of the application, of kind [Application].  Every trait whose manifest
    has well-formed metadata and a [spec] that is an object, or none, holds
    under [spec.workloadRef] the apiVersion and the kind of the workload
    template and the name of the component. *)
Theorem GroupAssembledManifests_single_component (rev : assembler.Revision)
    (cm : assembler.ComponentManifest) (definitions : gmap string ComponentDefinition) :
  assembler.bundle rev = [cm] →
  wfMetadata (assembler.rawWorkload cm) →
  assembler.annotationConflict rev (assembler.rawWorkload cm) = false →
  let raw := assembler.rawWorkload cm in
  let m := assembler.GroupAssembledManifests ComponentDefinition deepPrint mapToLower
             rev definitions [] in
  ∃ wl ts,
    assembler.workloads m = {[assembler.componentName cm := wl]}
    ∧ assembler.traits m = {[assembler.componentName cm := ts]}
    ∧ assembler.failures m = ∅ ∧ assembler.crashed m = false
    ∧ length ts = length (assembler.rawTraits cm)
    ∧ assembler.AssembledManifests rev m = wl :: ts
    ∧ GetName wl = assembler.componentName cm
    ∧ GetNamespace wl = assembler.namespace rev
    ∧ (∃ labels,
         GetLabels wl = Some labels
         ∧ dom labels
           = list_to_set [oam.LabelAppName; oam.LabelAppRevision; oam.LabelAppRevisionHash;
                          oam.LabelAppComponent; oam.LabelAppComponentRevision;
                          oam.WorkloadTypeLabel; oam.LabelOAMResourceType]
             ∪ dom (default ∅ (GetLabels raw)))
    ∧ (∃ annotations,
         GetAnnotations wl = Some annotations
         ∧ dom annotations
           = {[oam.AnnotationAppGeneration]} ∪ dom (default ∅ (GetAnnotations raw)))
    ∧ (∃ ownerRef,
         metav1.GetControllerOf wl = Some ownerRef
         ∧ metav1.Kind ownerRef = "Application"
         ∧ metav1.Name ownerRef = assembler.applicationName rev)
    ∧ ∀ i tr,
        assembler.rawTraits cm !! i = Some tr →
        wfMetadata (assembler.traitManifest tr) →
        Object (assembler.traitManifest tr) !! "spec" = None
        ∨ (∃ o, Object (assembler.traitManifest tr) !! "spec" = Some (VObj o)) →
        ∃ trait,
          ts !! i = Some trait
          ∧ NestedFieldNoCopy (VObj (Object trait)) ["spec"; "workloadRef"]
            = Found (VObj (list_to_map [("apiVersion", VStr (GetAPIVersion raw));
                                        ("kind", VStr (GetKind raw));
                                        ("name", VStr (assembler.componentName cm))])).
Proof.
  intros Hbundle Hraw Hconflict raw m. subst raw m.
  destruct (stampWorkload_metadata rev cm Hraw)
    as (Hname & Hns & Hlabels & Hannos & Hrefs & Hapi & Hkind).
  set (wl := assembler.stampWorkload rev cm) in *.
  exists wl, (assembler.assembleTrait deepPrint mapToLower rev cm wl <$> assembler.rawTraits cm).
  assert (assembler.GroupAssembledManifests ComponentDefinition deepPrint mapToLower
            rev definitions []
          = assembler.mkManifests
              {[assembler.componentName cm := wl]}
              {[assembler.componentName cm
                := assembler.assembleTrait deepPrint mapToLower rev cm wl
                   <$> assembler.rawTraits cm]}
              (match assembler.scopeBindings cm with
               | [] => []
               | bindings => [(assembler.typedReference wl, bindings)]
               end) ∅ false) as ->.
  { unfold assembler.GroupAssembledManifests. rewrite Hbundle. cbn [foldl].
    unfold assembler.assembleComponent, assembler.assembleWorkload.
    rewrite Hconflict. cbn [assembler.runOptions]. fold wl.
    unfold assembler.noManifests. cbn. by destruct (assembler.scopeBindings cm). }
  cbn [assembler.workloads assembler.traits assembler.failures assembler.crashed].
  split_and!.
  - done.
  - done.
  - done.
  - done.
  - by rewrite length_fmap.
  - unfold assembler.AssembledManifests. rewrite Hbundle. cbn.
    by rewrite !lookup_singleton_eq, app_nil_r.
  - done.
  - done.
  - eexists. split; [exact Hlabels |]. rewrite dom_union_L.
    f_equal; unfold assembler.workloadLabels, assembler.commonLabels;
      rewrite !dom_insert_L, dom_empty_L; set_solver.
  - eexists. split; [exact Hannos |]. by rewrite dom_union_L, dom_singleton_L.
  - exists (assembler.applicationOwner rev).
    unfold metav1.GetControllerOf. by rewrite Hrefs.
  - intros i tr Htr Hwf Hspec. eexists. split.
    + by rewrite list_lookup_fmap, Htr.
    + rewrite (assembleTrait_workloadRef rev cm wl tr Hwf Hspec).
      unfold assembler.workloadRef. by rewrite Hapi, Hkind, Hname.
Qed.

End AssemblyProperties.

(** ** The example application *)

Section Example.

Context (ComponentDefinition : Type).

(** C5, at a Deployment that carries the controller owner reference of its
    application: the option returns no error and [spec.paused] holds
    [true], but the owner reference of the workload still has its
    controller bit set.  The reference the option sets to false is the copy
    [metav1.GetControllerOf] returned. *)
Theorem PrepareWorkloadForRollout_controller_bit_kept :
  ∃ after,
    assemble.PrepareWorkloadForRollout ComponentDefinition example.ownedDeployment None None
    = mkRun [] (Returns after None)
    ∧ NestedFieldNoCopy (VObj (Object after)) ["spec"; "paused"] = Found (VBool true)
    ∧ metav1.Controller <$> metav1.GetControllerOf example.ownedDeployment = Some (Some true)
    ∧ metav1.Controller <$> metav1.GetControllerOf after = Some (Some true)
    ∧ metav1.GetOwnerReferences after = metav1.GetOwnerReferences example.ownedDeployment.
Proof.
  eexists. split; [vm_compute; reflexivity |].
  split_and!; vm_compute; reflexivity.
Qed.

End Example.

(** ** The theorems at concrete inputs *)

(** C9 at the component [test-comp], which has no Helm spec. *)
Lemma discoverHelmModuleWorkload_not_helm_witness :
  assemble.discoverHelmModuleWorkload example.decoder example.HelmChartNamePath
    example.cluster example.ownedDeployment
    (Some (assembler.component example.testComp))
  = mkRun [] (Returns example.ownedDeployment None)
  ∧ assemble.DiscoveryHelmBasedWorkload unit example.decoder example.HelmChartNamePath
      example.cluster example.ownedDeployment
      (Some (assembler.component example.testComp)) None
    = mkRun [] (Returns example.ownedDeployment None).
Proof.
  apply (discoverHelmModuleWorkload_not_helm unit example.decoder example.HelmChartNamePath
           example.cluster example.ownedDeployment
           (Some (assembler.component example.testComp))).
  right. exists (assembler.component example.testComp). split; reflexivity.
Defined.

(** C2 at the release [myrelease] of the chart [podinfo]: the object read is
    [myrelease-podinfo] in the namespace [default]. *)
Lemma discoverHelmModuleWorkload_qualified_name_witness :
  reads (assemble.discoverHelmModuleWorkload example.decoder example.HelmChartNamePath
           example.cluster example.ownedDeployment (Some example.helmComponent))
  = [client.mkObjectKey "default" "myrelease-podinfo"].
Proof.
  destruct (discoverHelmModuleWorkload_qualified_name example.decoder
              example.HelmChartNamePath example.cluster example.ownedDeployment
              (Some example.helmComponent)
              (v1alpha2.mkHelm (runtime.mkRawExtension "release") (runtime.mkRawExtension ""))
              (mkUnstructured example.release) "podinfo")
    as (q & Hreads & _ & Hjoined & _).
  - reflexivity.
  - reflexivity.
  - vm_compute. reflexivity.
  - rewrite Hreads, Hjoined.
    + vm_compute. reflexivity.
    + intros Hsub. apply Contains_spec in Hsub. vm_compute in Hsub. discriminate.
    + vm_compute. lia.
Defined.

(** C4 at the same release, on a cluster where Helm has created the
    workload: the assembled workload becomes the live object. *)
Lemma discoverHelmModuleWorkload_found_or_not_witness :
  assemble.discoverHelmModuleWorkload example.decoder example.HelmChartNamePath
    example.cluster example.ownedDeployment (Some example.helmComponent)
  = mkRun [client.mkObjectKey "default" "myrelease-podinfo"]
      (Returns example.helmWorkload None).
Proof.
  destruct (discoverHelmModuleWorkload_found_or_not example.decoder
              example.HelmChartNamePath example.cluster example.ownedDeployment
              (Some example.helmComponent)
              (v1alpha2.mkHelm (runtime.mkRawExtension "release") (runtime.mkRawExtension ""))
              (mkUnstructured example.release) "podinfo")
    as (_ & _ & Hmatch & _).
  - reflexivity.
  - reflexivity.
  - vm_compute. reflexivity.
  - rewrite (Hmatch example.helmWorkload).
    + vm_compute. reflexivity.
    + vm_compute. reflexivity.
    + exists (list_to_map [("meta.helm.sh/release-name", "myrelease");
                           ("meta.helm.sh/release-namespace", "default")]),
        (list_to_map [("app.kubernetes.io/managed-by", "Helm")]).
      split_and!; vm_compute; reflexivity.
Defined.

(** C1 at a ConfigMap that carries a controller owner reference. *)
Lemma PrepareWorkloadForRollout_unknown_kind_witness :
  ¬ knownKind example.ownedConfigMap
  ∧ assemble.PrepareWorkloadForRollout unit example.ownedConfigMap None None
    = mkRun [] (Returns example.ownedConfigMap
                  (Some (ErrorString
                           "we do not know how to prepare `test-comp` as it has an unknown type /v1, Kind=ConfigMap"))).
Proof.
  assert (¬ knownKind example.ownedConfigMap) as Hunknown.
  { unfold knownKind. vm_compute. intuition discriminate. }
  split; [exact Hunknown |].
  destruct (PrepareWorkloadForRollout_unknown_kind unit example.ownedConfigMap None None Hunknown)
    as (_ & Herror & _).
  rewrite Herror.
  - vm_compute. reflexivity.
  - vm_compute. eexists. reflexivity.
Defined.

(** C1, the claim as written, fails at a ConfigMap that carries no owner
    reference: its kind is none of the three known ones, and the option
    returns no error, it panics. *)
Lemma PrepareWorkloadForRollout_unknown_kind_panics :
  ¬ knownKind example.configMap
  ∧ outcome (assemble.PrepareWorkloadForRollout unit example.configMap None None) = Panics
  ∧ ¬ ∃ after err,
        outcome (assemble.PrepareWorkloadForRollout unit example.configMap None None)
        = Returns after err.
Proof.
  split_and!.
  - unfold knownKind. vm_compute. intuition discriminate.
  - vm_compute. reflexivity.
  - intros (after & err & Hout). vm_compute in Hout. discriminate.
Qed.

(** C8 at the application [test-assemble], with the manifests of its
    component rendered without metadata: one workload, three trait
    resources and four resources in all; the third trait, the scaler,
    refers to the Deployment [test-comp] of [apps/v1]; the workload has the
    seven label keys and one annotation, and the kind of its controller
    owner reference is [Application]. *)
Lemma GroupAssembledManifests_single_component_witness :
  let m := assembler.GroupAssembledManifests unit example.printer id example.testAssemble ∅ [] in
  size (assembler.workloads m) = 1
  ∧ length <$> (assembler.traits m !! "test-comp") = Some 3
  ∧ length (assembler.AssembledManifests example.testAssemble m) = 4
  ∧ (∃ scaler,
       assembler.traits m !! "test-comp" ≫= (λ ts, ts !! 2) = Some scaler
       ∧ NestedFieldNoCopy (VObj (Object scaler)) ["spec"; "workloadRef"]
         = Found (example.object [("apiVersion", VStr "apps/v1");
                                  ("kind", VStr "Deployment");
                                  ("name", VStr "test-comp")]))
  ∧ ∃ wl,
      assembler.workloads m !! "test-comp" = Some wl
      ∧ dom <$> GetLabels wl
        = Some (list_to_set [oam.LabelAppName; oam.LabelAppRevision; oam.LabelAppRevisionHash;
                             oam.LabelAppComponent; oam.LabelAppComponentRevision;
                             oam.WorkloadTypeLabel; oam.LabelOAMResourceType])
      ∧ size <$> GetAnnotations wl = Some 1
      ∧ metav1.Kind <$> metav1.GetControllerOf wl = Some "Application".
Proof.
  intros m. subst m.
  destruct (GroupAssembledManifests_single_component unit example.printer id example.testAssemble
              example.testComp ∅)
    as (wl & ts & Hworkloads & Htraits & _ & _ & Hlength & Hall & _ & _
        & (labels & Hlabels & Hkeys) & (annotations & Hannotations & Hreserved)
        & (ownerRef & Hcontroller & Hkind & _) & Hrefs).
  - reflexivity.
  - left. reflexivity.
  - reflexivity.
  - rewrite Hworkloads, Htraits, Hall. split_and!.
    + apply map_size_singleton.
    + change ("test-comp") with (assembler.componentName example.testComp).
      rewrite lookup_singleton_eq. cbn [fmap option_fmap option_map]. by rewrite Hlength.
    + cbn [length]. by rewrite Hlength.
    + destruct (Hrefs 2 (assembler.mkRawTrait "manualscaler" example.manualscaler))
        as (scaler & Hscaler & Href).
      * reflexivity.
      * left. reflexivity.
      * right. eexists. reflexivity.
      * exists scaler. split.
        -- change ("test-comp") with (assembler.componentName example.testComp).
           by rewrite lookup_singleton_eq.
        -- rewrite Href. vm_compute. reflexivity.
    + exists wl. split_and!.
      * change ("test-comp") with (assembler.componentName example.testComp).
        by rewrite lookup_singleton_eq.
      * rewrite Hlabels. cbn [fmap option_fmap option_map]. rewrite Hkeys.
        vm_compute. reflexivity.
      * rewrite Hannotations. cbn [fmap option_fmap option_map].
        rewrite <- size_dom, Hreserved. vm_compute. reflexivity.
      * rewrite Hcontroller. cbn [fmap option_fmap option_map]. by rewrite Hkind.
Defined.


(** * Further properties of the workload options *)

Section DiscoveryFrame.

Context (json_Unmarshal : string → error + gmap string value).
Context (HelmChartNamePath : list string).

Abbreviation discover' := (assemble.discoverHelmModuleWorkload json_Unmarshal HelmChartNamePath).

(** X1.  Whatever the component and the cluster, the discovery option never
    panics and reads the cluster at most once, in the namespace of the
    assembled workload; when it returns an error the workload is left as it
    was; and when it returns without error the workload is either untouched
    (nothing was read) or exactly the object the one read returned. *)
Theorem discoverHelmModuleWorkload_one_read
    (c : client.Reader) (wl : Unstructured) (comp : option v1alpha2.Component) :
  let run := discover' c wl comp in
  outcome run ≠ Panics
  ∧ length (reads run) ≤ 1
  ∧ (∀ key, key ∈ reads run → client.Namespace key = GetNamespace wl)
  ∧ (∀ after err, outcome run = Returns after (Some err) → after = wl)
  ∧ (∀ after, outcome run = Returns after None →
       (reads run = [] ∧ after = wl)
       ∨ ∃ key, reads run = [key] ∧ c key (mkUnstructured ∅) = inr after).
Proof.
  intros run. subst run. unfold assemble.discoverHelmModuleWorkload.
  destruct (comp ≫= _) as [helm|]; [| simpl; split_and!; try done; try lia;
    [intros key []%elem_of_nil | intros after [= <-]; by left]].
  destruct (assemble.RawExtension2Unstructured _ _) as [e|rls];
    [simpl; split_and!; try done; try lia;
       [intros key []%elem_of_nil | by intros after err [= <- _]] |].
  destruct (NestedString _ _) as [C| |];
    try (simpl; split_and!; try done; try lia;
           [intros key []%elem_of_nil | by intros after err [= <- _]]).
  destruct (c _ _) as [e|live] eqn:Hread.
  - simpl. split_and!; try done; try lia.
    + by intros key ->%list_elem_of_singleton.
    + by intros after err [= <- _].
  - destruct (assemble.notManagedByHelm _ _ _ _); simpl; (split_and!; try done; try lia).
    + by intros key ->%list_elem_of_singleton.
    + by intros after err [= <- _].
    + by intros key ->%list_elem_of_singleton.
    + intros after [= <-]. right. by eexists.
Qed.

(** X2.  For a Helm-based component the option gives up before reading the
    cluster when the release cannot be used: a release that does not decode
    gives the decoder's error wrapped as "cannot get helm release from
    component", and a release without a chart name that is a string gives
    "cannot get helm chart name".  In both cases the workload is untouched. *)
Theorem discoverHelmModuleWorkload_release_errors
    (c : client.Reader) (wl : Unstructured) (comp : option v1alpha2.Component)
    (helm : v1alpha2.Helm) :
  helmOf comp = Some helm →
  (∀ e, assemble.RawExtension2Unstructured json_Unmarshal (v1alpha2.Release helm) = inl e →
        discover' c wl comp
        = mkRun [] (Returns wl (Some (Wrapped e "cannot get helm release from component"))))
  ∧ (∀ rls, assemble.RawExtension2Unstructured json_Unmarshal (v1alpha2.Release helm) = inr rls →
            (∀ C, NestedString (Object rls) HelmChartNamePath ≠ Found C) →
            discover' c wl comp
            = mkRun [] (Returns wl (Some (ErrorString "cannot get helm chart name")))).
Proof.
  intros Hhelm. unfold helmOf in Hhelm. unfold assemble.discoverHelmModuleWorkload.
  rewrite Hhelm. split.
  - by intros e ->.
  - intros rls -> Hchart.
    destruct (NestedString (Object rls) HelmChartNamePath) as [C| |]; [| done | done].
    by destruct (Hchart C).
Qed.

End DiscoveryFrame.

(** X3.  When the chart name does not occur in the release name, the
    qualified name is a prefix of [release-chart] of at most 63 bytes, and
    of at least 62 bytes when [release-chart] is longer than 63: the cut
    removes at most one trailing [-]. *)
Theorem qualifiedWorkloadName_bounded (R C : string) :
  ¬ substring_of C R →
  let q := assemble.qualifiedWorkloadName R C in
  String.length q ≤ 63
  ∧ (∃ rest, R +:+ "-" +:+ C = q +:+ rest)
  ∧ (63 < String.length (R +:+ "-" +:+ C) → 62 ≤ String.length q).
Proof.
  intros Hnot q. subst q.
  destruct (qualifiedWorkloadName_spec R C) as (_ & Hshort & Hlong).
  destruct (le_lt_dec (String.length (R +:+ "-" +:+ C)) 63) as [Hle | Hgt].
  - rewrite (Hshort Hnot Hle). split_and!; [done | | lia].
    exists "". by rewrite append_nil_r.
  - destruct (Hlong Hnot Hgt) as (first63 & rest & Hjoin & Hlen & Htrim).
    destruct Htrim as [Hdash | [-> _]].
    + assert (String.length first63 = String.length (assemble.qualifiedWorkloadName R C) + 1)
        as Hone by (by rewrite Hdash at 1; rewrite length_append).
      split_and!; [lia | | lia].
      exists ("-" +:+ rest). by rewrite Hjoin, Hdash at 1; rewrite append_assoc.
    + split_and!; [lia | by exists rest | lia].
Qed.


(** ** Pre-rollout preparation: what it writes and when it fails *)

Lemma setValue_step (o : gmap string value) (seen : fieldpath.Segments)
    (f g : string) (rest : list string) (v : value) :
  fieldpath.setValue (VObj o) seen (f :: g :: rest) v
  = match fieldpath.setValue (default (VObj ∅) (o !! f)) (seen ++ [f]) (g :: rest) v with
    | inr child' => inr (VObj (<[f := child']> o))
    | inl e => inl e
    end.
Proof. reflexivity. Qed.

Lemma setValue_error_iff (s seen : fieldpath.Segments) (v in_ : value) :
  s ≠ [] →
  (∃ e, fieldpath.setValue in_ seen s v = inl e)
  ↔ ∃ n x, n < length s ∧ NestedFieldNoCopy in_ (take n s) = Found x ∧ ¬ is_obj x.
Proof.
  revert seen in_. induction s as [|f rest IH]; [done |]. intros seen in_ _.
  destruct (decide (is_obj in_)) as [Hobj | Hobj].
  2:{ split.
      - intros _. exists 0, in_. split_and!; [simpl; lia | done | done].
      - intros _. destruct in_ as [| | | | |o]; [by eexists .. | by destruct Hobj]. }
  destruct in_ as [| | | | |o]; try done.
  destruct rest as [|g rest'].
  - simpl. split; [by intros [e [=]] |].
    intros (n & x & Hn & Hfound & Hx). simpl in Hn.
    assert (n = 0) as -> by lia. simpl in Hfound. injection Hfound as <-. by destruct Hx.
  - rewrite setValue_step.
    set (child := default (VObj ∅) (o !! f)).
    specialize (IH (seen ++ [f]) child ltac:(done)).
    split.
    + intros [e He].
      destruct (fieldpath.setValue child _ (g :: rest') v) as [e'|r] eqn:Hchild; [| done].
      destruct IH as [IH _]. destruct (IH (ex_intro _ e' eq_refl)) as (n & x & Hn & Hfound & Hx).
      exists (S n), x. split_and!; [simpl in *; lia | | done].
      cbn [take NestedFieldNoCopy]. subst child.
      destruct (o !! f) as [c|]; [done |]. simpl in Hfound.
      destruct n; simpl in Hfound.
      * injection Hfound as <-. by destruct Hx.
      * by rewrite lookup_empty in Hfound.
    + intros (n & x & Hn & Hfound & Hx).
      destruct n as [|n]; [simpl in Hfound; injection Hfound as <-; by destruct Hx |].
      cbn [take NestedFieldNoCopy] in Hfound.
      destruct (o !! f) as [c|] eqn:Hc; [| done].
      destruct IH as [_ IH]. destruct IH as [e He].
      { exists n, x. subst child. simpl. split_and!; [simpl in Hn; lia | done | done]. }
      exists e. by rewrite He.
Qed.

Lemma setValue_idempotent (s seen seen' : fieldpath.Segments) (v in_ r : value) :
  fieldpath.setValue in_ seen s v = inr r → fieldpath.setValue r seen' s v = inr r.
Proof.
  revert seen seen' in_ r. induction s as [|f rest IH]; intros seen seen' in_ r Hset.
  { done. }
  simpl in Hset. destruct in_ as [| | | | |o]; try done.
  destruct rest as [|g rest'].
  - injection Hset as <-. simpl. by rewrite insert_insert_eq.
  - destruct (fieldpath.setValue _ _ (g :: rest') v) as [e|child'] eqn:Hchild; [done |].
    injection Hset as <-. rewrite setValue_step, lookup_insert_eq.
    change (default (VObj ∅) (Some child')) with child'.
    rewrite (IH _ (seen' ++ [f]) _ _ Hchild). by rewrite insert_insert_eq.
Qed.

Lemma SetBool_inr (object : gmap string value) (path : string) (b : bool)
    (object' : gmap string value) :
  fieldpath.Parse path ≠ [] →
  fieldpath.SetBool object path b = inr object' ↔
  fieldpath.setValue (VObj object) [] (fieldpath.Parse path) (VBool b) = inr (VObj object').
Proof.
  intros Hpath. unfold fieldpath.SetBool.
  destruct (fieldpath.setValue _ _ _ _) as [e|r] eqn:Hset; [done |].
  destruct (fieldpath.Parse path) as [|f rest]; [done |].
  destruct (setValue_top _ _ _ _ _ _ Hset) as (o' & -> & _).
  split; by intros [= ->].
Qed.

Lemma Parse_nonempty (path : string) : fieldpath.Parse path ≠ [].
Proof.
  destruct path as [|c path]; [done |]. simpl.
  destruct (Ascii.eqb c "."); [done |]. by destruct (fieldpath.Parse path).
Qed.

Section PrepareMore.

Context (ComponentDefinition : Type).

Abbreviation prepare' := (assemble.PrepareWorkloadForRollout ComponentDefinition).

Lemma PrepareWorkloadForRollout_frame (wl after : Unstructured)
    (err : option error) (comp : option v1alpha2.Component)
    (def : option ComponentDefinition) :
  outcome (prepare' wl comp def) = Returns after err →
  reads (prepare' wl comp def) = []
  ∧ (∀ k, k ≠ "spec" → Object after !! k = Object wl !! k)
  ∧ GetAPIVersion after = GetAPIVersion wl ∧ GetKind after = GetKind wl
  ∧ GetName after = GetName wl ∧ GetNamespace after = GetNamespace wl
  ∧ GetLabels after = GetLabels wl ∧ GetAnnotations after = GetAnnotations wl
  ∧ metav1.GetOwnerReferences after = metav1.GetOwnerReferences wl.
Proof.
  intros Hout.
  assert (reads (prepare' wl comp def) = []) as Hreads.
  { unfold assemble.PrepareWorkloadForRollout. by destruct (metav1.GetControllerOf wl). }
  assert (∀ k, k ≠ "spec" → Object after !! k = Object wl !! k) as Hframe.
  { destruct (metav1.GetControllerOf wl) as [ref|] eqn:Href.
    2:{ unfold assemble.PrepareWorkloadForRollout in Hout. by rewrite Href in Hout. }
    destruct (prepare_dispatch ComponentDefinition wl ref comp def Href)
      as [_ [(path & Hfield & Hhead & Hset) | [_ Hunknown]]].
    - rewrite Hset in Hout.
      destruct (setPaused_cases wl path) as [[e He] | (content & Hbool & Hok)].
      + rewrite He in Hout. by injection Hout as <- _.
      + rewrite Hok in Hout. injection Hout as <- _. simpl.
        apply SetBool_spec in Hbool as (_ & _ & Htop); [| apply Parse_nonempty].
        intros k Hk. apply Htop. rewrite Hhead. congruence.
    - rewrite Hunknown in Hout. by injection Hout as <- _. }
  split_and!; try done.
  - unfold GetAPIVersion, getNestedString, NestedString. simpl. by rewrite Hframe.
  - unfold GetKind, getNestedString, NestedString. simpl. by rewrite Hframe.
  - unfold GetName, getNestedString, NestedString. simpl. by rewrite Hframe.
  - unfold GetNamespace, getNestedString, NestedString. simpl. by rewrite Hframe.
  - unfold GetLabels, NestedStringMap. simpl. by rewrite Hframe.
  - unfold GetAnnotations, NestedStringMap. simpl. by rewrite Hframe.
  - apply GetOwnerReferences_metadata. by apply Hframe.
Qed.

(** X4.  Whatever [PrepareWorkloadForRollout] returns, it has read nothing
    from the cluster and every top-level field of the workload other than
    [spec] is what it was: the apiVersion, the kind, the name, the
    namespace, the labels, the annotations and the owner references are
    unchanged. *)
Theorem PrepareWorkloadForRollout_writes_spec_only (wl after : Unstructured)
    (err : option error) (comp : option v1alpha2.Component)
    (def : option ComponentDefinition) :
  outcome (prepare' wl comp def) = Returns after err →
  reads (prepare' wl comp def) = []
  ∧ (∀ k, k ≠ "spec" → Object after !! k = Object wl !! k)
  ∧ GetAPIVersion after = GetAPIVersion wl ∧ GetKind after = GetKind wl
  ∧ GetName after = GetName wl ∧ GetNamespace after = GetNamespace wl
  ∧ GetLabels after = GetLabels wl ∧ GetAnnotations after = GetAnnotations wl
  ∧ metav1.GetOwnerReferences after = metav1.GetOwnerReferences wl.
Proof. apply PrepareWorkloadForRollout_frame. Qed.

(** X5.  On a workload of a known kind that has a controller, preparation
    fails exactly when the update-pause path of the kind is blocked: some
    proper prefix of it ([spec], [spec.updateStrategy], ...) holds a value
    that is not an object.  It then returns the error of the field path
    library and leaves the workload as it was; otherwise it returns no
    error, creating the objects that are missing on the way. *)
Theorem PrepareWorkloadForRollout_fails_iff_blocked (wl : Unstructured)
    (field : list string) (comp : option v1alpha2.Component)
    (def : option ComponentDefinition) :
  is_Some (metav1.GetControllerOf wl) →
  pauseFieldOf wl = Some field →
  ((∃ e, outcome (prepare' wl comp def) = Returns wl (Some e)) ↔ blocked (Object wl) field)
  ∧ ((∃ after, outcome (prepare' wl comp def) = Returns after None)
     ↔ ¬ blocked (Object wl) field).
Proof.
  intros [ref Href] Hfield.
  destruct (prepare_dispatch ComponentDefinition wl ref comp def Href)
    as [_ [(path & Hfield' & Hhead & Hset) | [Hnone _]]]; [| congruence].
  rewrite Hfield in Hfield'. injection Hfield' as ->. rewrite Hset.
  pose proof (setValue_error_iff (fieldpath.Parse path) [] (VBool true) (VObj (Object wl))
                (Parse_nonempty path)) as Hiff.
  fold (blocked (Object wl) (fieldpath.Parse path)) in Hiff.
  unfold assemble.setPaused, UnstructuredContent, fieldpath.SetBool.
  destruct (fieldpath.setValue _ _ _ _) as [e|r] eqn:Hval.
  - assert (blocked (Object wl) (fieldpath.Parse path)) as Hblocked
      by (apply Hiff; by exists e).
    split; split; try done.
    + by exists e.
    + by intros [after [=]].
  - assert (¬ blocked (Object wl) (fieldpath.Parse path)) as Hfree
      by (intros [e [=]]%Hiff).
    split; split; try done.
    + destruct r; by intros [e [=]].
    + intros _. destruct r; by eexists.
Qed.

(** X6.  Preparation is idempotent: applied again to a workload it has
    prepared without error, it returns without error and leaves that workload
    as it is. *)
Theorem PrepareWorkloadForRollout_idempotent (wl after : Unstructured)
    (comp comp' : option v1alpha2.Component) (def def' : option ComponentDefinition) :
  outcome (prepare' wl comp def) = Returns after None →
  prepare' after comp' def' = mkRun [] (Returns after None).
Proof.
  intros Hout.
  destruct (PrepareWorkloadForRollout_frame wl after None comp def Hout)
    as (_ & _ & Hapi & Hkind & _ & _ & _ & _ & Hrefs).
  destruct (metav1.GetControllerOf wl) as [ref|] eqn:Href.
  2:{ unfold assemble.PrepareWorkloadForRollout in Hout. by rewrite Href in Hout. }
  assert (metav1.GetControllerOf after = Some ref) as Href'.
  { unfold metav1.GetControllerOf in *. by rewrite Hrefs. }
  assert (GroupVersionKind after = GroupVersionKind wl) as Hgvk.
  { unfold GroupVersionKind. by rewrite Hapi, Hkind. }
  assert (outcome (prepare' after comp' def') = Returns after None) as Hagain.
  { unfold assemble.PrepareWorkloadForRollout in Hout |- *.
    rewrite Href in Hout. rewrite Href'. cbn [outcome] in Hout |- *.
    rewrite Hgvk, Hkind.
    assert (∀ path, assemble.setPaused wl path = Returns after None →
                    assemble.setPaused after path = Returns after None) as Hstep.
    { intros path. unfold assemble.setPaused, UnstructuredContent.
      destruct (fieldpath.SetBool (Object wl) path true) as [e|content] eqn:Hbool; [done |].
      intros [= <-]. simpl.
      apply SetBool_inr in Hbool; [| apply Parse_nonempty].
      apply (setValue_idempotent _ _ []) in Hbool.
      apply SetBool_inr in Hbool; [| apply Parse_nonempty].
      by rewrite Hbool. }
    repeat match goal with
           | H : context [if ?b then _ else _] |- _ => destruct b
           end; try done; by apply Hstep. }
  destruct (prepare' after comp' def') as [rds out] eqn:Hrun.
  simpl in Hagain. subst out. f_equal.
  change rds with (reads (mkRun rds (Returns after None))). rewrite <- Hrun.
  unfold assemble.PrepareWorkloadForRollout. by rewrite Href'.
Qed.

End PrepareMore.


(** ** The naming override: what it leaves alone *)

Lemma SetName_twice (u : Unstructured) (name : string) :
  SetName (SetName u name) name = SetName u name.
Proof.
  destruct name as [|c name].
  - rewrite !SetName_empty. simpl.
    destruct (Object u !! "metadata") as [[| | | | |md]|] eqn:Hmd; rewrite ?Hmd; try done.
    by rewrite lookup_insert_eq, insert_insert_eq, delete_delete_eq.
  - rewrite !SetName_nonempty. unfold setNestedField. simpl.
    destruct (Object u !! "metadata") as [[| | | | |md]|] eqn:Hmd; simpl; rewrite ?Hmd; simpl;
      try done; by rewrite lookup_insert_eq, !insert_insert_eq.
Qed.

Lemma SetName_unreadable (u : Unstructured) :
  ¬ wfMetadata u → SetName u "" = u.
Proof.
  intros Hwf. rewrite SetName_empty. destruct u as [o]. simpl. f_equal.
  destruct (o !! "metadata") as [[| | | | |md]|] eqn:Hmd; try done;
    destruct Hwf; first [by left | right; by exists md].
Qed.

Lemma GetOwnerReferences_metadataOf (u u' : Unstructured) :
  wfMetadata u → wfMetadata u' →
  metadataOf u' !! "ownerReferences" = metadataOf u !! "ownerReferences" →
  metav1.GetOwnerReferences u' = metav1.GetOwnerReferences u.
Proof.
  unfold metav1.GetOwnerReferences, wfMetadata, metadataOf. cbn [NestedFieldNoCopy].
  intros [Hu | [md Hu]] [Hu' | [md' Hu']]; rewrite Hu, Hu'; rewrite ?lookup_empty.
  - done.
  - by intros ->.
  - by intros <-.
  - by intros ->.
Qed.

Section NamingFrame.

Context (ComponentDefinition : Type) (label : string).

Abbreviation nameOption :=
  (assemble.NameNonInplaceUpgradableWorkload ComponentDefinition label).

(** X7.  The naming override writes [metadata.name] and nothing else: every
    field outside [metadata] and every other field of [metadata] is what it
    was, so the labels, the annotations and the owner references are
    unchanged; and the option is idempotent: applied to its own result it
    returns that result. *)
Theorem NameNonInplaceUpgradableWorkload_writes_name_only (wl : Unstructured)
    (comp comp' : option v1alpha2.Component) (def def' : option ComponentDefinition) :
  ∃ after,
    nameOption wl comp def = mkRun [] (Returns after None)
    ∧ (∀ k, k ≠ "metadata" → Object after !! k = Object wl !! k)
    ∧ (∀ g, g ≠ "name" → metadataOf after !! g = metadataOf wl !! g)
    ∧ GetLabels after = GetLabels wl
    ∧ GetAnnotations after = GetAnnotations wl
    ∧ metav1.GetOwnerReferences after = metav1.GetOwnerReferences wl
    ∧ nameOption after comp' def' = mkRun [] (Returns after None).
Proof.
  unfold assemble.NameNonInplaceUpgradableWorkload.
  set (name := index (GetLabels wl) label).
  exists (SetName wl name). split; [done |].
  assert ((∀ k, k ≠ "metadata" → Object (SetName wl name) !! k = Object wl !! k)
          ∧ (∀ g, g ≠ "name" → metadataOf (SetName wl name) !! g = metadataOf wl !! g)
          ∧ metav1.GetOwnerReferences (SetName wl name) = metav1.GetOwnerReferences wl)
    as (Htop & Hmd & Hrefs).
  { destruct (Object wl !! "metadata") as [[| | | | |md]|] eqn:Hmeta.
    6:{ assert (wfMetadata wl) as Hwf by (right; by exists md).
        destruct (SetName_stamps wl name Hwf) as [(Hwf' & Hmd & Htop) _].
        split_and!; [done | done |]. apply GetOwnerReferences_metadataOf; [done .. |].
        by apply Hmd. }
    6:{ assert (wfMetadata wl) as Hwf by by left.
        destruct (SetName_stamps wl name Hwf) as [(Hwf' & Hmd & Htop) _].
        split_and!; [done | done |]. apply GetOwnerReferences_metadataOf; [done .. |].
        by apply Hmd. }
    all: assert (name = "") as -> by
      (subst name; unfold GetLabels, NestedStringMap; simpl; by rewrite Hmeta).
    all: rewrite SetName_unreadable; [done |].
    all: intros [Hnone | [md Hmd]]; congruence. }
  assert (GetLabels (SetName wl name) = GetLabels wl) as Hlabels.
  { rewrite !GetLabels_metadataOf. by rewrite Hmd. }
  split_and!; try done.
  - rewrite !GetAnnotations_metadataOf. by rewrite Hmd.
  - rewrite Hlabels. fold name. by rewrite SetName_twice.
Qed.

End NamingFrame.

(** ** Merging maps, adding and removing labels *)

(** X8.  [MergeMapOverrideWithDst] is associative and idempotent: merging
    in two steps gives the same map whichever step is taken first, with the
    later map winning, and merging a map with itself gives a copy of it;
    nil is kept only where every argument is nil. *)
Theorem MergeMapOverrideWithDst_assoc (a b c : option (gmap string string)) :
  util.MergeMapOverrideWithDst (util.MergeMapOverrideWithDst a b) c
  = util.MergeMapOverrideWithDst a (util.MergeMapOverrideWithDst b c)
  ∧ util.MergeMapOverrideWithDst a a = a
  ∧ util.MergeMapOverrideWithDst a None = util.MergeMapOverrideWithDst None a.
Proof.
  rewrite !MergeMapOverrideWithDst_union.
  destruct a as [a|], b as [b|], c as [c|]; simpl;
    rewrite ?(left_id_L ∅ (∪)), ?(right_id_L ∅ (∪)), ?(assoc_L (∪)), ?(idemp (∪));
    done.
Qed.

Lemma setLabels_GetLabels (u : Unstructured) (m : gmap string string) :
  wfMetadata u →
  wfMetadata (setLabels u (Some m)) ∧ GetLabels (setLabels u (Some m)) = Some m
  ∧ stamps "labels" u (setLabels u (Some m)).
Proof.
  intros Hwf. simpl.
  destruct (setNestedField_metadata u (VObj (VStr <$> m)) "labels" Hwf) as (Hwf' & Hmd & _).
  split_and!; [done | | by apply stamps_set].
  rewrite GetLabels_metadataOf, Hmd, lookup_insert_eq.
  destruct (string_map_roundtrip m) as [Hall ->]. by rewrite decide_True.
Qed.

(** X9.  On a manifest whose metadata is well formed, [AddLabels] leaves a
    label set that holds, at every key, the new value when the new labels
    have the key and the old value otherwise; the name, the annotations and
    everything outside [metadata] are untouched. *)
Theorem AddLabels_lookup (u : Unstructured) (labels : gmap string string) :
  wfMetadata u →
  let u' := util.AddLabels u (Some labels) in
  (∀ k, at_key (GetLabels u') k
        = match labels !! k with
          | Some v => Some v
          | None => at_key (GetLabels u) k
          end)
  ∧ GetName u' = GetName u ∧ GetAnnotations u' = GetAnnotations u
  ∧ ∀ k, k ≠ "metadata" → Object u' !! k = Object u !! k.
Proof.
  intros Hwf u'. subst u'.
  destruct (AddLabels_stamps u labels Hwf) as [(Hwf' & Hmd & Htop) Hset].
  split_and!; [| | | done].
  - intros k. rewrite (GetLabels_metadataOf (util.AddLabels u (Some labels))), Hset.
    destruct (string_map_roundtrip (labels ∪ default ∅ (GetLabels u))) as [Hall ->].
    rewrite decide_True by done. simpl. rewrite lookup_union.
    destruct (labels !! k), (GetLabels u) as [old|]; simpl;
      rewrite ?lookup_empty; try done; by destruct (old !! k).
  - rewrite !GetName_metadataOf. by rewrite Hmd.
  - rewrite !GetAnnotations_metadataOf. by rewrite Hmd.
Qed.

(** X10.  On a manifest whose [metadata] is something other than an object
    (a string, a list, null), [AddLabels], [AddAnnotations] and
    [RemoveLabels] change nothing and report nothing: the error of the
    nested setter is dropped. *)
Theorem AddLabels_unreadable_metadata (u : Unstructured)
    (labels : option (gmap string string)) (removeKeys : list string) :
  ¬ wfMetadata u →
  util.AddLabels u labels = u ∧ util.AddAnnotations u labels = u
  ∧ oamutil.RemoveLabels u removeKeys = u.
Proof.
  intros Hwf.
  assert (∃ v, Object u !! "metadata" = Some v ∧ ¬ is_obj v) as (v & Hmd & Hv).
  { destruct (Object u !! "metadata") as [v|] eqn:Hmd.
    - exists v. split; [done |]. destruct v; try (by intros []).
      destruct Hwf. right. by eexists.
    - destruct Hwf. by left. }
  assert (GetLabels u = None) as Hlabels.
  { unfold GetLabels, NestedStringMap. simpl. rewrite Hmd. by destruct v. }
  assert (GetAnnotations u = None) as Hannos.
  { unfold GetAnnotations, NestedStringMap. simpl. rewrite Hmd. by destruct v. }
  assert (∀ m f, setNestedMap u m "metadata" [f] = u) as Hset.
  { intros m f. destruct u as [o]. simpl in *. unfold setNestedMap, setNestedField. simpl.
    destruct m; rewrite Hmd; by destruct v. }
  assert (oamutil.deleteKeys None removeKeys = None) as Hdel.
  { unfold oamutil.deleteKeys. by induction removeKeys. }
  unfold util.AddLabels, util.AddAnnotations, oamutil.RemoveLabels. simpl.
  rewrite Hlabels, Hannos, Hdel. by rewrite !Hset.
Qed.

Lemma deleteKeys_Some (m : gmap string string) (removeKeys : list string) :
  ∃ m', oamutil.deleteKeys (Some m) removeKeys = Some m'
        ∧ ∀ k, m' !! k = if decide (k ∈ removeKeys) then None else m !! k.
Proof.
  unfold oamutil.deleteKeys. revert m.
  induction removeKeys as [|key rest IH]; intros m.
  - exists m. split; [done |]. intros k. case_decide as Hin; [| done].
    by apply elem_of_nil in Hin.
  - destruct (IH (delete key m)) as (m' & Hm' & Hlookup). exists m'. split; [done |].
    intros k. rewrite Hlookup.
    destruct (decide (k ∈ rest)) as [Hin | Hout].
    + rewrite decide_True; [done | by right].
    + destruct (decide (k = key)) as [-> | Hne].
      * rewrite lookup_delete_eq, decide_True; [done | by left].
      * rewrite lookup_delete_ne by done. rewrite decide_False; [done |].
        by intros [? | ?]%elem_of_cons.
Qed.

(** X11.  On a manifest with well-formed metadata and readable labels,
    [RemoveLabels] leaves exactly the labels whose key is not in
    [removeKeys], each with its value; removing keys that are absent changes
    no label; the label set stays non-nil even when it becomes empty. *)
Theorem RemoveLabels_lookup (u : Unstructured) (labels : gmap string string)
    (removeKeys : list string) :
  wfMetadata u → GetLabels u = Some labels →
  ∃ labels',
    GetLabels (oamutil.RemoveLabels u removeKeys) = Some labels'
    ∧ ∀ k, labels' !! k = if decide (k ∈ removeKeys) then None else labels !! k.
Proof.
  intros Hwf Hlabels. unfold oamutil.RemoveLabels.
  change (getLabels u) with (GetLabels u). rewrite Hlabels.
  destruct (deleteKeys_Some labels removeKeys) as (labels' & -> & Hlookup).
  exists labels'. split; [| done]. by apply setLabels_GetLabels.
Qed.

(** X12.  [RemoveLabels] on labels that cannot be read as strings (a label
    whose value is a number, say) removes the whole [labels] field, whatever
    the keys to remove, even none: [GetLabels] gives nil for such labels, and
    writing nil back deletes the field. *)
Theorem RemoveLabels_unreadable_labels (u : Unstructured) (removeKeys : list string) :
  wfMetadata u → GetLabels u = None →
  metadataOf (oamutil.RemoveLabels u removeKeys) !! "labels" = None
  ∧ ∀ g, g ≠ "labels" →
         metadataOf (oamutil.RemoveLabels u removeKeys) !! g = metadataOf u !! g.
Proof.
  intros Hwf Hlabels. unfold oamutil.RemoveLabels.
  change (getLabels u) with (GetLabels u). rewrite Hlabels.
  assert (oamutil.deleteKeys None removeKeys = None) as ->.
  { unfold oamutil.deleteKeys. by induction removeKeys. }
  change (setLabels u None)
    with (mkUnstructured (RemoveNestedField (Object u) "metadata" ["labels"])).
  destruct (RemoveNestedField_metadata u "labels" Hwf) as (_ & -> & _).
  split; [apply lookup_delete_eq |]. intros g Hg. by apply lookup_delete_ne.
Qed.

Lemma MergeMapOverrideWithDst_Some_l (src : gmap string string)
    (dst : option (gmap string string)) :
  util.MergeMapOverrideWithDst (Some src) dst = Some (default ∅ dst ∪ src).
Proof. rewrite MergeMapOverrideWithDst_union. by destruct dst. Qed.

Lemma MergeMapOverrideWithDst_Some_r (src : option (gmap string string))
    (dst : gmap string string) :
  util.MergeMapOverrideWithDst src (Some dst) = Some (dst ∪ default ∅ src).
Proof. rewrite MergeMapOverrideWithDst_union. by destruct src. Qed.




(** ** Revision names *)

Lemma has_byte_substring (d : ascii) (s : string) :
  has_byte d s = true ↔ substring_of (String d "") s.
Proof.
  unfold substring_of. induction s as [|c s IH]; simpl.
  - split; [done |]. intros ([|b before] & after & Heq); discriminate.
  - rewrite orb_true_iff, Ascii.eqb_eq, IH. split.
    + intros [-> | (before & after & ->)]; [by exists "", s |].
      by exists (String c before), after.
    + intros ([|b before] & after & Heq).
      * left. by injection Heq.
      * right. rewrite append_cons in Heq. injection Heq as -> ->. by exists before, after.
Qed.

Lemma has_byte_append (d : ascii) (a b : string) :
  has_byte d (a +:+ b) = has_byte d a || has_byte d b.
Proof.
  induction a as [|c a IH]; [done |]. rewrite append_cons. simpl.
  by rewrite IH, orb_assoc.
Qed.

Lemma splitFrom_no_separator (s sep cur : string) :
  sep ≠ "" → ¬ substring_of sep s → oamutil.splitFrom s sep 0 cur = [cur +:+ s].
Proof.
  intros Hsep. revert cur. induction s as [|c s IH]; intros cur Hnot.
  - simpl. by rewrite append_nil_r.
  - cbn [oamutil.splitFrom].
    destruct (GoStrings.HasPrefix (String c s) sep) eqn:Hprefix.
    + apply HasPrefix_spec in Hprefix as [rest Hrest]. destruct Hnot.
      exists "", rest. by rewrite append_nil_l.
    + rewrite IH.
      * by rewrite append_assoc.
      * intros (before & after & ->). destruct Hnot. by exists (String c before), after.
Qed.

Lemma splitFrom_last (front p cur : string) (d : ascii) :
  has_byte d p = false →
  ∃ pieces, oamutil.splitFrom (front +:+ String d p) (String d "") 0 cur = pieces ++ [p]
            ∧ pieces ≠ [].
Proof.
  intros Hp.
  assert (¬ substring_of (String d "") p) as Hnot
    by (rewrite <- has_byte_substring; congruence).
  revert cur. induction front as [|c front IH]; intros cur.
  - rewrite append_nil_l. cbn [oamutil.splitFrom GoStrings.HasPrefix].
    rewrite Ascii.eqb_refl. simpl. rewrite splitFrom_no_separator by done.
    by exists [cur].
  - rewrite append_cons. cbn [oamutil.splitFrom GoStrings.HasPrefix].
    destruct (Ascii.eqb c d); simpl.
    + destruct (IH "") as (pieces & -> & _). by exists (cur :: pieces).
    + apply IH.
Qed.

Lemma splitFrom_nonempty (s sep : string) (skip : nat) (cur : string) :
  oamutil.splitFrom s sep skip cur ≠ [].
Proof.
  revert skip cur. induction s as [|c s IH]; intros skip cur; simpl; [done |].
  destruct skip; [| apply IH]. destruct (GoStrings.HasPrefix _ _); [done | apply IH].
Qed.

Lemma digit_pretty_N_char (n : N) :
  (n < 10)%N → oamutil.digit (pretty_N_char n) = Some (Z.of_N n).
Proof.
  intros Hn.
  assert (n ∈ [0; 1; 2; 3; 4; 5; 6; 7; 8; 9]%N) as Hn'.
  { rewrite !elem_of_cons. lia. }
  rewrite !elem_of_cons, elem_of_nil in Hn'.
  repeat (destruct Hn' as [-> | Hn']; [done |]). done.
Qed.

Lemma parseUint_pretty_N_go (x : N) (s : string) :
  (Z.of_N x ≤ oamutil.maxUint64)%Z →
  oamutil.parseUint (pretty_N_go x s) 0 = oamutil.parseUint s (Z.of_N x).
Proof.
  revert s. induction (N.lt_wf_0 x) as [x _ IH]. intros s Hmax.
  destruct (decide (x = 0%N)) as [-> | Hx]; [by rewrite pretty_N_go_0 |].
  rewrite pretty_N_go_step by lia.
  assert (x `div` 10 < x)%N as Hlt by (apply N.div_lt; lia).
  assert (Z.of_N (x `div` 10) = Z.of_N x `div` 10)%Z as Hdiv by apply N2Z.inj_div.
  assert (Z.of_N (x `mod` 10) = Z.of_N x `mod` 10)%Z as Hmod by apply N2Z.inj_mod.
  pose proof (Z.div_mod (Z.of_N x) 10 ltac:(lia)) as Hdm.
  pose proof (Z.mod_pos_bound (Z.of_N x) 10 ltac:(lia)) as Hbound.
  unfold oamutil.maxUint64 in *.
  rewrite IH by lia. cbn [oamutil.parseUint].
  rewrite digit_pretty_N_char by (apply N.mod_lt; lia).
  rewrite Hdiv, Hmod.
  destruct (Z.leb_spec (oamutil.maxUint64 `div` 10 + 1) (Z.of_N x `div` 10)) as [Hcut | _].
  { unfold oamutil.maxUint64 in Hcut.
    change ((2 ^ 64 - 1) `div` 10)%Z with 1844674407370955161%Z in Hcut. lia. }
  destruct (Z.ltb_spec oamutil.maxUint64 (Z.of_N x `div` 10 * 10 + Z.of_N x `mod` 10))
    as [Hover | _].
  { unfold oamutil.maxUint64 in Hover. lia. }
  f_equal. lia.
Qed.

Lemma parseUint_pretty (x : N) :
  (Z.of_N x ≤ oamutil.maxUint64)%Z → oamutil.parseUint (pretty x) 0 = oamutil.Number (Z.of_N x).
Proof.
  intros Hmax. unfold pretty, pretty_N. case_decide as Hx.
  - by subst.
  - by rewrite parseUint_pretty_N_go.
Qed.

Lemma decimal_head (s : string) :
  decimal s → s ≠ "" →
  ∃ c rest, s = String c rest ∧ c ≠ "-"%char ∧ c ≠ "+"%char ∧ c ≠ "@"%char.
Proof.
  intros [|n rest Hn Hrest] Hne; [done |]. exists (pretty_N_char n), rest.
  split; [done |].
  assert (n ∈ [0; 1; 2; 3; 4; 5; 6; 7; 8; 9]%N) as Hn'.
  { rewrite !elem_of_cons. lia. }
  rewrite !elem_of_cons, elem_of_nil in Hn'.
  repeat (destruct Hn' as [-> | Hn']; [by split_and! |]). done.
Qed.

Lemma decimal_no_at (s : string) : decimal s → has_byte "@" s = false.
Proof.
  induction 1 as [|n rest Hn Hrest IH]; [done |]. simpl. rewrite IH, orb_false_r.
  assert (n ∈ [0; 1; 2; 3; 4; 5; 6; 7; 8; 9]%N) as Hn'.
  { rewrite !elem_of_cons. lia. }
  rewrite !elem_of_cons, elem_of_nil in Hn'.
  repeat (destruct Hn' as [-> | Hn']; [done |]). done.
Qed.

Lemma pretty_N_go_nonempty (y : N) (c : ascii) (s : string) :
  pretty_N_go y (String c s) ≠ "".
Proof.
  revert c s. induction (N.lt_wf_0 y) as [y _ IH]. intros c s.
  destruct (decide (y = 0%N)) as [-> | Hy]; [by rewrite pretty_N_go_0 |].
  rewrite pretty_N_go_step by lia. apply IH. apply N.div_lt; lia.
Qed.

Lemma pretty_N_nonempty (x : N) : pretty x ≠ "".
Proof.
  unfold pretty, pretty_N. case_decide as Hx; [done |].
  rewrite pretty_N_go_step by lia. apply pretty_N_go_nonempty.
Qed.

Lemma pretty_Z_no_at (n : Z) : has_byte "@" (pretty n) = false.
Proof.
  destruct n as [|p|p]; [done | |].
  - apply (decimal_no_at (pretty (Npos p))), pretty_N_decimal.
  - change (pretty (Z.neg p)) with ("-" +:+ pretty (Npos p)).
    rewrite has_byte_append. simpl.
    apply (decimal_no_at (pretty (Npos p))), pretty_N_decimal.
Qed.

Section RevisionProperties.

Context (ErrSyntax ErrRange : string → error) (ErrBadRevisionName : error).

Abbreviation atoi := (oamutil.strconv_Atoi ErrSyntax ErrRange).
Abbreviation extract := (oamutil.ExtractRevisionNum ErrSyntax ErrRange ErrBadRevisionName).
Abbreviation convert := (oamutil.ConvertDefinitionRevName ErrSyntax ErrRange ErrBadRevisionName).

Lemma Atoi_decimal (s : string) :
  decimal s → s ≠ "" →
  atoi s = match oamutil.parseUint s 0 with
           | oamutil.Syntax => (0%Z, Some (ErrSyntax s))
           | oamutil.Range => ((2 ^ 63 - 1)%Z, Some (ErrRange s))
           | oamutil.Number un =>
               if (2 ^ 63 <=? un)%Z then ((2 ^ 63 - 1)%Z, Some (ErrRange s)) else (un, None)
           end.
Proof.
  intros Hdec Hne. destruct (decimal_head s Hdec Hne) as (c & rest & -> & Hminus & Hplus & _).
  unfold oamutil.strconv_Atoi.
  destruct c as [[] [] [] [] [] [] [] []]; try done.
Qed.

(** Printing an [int] in decimal and parsing it back with [strconv.Atoi]
    gives the number, without error. *)
Lemma Atoi_pretty (n : Z) :
  (oamutil.minInt ≤ n ≤ oamutil.maxInt)%Z → atoi (pretty n) = (n, None).
Proof.
  unfold oamutil.minInt, oamutil.maxInt. intros Hrange.
  destruct n as [|p|p]; [done | |].
  - change (pretty (Z.pos p)) with (pretty (Npos p)).
    rewrite Atoi_decimal by (apply pretty_N_decimal || apply pretty_N_nonempty).
    rewrite parseUint_pretty by (unfold oamutil.maxUint64; lia).
    change (Z.of_N (N.pos p)) with (Z.pos p).
    destruct (Z.leb_spec (2 ^ 63) (Z.pos p)); [lia | done].
  - change (pretty (Z.neg p)) with ("-" +:+ pretty (Npos p)).
    unfold oamutil.strconv_Atoi. rewrite append_cons, append_nil_l.
    destruct (pretty (N.pos p)) as [|c rest] eqn:Hprint; [by apply pretty_N_nonempty in Hprint |].
    rewrite <- Hprint, parseUint_pretty by (unfold oamutil.maxUint64; lia).
    change (Z.of_N (N.pos p)) with (Z.pos p).
    destruct (Z.ltb_spec (2 ^ 63) (Z.pos p)); [lia | done].
Qed.

Lemma ExtractRevisionNum_segment (d : ascii) (front p : string) :
  has_byte d p = false →
  extract (front +:+ String d p) (String d "")
  = Some (if GoStrings.HasPrefix p "v" then atoi (GoStrings.drop 1 p)
          else (0%Z, Some ErrBadRevisionName)).
Proof.
  intros Hp. unfold oamutil.ExtractRevisionNum, oamutil.strings_Split.
  destruct (splitFrom_last front p "" d Hp) as (pieces & -> & Hpieces).
  rewrite last_snoc.
  assert ((length (pieces ++ [p]) =? 1) = false) as ->.
  { apply Nat.eqb_neq. rewrite length_app. destruct pieces; simpl; [done | lia]. }
  unfold oamutil.strings_TrimPrefix.
  by destruct (GoStrings.HasPrefix p "v").
Qed.

Lemma ExtractRevisionNum_total (appRevision delimiter : string) :
  delimiter ≠ "" → is_Some (extract appRevision delimiter).
Proof.
  intros Hsep. unfold oamutil.ExtractRevisionNum, oamutil.strings_Split.
  destruct delimiter as [|d rest]; [done |].
  destruct (length _ =? 1); [done |].
  destruct (last _) as [lastSplit|] eqn:Hlast.
  - by destruct (negb _).
  - apply last_None in Hlast. by apply splitFrom_nonempty in Hlast.
Qed.

Lemma ExtractRevisionNum_absent (appRevision delimiter : string) :
  delimiter ≠ "" → ¬ substring_of delimiter appRevision →
  extract appRevision delimiter = Some (0%Z, Some ErrBadRevisionName).
Proof.
  intros Hsep Hnot. unfold oamutil.ExtractRevisionNum, oamutil.strings_Split.
  destruct delimiter as [|d rest]; [done |]. by rewrite splitFrom_no_separator.
Qed.

(** X14.  [ExtractRevisionNum] looks at what follows the last delimiter
    only.  For a one-byte delimiter [d] and a name [front d p] where [d] does
    not occur in [p]: when [p] starts with [v] the result is that of
    [strconv.Atoi] on the rest of [p], whatever [front] is; otherwise it is
    [ErrBadRevisionName]. *)
Theorem ExtractRevisionNum_last_segment (d : ascii) (front p : string) :
  has_byte d p = false →
  extract (front +:+ String d p) (String d "")
  = Some (if GoStrings.HasPrefix p "v" then atoi (GoStrings.drop 1 p)
          else (0%Z, Some ErrBadRevisionName)).
Proof. apply ExtractRevisionNum_segment. Qed.

(** X15.  With a delimiter that is not empty, [ExtractRevisionNum] never
    panics, and a name in which the delimiter does not occur ("v1",
    "appv2") gives [ErrBadRevisionName] and the number 0. *)
Theorem ExtractRevisionNum_no_delimiter (appRevision delimiter : string) :
  delimiter ≠ "" →
  is_Some (extract appRevision delimiter)
  ∧ (¬ substring_of delimiter appRevision →
     extract appRevision delimiter = Some (0%Z, Some ErrBadRevisionName)).
Proof.
  intros Hsep. split; [by apply ExtractRevisionNum_total |].
  by apply ExtractRevisionNum_absent.
Qed.

Lemma ConvertDefinitionRevName_parsed (defName p : string) (n : Z) :
  has_byte "@" p = false → atoi p = (n, None) →
  convert (defName +:+ "@v" +:+ p)
  = if decide (p = pretty n) then
      if decide (defName = "")
      then Some ("", Some (ErrorString ("invalid definition defName " +:+ "@v" +:+ p)))
      else Some (defName +:+ "-v" +:+ pretty n, None)
    else Some ((defName +:+ "@v" +:+ p) +:+ "-v" +:+ pretty n, None).
Proof.
  intros Hp Hatoi. unfold oamutil.ConvertDefinitionRevName.
  assert (has_byte "@" ("v" +:+ p) = false) as Hvp by (by rewrite has_byte_append, Hp).
  change (defName +:+ "@v" +:+ p) with (defName +:+ String "@" ("v" +:+ p)).
  rewrite (ExtractRevisionNum_segment "@" defName ("v" +:+ p) Hvp).
  change (GoStrings.HasPrefix ("v" +:+ p) "v") with true.
  change (GoStrings.drop 1 ("v" +:+ p)) with p. rewrite Hatoi.
  unfold GoStrings.TrimSuffix.
  destruct (GoStrings.HasSuffix _ _) eqn:Hsuffix.
  - apply HasSuffix_spec in Hsuffix as [front Hfront].
    assert (p = pretty n) as ->.
    { destruct (splitFrom_last defName ("v" +:+ p) "" "@" Hvp) as (pieces & Hone & _).
      destruct (splitFrom_last front ("v" +:+ pretty n) "" "@") as (pieces' & Htwo & _).
      { by rewrite has_byte_append, pretty_Z_no_at. }
      change (front +:+ String "@" ("v" +:+ pretty n)) with (front +:+ "@v" +:+ pretty n) in Htwo.
      rewrite <- Hfront in Htwo.
      change (defName +:+ String "@" ("v" +:+ pretty n)) with (defName +:+ "@v" +:+ pretty n).
      change (defName +:+ "@v" +:+ p) with (defName +:+ String "@" ("v" +:+ p)) in Htwo.
      rewrite Hone in Htwo. apply app_inj_tail in Htwo as [_ Heq]. by injection Heq. }
    rewrite decide_True by done.
    replace (String.length (defName +:+ String "@" ("v" +:+ pretty n))
             - String.length ("@v" +:+ pretty n)) with (String.length defName).
    2:{ change (defName +:+ String "@" ("v" +:+ pretty n)) with (defName +:+ "@v" +:+ pretty n).
        rewrite length_append. lia. }
    change (defName +:+ String "@" ("v" +:+ pretty n)) with (defName +:+ "@v" +:+ pretty n).
    rewrite take_append.
    destruct (String.eqb_spec defName "") as [-> | Hne].
    + by rewrite decide_True.
    + by rewrite decide_False.
  - rewrite decide_False.
    2:{ intros ->. assert (GoStrings.HasSuffix (defName +:+ "@v" +:+ pretty n)
                             ("@v" +:+ pretty n) = true) as Htrue
          by (apply HasSuffix_spec; by exists defName).
        change (defName +:+ String "@" ("v" +:+ pretty n))
          with (defName +:+ "@v" +:+ pretty n) in Hsuffix. congruence. }
    destruct (String.eqb_spec (defName +:+ String "@" ("v" +:+ p)) "") as [Hempty | _]; [| done].
    by destruct defName.
Qed.

Lemma ConvertDefinitionRevName_absent (definitionName : string) :
  ¬ substring_of "@" definitionName →
  convert definitionName = Some ("", Some ErrBadRevisionName).
Proof.
  intros Hnot. unfold oamutil.ConvertDefinitionRevName.
  by rewrite ExtractRevisionNum_absent.
Qed.

Lemma ConvertDefinitionRevName_unparsed (front p : string) (n : Z) (err : error) :
  has_byte "@" p = false → atoi p = (n, Some err) →
  convert (front +:+ "@v" +:+ p) = Some ("", Some err).
Proof.
  intros Hp Hatoi. unfold oamutil.ConvertDefinitionRevName.
  assert (has_byte "@" ("v" +:+ p) = false) as Hvp by (by rewrite has_byte_append, Hp).
  change (front +:+ "@v" +:+ p) with (front +:+ String "@" ("v" +:+ p)).
  rewrite (ExtractRevisionNum_segment "@" front ("v" +:+ p) Hvp).
  change (GoStrings.HasPrefix ("v" +:+ p) "v") with true.
  change (GoStrings.drop 1 ("v" +:+ p)) with p. by rewrite Hatoi.
Qed.

Lemma ConvertDefinitionRevName_total (definitionName : string) :
  is_Some (convert definitionName).
Proof.
  unfold oamutil.ConvertDefinitionRevName.
  destruct (ExtractRevisionNum_total definitionName "@") as [[revNum [err|]] ->]; try done.
  by destruct (String.eqb _ _).
Qed.

Lemma ConvertDefinitionRevName_canonical_eq (defName : string) (n : Z) :
  defName ≠ "" → (oamutil.minInt ≤ n ≤ oamutil.maxInt)%Z →
  convert (defName +:+ "@v" +:+ pretty n) = Some (defName +:+ "-v" +:+ pretty n, None).
Proof.
  intros Hname Hrange.
  rewrite (ConvertDefinitionRevName_parsed defName (pretty n) n (pretty_Z_no_at n)
             (Atoi_pretty n Hrange)).
  by rewrite decide_True, decide_False.
Qed.

(** X16.  [ConvertDefinitionRevName] turns [name@vN] into [name-vN] for
    every name that is not empty and every [int] printed in decimal: "worker@v2
    will be convert to worker-v2", also when the name itself contains [@]. *)
Theorem ConvertDefinitionRevName_canonical (defName : string) (n : Z) :
  defName ≠ "" → (oamutil.minInt ≤ n ≤ oamutil.maxInt)%Z →
  convert (defName +:+ "@v" +:+ pretty n) = Some (defName +:+ "-v" +:+ pretty n, None).
Proof. apply ConvertDefinitionRevName_canonical_eq. Qed.

(** X17.  A revision that parses but is not written as Go prints it
    (leading zeros as in [worker@v02], a plus sign) is accepted, and then
    the suffix is not cut off: the result is the whole name followed by
    [-vN], [worker@v02-v2]. *)
Theorem ConvertDefinitionRevName_not_canonical (defName p : string) (n : Z) :
  has_byte "@" p = false → atoi p = (n, None) → p ≠ pretty n →
  convert (defName +:+ "@v" +:+ p)
  = Some ((defName +:+ "@v" +:+ p) +:+ "-v" +:+ pretty n, None).
Proof.
  intros Hp Hatoi Hne.
  rewrite (ConvertDefinitionRevName_parsed defName p n Hp Hatoi). by rewrite decide_False.
Qed.

End RevisionProperties.


(** ** Looking up definitions *)

Section DefinitionProperties.

Context (SystemDefinitonNamespace : string) (IsNotFound : error → bool).
Context {Obj : Type}.

Abbreviation getDefinition :=
  (oamutil.GetDefinition (Obj := Obj) SystemDefinitonNamespace IsNotFound).

Local Ltac shorter_list :=
  let H := fresh in
  intros H; apply (f_equal length) in H; simpl in H; lia.

(** X18.  [GetDefinition] walks the candidate namespaces in order (that of
    the environment if set, that of the application, the system namespace,
    no namespace) and stops at the first read that succeeds or fails with
    something else than NotFound.  It succeeds exactly when its last read
    succeeded, and then holds the object read; when it fails the caller's
    object is untouched.  The error is that of the last read, except that
    when the read without namespace fails with "an empty namespace may not
    be set when a resource name is provided" the NotFound error of the system
    namespace is returned instead. *)
Theorem GetDefinition_fallback (dns : string) (ctx : oamutil.Context)
    (cli : oamutil.TypedReader Obj) (definition : Obj) (definitionName : string) :
  let run := getDefinition dns ctx cli definition definitionName in
  let keys := candidates SystemDefinitonNamespace dns ctx definitionName in
  let sysKey := client.mkObjectKey SystemDefinitonNamespace definitionName in
  (∃ rest, keys = oamutil.lookups run ++ rest)
  ∧ (∀ i k, oamutil.lookups run !! i = Some k → S i < length (oamutil.lookups run) →
            ∃ e, cli k definition = inl e ∧ IsNotFound e = true)
  ∧ ∃ k, last (oamutil.lookups run) = Some k
         ∧ match cli k definition with
           | inr found => oamutil.failure run = None ∧ oamutil.fetched run = found
           | inl e =>
               oamutil.fetched run = definition
               ∧ (IsNotFound e = true → oamutil.lookups run = keys)
               ∧ (oamutil.lookups run = keys → oamutil.checkRequestNamespaceError e = true →
                  ∃ e', cli sysKey definition = inl e' ∧ IsNotFound e' = true
                        ∧ oamutil.failure run = Some e')
               ∧ (¬ (oamutil.lookups run = keys ∧ oamutil.checkRequestNamespaceError e = true) →
                  oamutil.failure run = Some e)
           end.
Proof.
  intros run keys sysKey. subst run keys sysKey.
  unfold oamutil.GetDefinition, candidates.
  set (envKey := client.mkObjectKey dns definitionName).
  set (appKey := client.mkObjectKey _ definitionName).
  set (sysKey := client.mkObjectKey SystemDefinitonNamespace definitionName).
  set (clusterKey := client.mkObjectKey "" definitionName).
  destruct (String.eqb dns ""); cbn [negb app].
  - destruct (cli appKey definition) as [e1|f1] eqn:H1; [destruct (IsNotFound e1) eqn:N1 |];
      [destruct (cli sysKey definition) as [e2|f2] eqn:H2; [destruct (IsNotFound e2) eqn:N2 |] | |];
      [destruct (cli clusterKey definition) as [e3|f3] eqn:H3;
         [destruct (oamutil.checkRequestNamespaceError e3) eqn:C3 |] | | | |];
      cbn [oamutil.lookups oamutil.fetched oamutil.failure app].
    all: split; [by eexists |].
    all: split;
      [intros [|[|[|i]]] k Hlook Hlen; simpl in Hlook, Hlen; simplify_eq; try lia; by eexists |].
    all: eexists; split; [reflexivity |]; cbn [last].
    all: rewrite ?H1, ?H2, ?H3; try done.
    all: split_and!; try done; try shorter_list; try congruence.
    all: try (intros _ _; by eexists).
    all: try (intros Hno; destruct Hno; by split).
    all: try (by intros [Hkeys _]; revert Hkeys; shorter_list).
    all: try (intros Hkeys; exfalso; revert Hkeys; shorter_list).
  - destruct (cli envKey definition) as [e0|f0] eqn:H0; [destruct (IsNotFound e0) eqn:N0 |];
      cbn [negb];
      [destruct (cli appKey definition) as [e1|f1] eqn:H1; [destruct (IsNotFound e1) eqn:N1 |] | |];
      [destruct (cli sysKey definition) as [e2|f2] eqn:H2; [destruct (IsNotFound e2) eqn:N2 |] | | | |];
      [destruct (cli clusterKey definition) as [e3|f3] eqn:H3;
         [destruct (oamutil.checkRequestNamespaceError e3) eqn:C3 |] | | | | | |];
      cbn [oamutil.lookups oamutil.fetched oamutil.failure app].
    all: split; [by eexists |].
    all: split;
      [intros [|[|[|[|i]]]] k Hlook Hlen; simpl in Hlook, Hlen; simplify_eq; try lia;
         by eexists |].
    all: eexists; split; [reflexivity |]; cbn [last].
    all: rewrite ?H0, ?H1, ?H2, ?H3; try done.
    all: split_and!; try done; try shorter_list; try congruence.
    all: try (intros _ _; by eexists).
    all: try (intros Hno; destruct Hno; by split).
    all: try (by intros [Hkeys _]; revert Hkeys; shorter_list).
    all: try (intros Hkeys; exfalso; revert Hkeys; shorter_list).
Qed.

End DefinitionProperties.


(** ** Capability definitions and their revisions *)

Section CapabilityProperties.

Context (ComponentDefinition TraitDefinition PolicyDefinition WorkflowStepDefinition : Type).
Context (OtherObject : Type).
Context (ErrSyntax ErrRange : string → error).
Context (SystemDefinitonNamespace : string) (IsNotFound : error → bool).

Abbreviation Revision :=
  (definitions.DefinitionRevision ComponentDefinition TraitDefinition PolicyDefinition
     WorkflowStepDefinition).
Abbreviation Definition_ :=
  (definitions.Object ComponentDefinition TraitDefinition PolicyDefinition
     WorkflowStepDefinition OtherObject).
Abbreviation CapabilityReader :=
  (definitions.Reader ComponentDefinition TraitDefinition PolicyDefinition
     WorkflowStepDefinition OtherObject).

Context (newDefinitionRevision : Revision).

Abbreviation getCapability :=
  (definitions.GetCapabilityDefinition ComponentDefinition TraitDefinition PolicyDefinition
     WorkflowStepDefinition OtherObject ErrSyntax ErrRange SystemDefinitonNamespace
     IsNotFound newDefinitionRevision).
Abbreviation getLatest :=
  (oamutil.GetDefinition (Obj := Definition_) SystemDefinitonNamespace IsNotFound).
Abbreviation getRevision :=
  (oamutil.GetDefinition (Obj := Revision) SystemDefinitonNamespace IsNotFound).

Lemma GetCapabilityDefinition_fallback (ErrBadRevisionName err : error) (dns : string)
    (ctx : oamutil.Context) (cli : CapabilityReader) (definition : Definition_)
    (definitionName converted : string) :
  oamutil.ConvertDefinitionRevName ErrSyntax ErrRange ErrBadRevisionName definitionName
  = Some (converted, Some err) →
  ∃ run, getCapability ErrBadRevisionName dns ctx cli definition definitionName
         = Some (run, err)
         ∧ oamutil.lookups run
           = oamutil.lookups (getLatest dns ctx (definitions.GetObject _ _ _ _ _ cli)
                                definition definitionName)
         ∧ oamutil.fetched run
           = oamutil.fetched (getLatest dns ctx (definitions.GetObject _ _ _ _ _ cli)
                                definition definitionName)
         ∧ oamutil.failure run
           = oamutil.failure (getLatest dns ctx (definitions.GetObject _ _ _ _ _ cli)
                                definition definitionName).
Proof.
  intros Hconv. unfold definitions.GetCapabilityDefinition, definitions.fetchDefinitionRev.
  rewrite Hconv. cbn. by eexists.
Qed.

(** X19.  For a name without [@] ("worker"), [GetCapabilityDefinition] is
    [GetDefinition] on that name: the same reads, the same object and the
    same error, with no read of a revision; [ErrBadRevisionName] keeps its
    value. *)
Theorem GetCapabilityDefinition_latest (ErrBadRevisionName : error) (dns : string)
    (ctx : oamutil.Context) (cli : CapabilityReader) (definition : Definition_)
    (definitionName : string) :
  ¬ substring_of "@" definitionName →
  ∃ run, getCapability ErrBadRevisionName dns ctx cli definition definitionName
         = Some (run, ErrBadRevisionName)
         ∧ oamutil.lookups run
           = oamutil.lookups (getLatest dns ctx (definitions.GetObject _ _ _ _ _ cli)
                                definition definitionName)
         ∧ oamutil.fetched run
           = oamutil.fetched (getLatest dns ctx (definitions.GetObject _ _ _ _ _ cli)
                                definition definitionName)
         ∧ oamutil.failure run
           = oamutil.failure (getLatest dns ctx (definitions.GetObject _ _ _ _ _ cli)
                                definition definitionName).
Proof.
  intros Hnot. eapply GetCapabilityDefinition_fallback.
  by apply ConvertDefinitionRevName_absent.
Qed.

(** X20.  A revision that [strconv.Atoi] rejects ("worker@vx", "worker@v",
    a number out of range) is no error of [GetCapabilityDefinition]: the
    error of [Atoi] is swallowed, the definition is looked up under the
    whole name as written, and the error of [Atoi] is left in the package
    variable [ErrBadRevisionName], replacing its value. *)
Theorem GetCapabilityDefinition_bad_revision (ErrBadRevisionName err : error) (dns : string)
    (ctx : oamutil.Context) (cli : CapabilityReader) (definition : Definition_)
    (front p : string) (n : Z) :
  has_byte "@" p = false →
  oamutil.strconv_Atoi ErrSyntax ErrRange p = (n, Some err) →
  ∃ run, getCapability ErrBadRevisionName dns ctx cli definition (front +:+ "@v" +:+ p)
         = Some (run, err)
         ∧ oamutil.lookups run
           = oamutil.lookups (getLatest dns ctx (definitions.GetObject _ _ _ _ _ cli)
                                definition (front +:+ "@v" +:+ p))
         ∧ oamutil.fetched run
           = oamutil.fetched (getLatest dns ctx (definitions.GetObject _ _ _ _ _ cli)
                                definition (front +:+ "@v" +:+ p))
         ∧ oamutil.failure run
           = oamutil.failure (getLatest dns ctx (definitions.GetObject _ _ _ _ _ cli)
                                definition (front +:+ "@v" +:+ p)).
Proof.
  intros Hp Hatoi. eapply GetCapabilityDefinition_fallback.
  by eapply ConvertDefinitionRevName_unparsed.
Qed.

(** X21.  For [name@vN] with a name that is not empty and an [int] [N]
    printed in decimal, [GetCapabilityDefinition] looks for the definition
    revision [name-vN] and for nothing else.  If that lookup fails, its error
    is returned and the caller's definition is untouched; if it succeeds, a
    component, trait, policy or workflow step definition is overwritten by
    the one recorded in the revision, and any other object is left as it
    is. *)
Theorem GetCapabilityDefinition_revision (ErrBadRevisionName : error) (dns : string)
    (ctx : oamutil.Context) (cli : CapabilityReader) (definition : Definition_)
    (defName : string) (n : Z) :
  defName ≠ "" → (oamutil.minInt ≤ n ≤ oamutil.maxInt)%Z →
  let rev := getRevision dns ctx (definitions.GetRevision _ _ _ _ _ cli)
               newDefinitionRevision (defName +:+ "-v" +:+ pretty n) in
  ∃ run, getCapability ErrBadRevisionName dns ctx cli definition
           (defName +:+ "@v" +:+ pretty n) = Some (run, ErrBadRevisionName)
         ∧ oamutil.lookups run = oamutil.lookups rev
         ∧ oamutil.failure run = oamutil.failure rev
         ∧ match oamutil.failure rev with
           | Some _ => oamutil.fetched run = definition
           | None =>
               let spec := definitions.revisionSpec _ _ _ _ (oamutil.fetched rev) in
               match definition with
               | definitions.ComponentDefinitionObject _ _ _ _ _ _ =>
                   oamutil.fetched run
                   = definitions.ComponentDefinitionObject _ _ _ _ _
                       (definitions.specComponentDefinition _ _ _ _ spec)
               | definitions.TraitDefinitionObject _ _ _ _ _ _ =>
                   oamutil.fetched run
                   = definitions.TraitDefinitionObject _ _ _ _ _
                       (definitions.specTraitDefinition _ _ _ _ spec)
               | definitions.PolicyDefinitionObject _ _ _ _ _ _ =>
                   oamutil.fetched run
                   = definitions.PolicyDefinitionObject _ _ _ _ _
                       (definitions.specPolicyDefinition _ _ _ _ spec)
               | definitions.WorkflowStepDefinitionObject _ _ _ _ _ _ =>
                   oamutil.fetched run
                   = definitions.WorkflowStepDefinitionObject _ _ _ _ _
                       (definitions.specWorkflowStepDefinition _ _ _ _ spec)
               | definitions.Other _ _ _ _ _ _ => oamutil.fetched run = definition
               end
           end.
Proof.
  intros Hname Hrange rev. subst rev.
  unfold definitions.GetCapabilityDefinition, definitions.fetchDefinitionRev.
  rewrite (ConvertDefinitionRevName_canonical_eq ErrSyntax ErrRange ErrBadRevisionName
             defName n Hname Hrange).
  destruct (oamutil.failure _) as [err|] eqn:Hfail; cbn.
  - by eexists.
  - eexists. split; [reflexivity |]. split_and!; try done. by destruct definition.
Qed.

(** X22.  [GetCapabilityDefinition] never panics and never returns without
    having read from the cluster, whatever the name is. *)
Theorem GetCapabilityDefinition_reads (ErrBadRevisionName : error) (dns : string)
    (ctx : oamutil.Context) (cli : CapabilityReader) (definition : Definition_)
    (definitionName : string) :
  ∃ run err, getCapability ErrBadRevisionName dns ctx cli definition definitionName
             = Some (run, err)
             ∧ oamutil.lookups run ≠ [].
Proof.
  assert (∀ Obj (r : oamutil.TypedReader Obj) d name,
            oamutil.lookups (oamutil.GetDefinition SystemDefinitonNamespace IsNotFound
                               dns ctx r d name) ≠ []) as Hreads.
  { intros Obj r d name. unfold oamutil.GetDefinition.
    repeat match goal with
           | |- context [match ?x with _ => _ end] => destruct x
           end; cbn; by destruct dns. }
  unfold definitions.GetCapabilityDefinition, definitions.fetchDefinitionRev.
  destruct (ConvertDefinitionRevName_total ErrSyntax ErrRange ErrBadRevisionName
              definitionName) as [[converted [err|]] ->].
  - cbn. eexists _, _. split; [reflexivity |]. cbn. apply Hreads.
  - destruct (oamutil.failure _) as [err|] eqn:Hfail; cbn.
    + eexists _, _. split; [reflexivity |]. cbn. apply Hreads.
    + eexists _, _. split; [reflexivity |]. cbn. apply Hreads.
Qed.

End CapabilityProperties.


(** ** The hash of a trait name *)

Lemma length_pretty_N_go (k : nat) (x : N) (s : string) :
  (x < 10 ^ N.of_nat k)%N → String.length (pretty_N_go x s) ≤ k + String.length s.
Proof.
  revert x s. induction k as [|k IH]; intros x s Hx.
  - assert (x = 0%N) as -> by (simpl in Hx; lia). by rewrite pretty_N_go_0.
  - destruct (decide (x = 0%N)) as [-> | Hne]; [rewrite pretty_N_go_0; lia |].
    rewrite pretty_N_go_step by lia.
    etrans; [apply IH |]; [| simpl; lia].
    apply N.Div0.div_lt_upper_bound.
    rewrite Nat2N.inj_succ, N.pow_succ_r' in Hx. lia.
Qed.

Lemma length_pretty_N (k : nat) (x : N) :
  (x < 10 ^ N.of_nat k)%N → 0 < k → 1 ≤ String.length (pretty x) ≤ k.
Proof.
  intros Hx Hk. split.
  - pose proof (pretty_N_nonempty x). destruct (pretty x); [done | simpl; lia].
  - unfold pretty, pretty_N. case_decide; [simpl; lia |].
    pose proof (length_pretty_N_go k x "" Hx). simpl in *. lia.
Qed.

Lemma length_SafeEncodeString (s : string) :
  String.length (util.SafeEncodeString s) = String.length s.
Proof. induction s as [|c s IH]; simpl; [done | by rewrite IH]. Qed.

Lemma SafeEncodeString_decimal_alphabet (s : string) (c : ascii) :
  decimal s → has_byte c (util.SafeEncodeString s) = true →
  has_byte c "456789bcdf" = true.
Proof.
  induction 1 as [|n rest Hn Hrest IH]; [done |].
  cbn [util.SafeEncodeString has_byte]. intros [Hhead | Htail]%orb_true_iff; [| by apply IH].
  apply Ascii.eqb_eq in Hhead as <-.
  assert (n ∈ [0; 1; 2; 3; 4; 5; 6; 7; 8; 9]%N) as Hn'.
  { rewrite !elem_of_cons. lia. }
  rewrite !elem_of_cons, elem_of_nil in Hn'.
  repeat (destruct Hn' as [-> | Hn']; [by vm_compute |]). done.
Qed.

Lemma isASCII_append (a b : string) :
  GoStrings.isASCII (a +:+ b) = GoStrings.isASCII a && GoStrings.isASCII b.
Proof.
  induction a as [|c a IH]; [done |]. rewrite append_cons. simpl.
  by rewrite IH, andb_assoc.
Qed.

Lemma lowerASCII_append (a b : string) :
  GoStrings.lowerASCII (a +:+ b) = GoStrings.lowerASCII a +:+ GoStrings.lowerASCII b.
Proof.
  induction a as [|c a IH]; [done |]. rewrite append_cons. simpl.
  by rewrite IH, append_cons.
Qed.

Section TraitNameMore.

Context (ComponentTrait : Type) (deepPrint : ComponentTrait → string).
Context (mapToLower : string → string).

(** X23.  The hash that ends a trait name has between 1 and 10 bytes,
    each of them one of [456789bcdf]: the safe encoding is applied to a
    decimal numeral below 2^32, and maps the ten digits to these ten
    bytes. *)
Theorem ComputeHash_alphabet (ct : ComponentTrait) :
  1 ≤ String.length (util.ComputeHash ComponentTrait deepPrint ct) ≤ 10
  ∧ ∀ c, has_byte c (util.ComputeHash ComponentTrait deepPrint ct) = true →
         has_byte c "456789bcdf" = true.
Proof.
  unfold util.ComputeHash. split.
  - rewrite length_SafeEncodeString. apply length_pretty_N; [| lia].
    pose proof (DeepHashObject_range ComponentTrait deepPrint ct).
    change (10 ^ N.of_nat 10)%N with 10000000000%N. lia.
  - intros c. apply SafeEncodeString_decimal_alphabet, pretty_N_decimal.
Qed.

(** X24.  The name does not tell the component from the trait type: for
    ASCII strings [x] and [y] without upper-case letters, the trait [ct] of
    type [y] on the component [c-x] and the trait [ct] of type [x-y] on the
    component [c] get the same name. *)
Theorem GenTraitName_ambiguous (c x y : string) (ct : ComponentTrait) :
  GoStrings.isASCII x = true → GoStrings.isASCII y = true →
  GoStrings.lowerASCII x = x → GoStrings.lowerASCII y = y → y ≠ "" → y ≠ "dummy" →
  util.GenTraitName ComponentTrait deepPrint mapToLower (c +:+ "-" +:+ x) ct y
  = util.GenTraitName ComponentTrait deepPrint mapToLower c ct (x +:+ "-" +:+ y).
Proof.
  intros Hax Hay Hx Hy Hne Hdummy. unfold util.GenTraitName.
  destruct (traitMiddleName_spec mapToLower y) as [_ ->]; [| done | done].
  destruct (traitMiddleName_spec mapToLower (x +:+ "-" +:+ y)) as [_ ->].
  - assert (GoStrings.ToLower mapToLower y = y) as ->
      by (unfold GoStrings.ToLower; by rewrite Hay).
    assert (GoStrings.ToLower mapToLower (x +:+ "-" +:+ y) = x +:+ "-" +:+ y) as ->.
    { unfold GoStrings.ToLower. rewrite !isASCII_append, Hax, Hay.
      change (GoStrings.isASCII "-") with true. cbn [andb].
      by rewrite !lowerASCII_append, Hx, Hy. }
    by rewrite !append_assoc.
  - by destruct x.
  - intros Heq. assert (has_byte "-" (x +:+ "-" +:+ y) = true) as Hdash.
    { rewrite !has_byte_append. simpl. by rewrite orb_true_r. }
    by rewrite Heq in Hdash.
Qed.

End TraitNameMore.

(** ** [Abs] *)

(** X25.  [Abs] is the absolute value of every [int] but the least: the
    negation of [-2^63] wraps around, and [Abs] returns [-2^63] itself, a
    negative number. *)
Theorem Abs_overflow (a : Z) :
  (oamutil.minInt ≤ a ≤ oamutil.maxInt)%Z →
  (a ≠ oamutil.minInt → oamutil.Abs a = Z.abs a)
  ∧ (a = oamutil.minInt → oamutil.Abs a = oamutil.minInt)
  ∧ (oamutil.minInt ≤ oamutil.Abs a ≤ oamutil.maxInt)%Z.
Proof.
  unfold oamutil.Abs, oamutil.wrap, oamutil.minInt, oamutil.maxInt. intros Ha.
  destruct (Z.ltb_spec a 0) as [Hneg | Hpos].
  - destruct (decide (a = - 2 ^ 63)%Z) as [-> | Hne].
    + split_and!; [done | done | done | done].
    + assert (((- a + 2 ^ 63) mod 2 ^ 64 - 2 ^ 63)%Z = (- a)%Z) as ->.
      { rewrite Z.mod_small by lia. lia. }
      split_and!; [lia | done | lia | lia].
  - split_and!; [lia | lia | lia | lia].
Qed.

(** ** The workload of a trait and the parent of an object *)

Section FetchProperties.

(** X26.  [FetchWorkload] reads nothing and fails with "no workload
    reference" when the kind, the apiVersion or the name of the reference
    is empty.  Otherwise it does one read, in the namespace of the trait and
    under the name of the reference, into an object that holds the
    apiVersion and the kind of the reference and nothing else, and returns
    what the read returns. *)
Theorem FetchWorkload_reference (c : client.Reader) (oamTrait : workloads.Trait) :
  let workloadRef := workloads.workloadReference oamTrait in
  let wn := client.mkObjectKey (workloads.traitNamespace oamTrait)
              (runtimev1alpha1.Name workloadRef) in
  (runtimev1alpha1.Kind workloadRef = "" ∨ runtimev1alpha1.APIVersion workloadRef = ""
   ∨ runtimev1alpha1.Name workloadRef = "" →
   workloads.FetchWorkload c oamTrait = ([], inl (ErrorString "no workload reference")))
  ∧ (runtimev1alpha1.Kind workloadRef ≠ "" → runtimev1alpha1.APIVersion workloadRef ≠ "" →
     runtimev1alpha1.Name workloadRef ≠ "" →
     ∃ workload,
       workloads.FetchWorkload c oamTrait = ([wn], c wn workload)
       ∧ GetAPIVersion workload = runtimev1alpha1.APIVersion workloadRef
       ∧ GetKind workload = runtimev1alpha1.Kind workloadRef
       ∧ ∀ k, k ≠ "apiVersion" → k ≠ "kind" → Object workload !! k = None).
Proof.
  intros workloadRef wn. subst workloadRef wn. unfold workloads.FetchWorkload.
  destruct oamTrait as [ns [apiVersion kind name]]. cbn.
  split.
  - intros [-> | [-> | ->]]; [done | |].
    + by rewrite orb_true_r.
    + by rewrite orb_true_r.
  - intros Hkind Hapi Hname.
    destruct kind; [done |]. destruct apiVersion; [done |]. destruct name; [done |].
    cbn. eexists. split; [reflexivity |].
    unfold GetAPIVersion, GetKind, getNestedString, NestedString. cbn.
    rewrite lookup_insert_eq.
    rewrite lookup_insert_ne by done. rewrite lookup_insert_eq.
    split_and!; [done | done |].
    intros k Hk1 Hk2. by rewrite !lookup_insert_ne, lookup_empty.
Qed.

End FetchProperties.

Section ParentProperties.

Context (ApplicationConfigurationKind ApplicationContextKind : string).
Context (ApplicationConfiguration ApplicationContext : Type).
Context (newApplicationConfiguration : ApplicationConfiguration).
Context (newApplicationContext : ApplicationContext).

Abbreviation locate :=
  (workloads.LocateParentAppConfig ApplicationConfigurationKind ApplicationContextKind
     ApplicationConfiguration ApplicationContext newApplicationConfiguration
     newApplicationContext).
Abbreviation parentReference :=
  (namesParent ApplicationConfigurationKind ApplicationContextKind).

Lemma locateAt_None (getConfiguration : oamutil.TypedReader ApplicationConfiguration)
    (getContext : oamutil.TypedReader ApplicationContext) (namespace : string)
    (o : metav1.OwnerReference) :
  ¬ parentReference o →
  workloads.locateAt ApplicationConfigurationKind ApplicationContextKind
    ApplicationConfiguration ApplicationContext newApplicationConfiguration
    newApplicationContext getConfiguration getContext namespace o = None.
Proof.
  intros Hnot. unfold workloads.locateAt.
  destruct (String.eqb_spec (metav1.Kind o) ApplicationConfigurationKind) as [Hac | Hac];
    destruct (String.eqb_spec (metav1.Kind o) ApplicationContextKind) as [Hctx | Hctx];
    destruct (metav1.Name o) as [|ch name] eqn:Hname; try done.
  all: destruct Hnot; split; [tauto | by rewrite Hname].
Qed.

(** X27.  [LocateParentAppConfig] is decided by the first owner reference
    that names a parent: it does one read, in the namespace of the object
    and under the name of that owner, of an application configuration if
    the kind of the owner is that of configurations and of an application
    context otherwise, and returns its result; owners after it are not
    looked at.  Without such an owner it reads nothing and fails with
    [ErrLocateAppConfig]. *)
Theorem LocateParentAppConfig_first_parent
    (getConfiguration : oamutil.TypedReader ApplicationConfiguration)
    (getContext : oamutil.TypedReader ApplicationContext) (namespace : string)
    (owners : list metav1.OwnerReference) :
  (Forall (λ o, ¬ parentReference o) owners →
   locate getConfiguration getContext namespace owners
   = ([], inl (ErrorString workloads.ErrLocateAppConfig)))
  ∧ (∀ before o after,
       owners = before ++ o :: after →
       Forall (λ o, ¬ parentReference o) before → parentReference o →
       let nn := client.mkObjectKey namespace (metav1.Name o) in
       locate getConfiguration getContext namespace owners
       = ([nn],
          if String.eqb (metav1.Kind o) ApplicationConfigurationKind
          then match getConfiguration nn newApplicationConfiguration with
               | inl err => inl err
               | inr eventObj => inr (workloads.ParentConfiguration _ _ eventObj)
               end
          else match getContext nn newApplicationContext with
               | inl err => inl err
               | inr eventObj => inr (workloads.ParentContext _ _ eventObj)
               end)).
Proof.
  split.
  - induction 1 as [|o rest Ho Hrest IH]; [done |].
    simpl. by rewrite locateAt_None.
  - intros before o after -> Hbefore [Hkind Hname] nn. subst nn.
    induction Hbefore as [|o' rest Ho' Hrest IH].
    + simpl. unfold workloads.locateAt.
      destruct (metav1.Name o) as [|ch name] eqn:Hn; [done |]. cbn.
      destruct (String.eqb_spec (metav1.Kind o) ApplicationConfigurationKind) as [Hac | Hac];
        [done |].
      destruct (String.eqb_spec (metav1.Kind o) ApplicationContextKind) as [Hctx | Hctx];
        [done | tauto].
    + simpl. by rewrite locateAt_None.
Qed.

End ParentProperties.

(** ** The name of the definition of a resource *)

Lemma Count_absent (s : string) (sep : ascii) :
  has_byte sep s = false → GoStrings.Count s sep = 0.
Proof.
  induction s as [|c s IH]; [done |]. simpl. intros [Hc Hs]%orb_false_iff.
  rewrite Hc. by rewrite IH.
Qed.

Lemma Count_append (a b : string) (sep : ascii) :
  GoStrings.Count (a +:+ b) sep = GoStrings.Count a sep + GoStrings.Count b sep.
Proof.
  induction a as [|c a IH]; [done |]. rewrite append_cons. simpl. rewrite IH. lia.
Qed.

Lemma Cut_first (a b : string) (sep : ascii) :
  has_byte sep a = false →
  GoStrings.Cut (a +:+ String sep b) sep = Some (a, b).
Proof.
  induction a as [|c a IH].
  - intros _. rewrite append_nil_l. simpl. by rewrite Ascii.eqb_refl.
  - cbn [has_byte]. intros [Hc Ha]%orb_false_iff. rewrite append_cons.
    cbn [GoStrings.Cut]. rewrite Hc. by rewrite IH.
Qed.

Lemma ParseGroupVersion_group_version (group version : string) :
  has_byte "/" group = false → has_byte "/" version = false →
  schema.ParseGroupVersion (group +:+ "/" +:+ version)
  = Some (schema.mkGV group version).
Proof.
  intros Hg Hv. unfold schema.ParseGroupVersion.
  change (group +:+ "/" +:+ version) with (group +:+ String "/" version).
  rewrite Count_append, Cut_first by done.
  cbn [GoStrings.Count]. rewrite !Count_absent by done.
  change (Ascii.eqb "/" "/") with true. cbn [Nat.add].
  destruct group as [|c group].
  - rewrite append_nil_l. by destruct version.
  - cbn [has_byte] in Hg. apply orb_false_iff in Hg as [Hc _].
    rewrite append_cons. cbn [String.length Nat.eqb orb String.eqb]. by rewrite Hc.
Qed.

Section DefinitionNameProperties.

Context (RESTMapping : string → string → string → error + string).

(** X28.  A resource that carries the type label gets its definition name
    from the label, whatever its apiVersion and whatever the mapper says.
    Without the label (no type label asked for, no labels, or the label
    absent), a resource of apiVersion [group/version] is mapped with that
    group, its kind and that version, and its definition name is the
    resource of the mapping, a dot and the group; the error of the mapper
    is returned as it is. *)
Theorem GetDefinitionName_label_or_mapping (u : Unstructured) (typeLabel : string) :
  (∀ labels definitionName,
     typeLabel ≠ "" → GetLabels u = Some labels → labels !! typeLabel = Some definitionName →
     workloads.GetDefinitionName RESTMapping u typeLabel = inr definitionName)
  ∧ (∀ group version,
       typeLabel = "" ∨ GetLabels u = None
       ∨ (∃ labels, GetLabels u = Some labels ∧ labels !! typeLabel = None) →
       has_byte "/" group = false → has_byte "/" version = false →
       GetAPIVersion u = group +:+ "/" +:+ version →
       workloads.GetDefinitionName RESTMapping u typeLabel
       = match RESTMapping group (GetKind u) version with
         | inl err => inl err
         | inr resource => inr (resource +:+ "." +:+ group)
         end).
Proof.
  unfold workloads.GetDefinitionName. split.
  - intros labels definitionName Hne Hlabels Hlabel.
    destruct (String.eqb_spec typeLabel ""); [done |]. cbn.
    by rewrite Hlabels, Hlabel.
  - intros group version Hno Hg Hv ->.
    rewrite ParseGroupVersion_group_version by done. cbn.
    destruct Hno as [-> | [-> | (labels & -> & ->)]]; [done | |].
    + by destruct (negb _).
    + by destruct (negb _).
Qed.

End DefinitionNameProperties.


(** ** Annotations, and the namespace of the application *)

(** X29.  Adding annotations and then removing keys, on a manifest with
    well-formed metadata: a removed key has no annotation, whether it was
    just added or not; every other key holds the added value if one was
    added and the old value otherwise.  The labels are what they were. *)
Theorem RemoveAnnotations_AddAnnotations (u : Unstructured) (annos : gmap string string)
    (removeKeys : list string) :
  wfMetadata u →
  let u' := oamutil.RemoveAnnotations (util.AddAnnotations u (Some annos)) removeKeys in
  (∀ k, at_key (GetAnnotations u') k
        = if decide (k ∈ removeKeys) then None
          else match annos !! k with
               | Some v => Some v
               | None => at_key (GetAnnotations u) k
               end)
  ∧ GetLabels u' = GetLabels u.
Proof.
  intros Hwf u'. subst u'. unfold oamutil.RemoveAnnotations, util.AddAnnotations.
  set (merged := util.MergeMapOverrideWithDst (getAnnotations u) (Some annos)).
  destruct (setAnnotations_get u merged Hwf) as (Hwf' & Hannos & Hlabels).
  change (getAnnotations (setAnnotations u merged))
    with (GetAnnotations (setAnnotations u merged)).
  rewrite Hannos.
  assert (merged = Some (annos ∪ default ∅ (GetAnnotations u))) as Hmerged.
  { subst merged. rewrite MergeMapOverrideWithDst_union.
    change (getAnnotations u) with (GetAnnotations u). by destruct (GetAnnotations u). }
  rewrite Hmerged.
  destruct (deleteKeys_Some (annos ∪ default ∅ (GetAnnotations u)) removeKeys)
    as (left & -> & Hlookup).
  rewrite <- Hmerged.
  destruct (setAnnotations_get (setAnnotations u merged) (Some left) Hwf')
    as (_ & -> & ->).
  split; [| done]. intros k. simpl. rewrite Hlookup.
  case_decide; [done |]. rewrite lookup_union.
  destruct (annos !! k), (GetAnnotations u) as [old|]; simpl;
    rewrite ?lookup_empty; try done; by destruct (old !! k).
Qed.

(** X30.  A namespace stored with [SetNamespaceInCtx] is read back by
    [GetDefinitionNamespaceWithCtx], with [default] standing for the empty
    namespace: the namespace of the application is then never empty and
    never falls back to the system namespace, and it is where
    [GetDefinition] looks first when the environment names no namespace. *)
Theorem SetNamespaceInCtx_roundtrip (SystemDefinitonNamespace : string)
    (IsNotFound : error → bool) (ctx : oamutil.Context) (namespace : string) :
  let ctx' := oamutil.SetNamespaceInCtx ctx namespace in
  let appNs := oamutil.GetDefinitionNamespaceWithCtx SystemDefinitonNamespace ctx' in
  appNs = (if String.eqb namespace "" then "default" else namespace)
  ∧ appNs ≠ ""
  ∧ ∀ (Obj : Type) (cli : oamutil.TypedReader Obj) (definition : Obj) (definitionName : string),
      head (oamutil.lookups
              (oamutil.GetDefinition SystemDefinitonNamespace IsNotFound "" ctx' cli
                 definition definitionName))
      = Some (client.mkObjectKey appNs definitionName).
Proof.
  intros ctx' appNs. subst ctx' appNs.
  unfold oamutil.SetNamespaceInCtx, oamutil.GetDefinitionNamespaceWithCtx. cbn.
  split_and!; [done | by destruct (String.eqb_spec namespace "") |].
  intros Obj cli definition definitionName. unfold oamutil.GetDefinition. cbn.
  repeat match goal with
         | |- context [match ?x with _ => _ end] => destruct x
         end; done.
Qed.


(** ** The further properties at concrete inputs *)

(** X2 at a component whose release is the text [{]. *)
Lemma discoverHelmModuleWorkload_release_errors_witness :
  assemble.discoverHelmModuleWorkload example.decoder example.HelmChartNamePath
    example.cluster example.ownedDeployment (Some sample.brokenComponent)
  = mkRun [] (Returns example.ownedDeployment
                (Some (Wrapped (ErrorString "unexpected end of JSON input")
                         "cannot get helm release from component"))).
Proof.
  destruct (discoverHelmModuleWorkload_release_errors example.decoder
              example.HelmChartNamePath example.cluster example.ownedDeployment
              (Some sample.brokenComponent)
              (v1alpha2.mkHelm (runtime.mkRawExtension "{") (runtime.mkRawExtension "")))
    as [Hdecode _].
  - reflexivity.
  - apply Hdecode. vm_compute. reflexivity.
Defined.

(** X3 at a release name of 62 bytes: the 63rd byte of the joined name is
    the [-], which is cut off. *)
Lemma qualifiedWorkloadName_bounded_witness :
  String.length (assemble.qualifiedWorkloadName
                   "release-with-a-name-that-is-exactly-sixty-two-bytes-long-in-al" "podinfo")
  ≤ 63
  ∧ (∃ rest, "release-with-a-name-that-is-exactly-sixty-two-bytes-long-in-al" +:+ "-" +:+ "podinfo"
             = assemble.qualifiedWorkloadName
                 "release-with-a-name-that-is-exactly-sixty-two-bytes-long-in-al" "podinfo"
               +:+ rest)
  ∧ (63 < String.length ("release-with-a-name-that-is-exactly-sixty-two-bytes-long-in-al"
                          +:+ "-" +:+ "podinfo") →
     62 ≤ String.length (assemble.qualifiedWorkloadName
                           "release-with-a-name-that-is-exactly-sixty-two-bytes-long-in-al"
                           "podinfo")).
Proof.
  apply (qualifiedWorkloadName_bounded
           "release-with-a-name-that-is-exactly-sixty-two-bytes-long-in-al" "podinfo").
  intros Hsub. apply Contains_spec in Hsub. vm_compute in Hsub. discriminate.
Defined.

(** X4 at the Deployment of the examples. *)
Lemma PrepareWorkloadForRollout_writes_spec_only_witness :
  reads (assemble.PrepareWorkloadForRollout unit example.ownedDeployment None None) = []
  ∧ (∀ k, k ≠ "spec" →
          Object sample.pausedDeployment !! k = Object example.ownedDeployment !! k)
  ∧ GetAPIVersion sample.pausedDeployment = GetAPIVersion example.ownedDeployment
  ∧ GetKind sample.pausedDeployment = GetKind example.ownedDeployment
  ∧ GetName sample.pausedDeployment = GetName example.ownedDeployment
  ∧ GetNamespace sample.pausedDeployment = GetNamespace example.ownedDeployment
  ∧ GetLabels sample.pausedDeployment = GetLabels example.ownedDeployment
  ∧ GetAnnotations sample.pausedDeployment = GetAnnotations example.ownedDeployment
  ∧ metav1.GetOwnerReferences sample.pausedDeployment
    = metav1.GetOwnerReferences example.ownedDeployment.
Proof.
  apply (PrepareWorkloadForRollout_writes_spec_only unit example.ownedDeployment
           sample.pausedDeployment None None None).
  vm_compute. reflexivity.
Defined.

(** X5 at the Deployment of the examples, whose path [spec.paused] is
    free. *)
Lemma PrepareWorkloadForRollout_fails_iff_blocked_witness :
  ((∃ e, outcome (assemble.PrepareWorkloadForRollout unit example.ownedDeployment None None)
         = Returns example.ownedDeployment (Some e))
   ↔ blocked (Object example.ownedDeployment) ["spec"; "paused"])
  ∧ ((∃ after, outcome (assemble.PrepareWorkloadForRollout unit example.ownedDeployment
                          None None) = Returns after None)
     ↔ ¬ blocked (Object example.ownedDeployment) ["spec"; "paused"]).
Proof.
  apply (PrepareWorkloadForRollout_fails_iff_blocked unit example.ownedDeployment
           ["spec"; "paused"] None None).
  - exists (metav1.mkOwnerReference "core.oam.dev/v1beta1" "Application" "test-assemble" ""
              (Some true) (Some true)).
    vm_compute. reflexivity.
  - vm_compute. reflexivity.
Defined.

(** X6 at the Deployment of the examples. *)
Lemma PrepareWorkloadForRollout_idempotent_witness :
  assemble.PrepareWorkloadForRollout unit sample.pausedDeployment None None
  = mkRun [] (Returns sample.pausedDeployment None).
Proof.
  apply (PrepareWorkloadForRollout_idempotent unit example.ownedDeployment
           sample.pausedDeployment None None None None).
  vm_compute. reflexivity.
Defined.

(** X9 at the manifest [web], adding a new value for [tier] and the new
    label [zone]. *)
Lemma AddLabels_lookup_witness :
  (∀ k, at_key (GetLabels (util.AddLabels sample.web
                             (Some (list_to_map [("tier", "back"); ("zone", "eu")])))) k
        = match (list_to_map [("tier", "back"); ("zone", "eu")] : gmap string string) !! k with
          | Some v => Some v
          | None => at_key (GetLabels sample.web) k
          end)
  ∧ GetName (util.AddLabels sample.web
               (Some (list_to_map [("tier", "back"); ("zone", "eu")])))
    = GetName sample.web
  ∧ GetAnnotations (util.AddLabels sample.web
                      (Some (list_to_map [("tier", "back"); ("zone", "eu")])))
    = GetAnnotations sample.web
  ∧ ∀ k, k ≠ "metadata" →
         Object (util.AddLabels sample.web
                   (Some (list_to_map [("tier", "back"); ("zone", "eu")]))) !! k
         = Object sample.web !! k.
Proof.
  apply (AddLabels_lookup sample.web (list_to_map [("tier", "back"); ("zone", "eu")])).
  right. exists sample.webMetadata. reflexivity.
Defined.

(** X10 at a manifest whose [metadata] is a string. *)
Lemma AddLabels_unreadable_metadata_witness :
  util.AddLabels sample.brokenMetadata (Some (list_to_map [("tier", "back")]))
  = sample.brokenMetadata
  ∧ util.AddAnnotations sample.brokenMetadata (Some (list_to_map [("tier", "back")]))
    = sample.brokenMetadata
  ∧ oamutil.RemoveLabels sample.brokenMetadata ["tier"] = sample.brokenMetadata.
Proof.
  apply (AddLabels_unreadable_metadata sample.brokenMetadata
           (Some (list_to_map [("tier", "back")])) ["tier"]).
  intros [Hnone | [md Hmd]]; vm_compute in *; discriminate.
Defined.

(** X11 at the manifest [web], removing [tier] and a key it does not
    have. *)
Lemma RemoveLabels_lookup_witness :
  ∃ labels',
    GetLabels (oamutil.RemoveLabels sample.web ["tier"; "zone"]) = Some labels'
    ∧ ∀ k, labels' !! k
           = if decide (k ∈ ["tier"; "zone"]) then None
             else (list_to_map [("app", "web"); ("tier", "front")] : gmap string string) !! k.
Proof.
  apply (RemoveLabels_lookup sample.web (list_to_map [("app", "web"); ("tier", "front")])
           ["tier"; "zone"]).
  - right. exists sample.webMetadata. reflexivity.
  - vm_compute. reflexivity.
Defined.

(** X12 at a manifest whose label [replicas] is a number, removing
    nothing. *)
Lemma RemoveLabels_unreadable_labels_witness :
  metadataOf (oamutil.RemoveLabels sample.numbered []) !! "labels" = None
  ∧ ∀ g, g ≠ "labels" →
         metadataOf (oamutil.RemoveLabels sample.numbered []) !! g
         = metadataOf sample.numbered !! g.
Proof.
  apply (RemoveLabels_unreadable_labels sample.numbered []).
  - right. exists sample.numberedMetadata. reflexivity.
  - vm_compute. reflexivity.
Defined.


(** X14 at [myapp-v12] with the delimiter [-]. *)
Lemma ExtractRevisionNum_last_segment_witness :
  oamutil.ExtractRevisionNum sample.ErrSyntax sample.ErrRange sample.ErrBadRevisionName
    "myapp-v12" "-"
  = Some (12%Z, None).
Proof.
  exact (ExtractRevisionNum_last_segment sample.ErrSyntax sample.ErrRange
           sample.ErrBadRevisionName "-" "myapp" "v12" eq_refl).
Defined.

(** X15 at [appv2] with the delimiter [-]. *)
Lemma ExtractRevisionNum_no_delimiter_witness :
  is_Some (oamutil.ExtractRevisionNum sample.ErrSyntax sample.ErrRange
             sample.ErrBadRevisionName "appv2" "-")
  ∧ (¬ substring_of "-" "appv2" →
     oamutil.ExtractRevisionNum sample.ErrSyntax sample.ErrRange sample.ErrBadRevisionName
       "appv2" "-"
     = Some (0%Z, Some sample.ErrBadRevisionName)).
Proof.
  apply (ExtractRevisionNum_no_delimiter sample.ErrSyntax sample.ErrRange
           sample.ErrBadRevisionName "appv2" "-").
  discriminate.
Defined.

(** X16 at [worker@v2]. *)
Lemma ConvertDefinitionRevName_canonical_witness :
  oamutil.ConvertDefinitionRevName sample.ErrSyntax sample.ErrRange sample.ErrBadRevisionName
    "worker@v2"
  = Some ("worker-v2", None).
Proof.
  apply (ConvertDefinitionRevName_canonical sample.ErrSyntax sample.ErrRange
           sample.ErrBadRevisionName "worker" 2).
  - discriminate.
  - vm_compute. split; discriminate.
Defined.

(** X17 at [worker@v02]. *)
Lemma ConvertDefinitionRevName_not_canonical_witness :
  oamutil.ConvertDefinitionRevName sample.ErrSyntax sample.ErrRange sample.ErrBadRevisionName
    "worker@v02"
  = Some ("worker@v02-v2", None).
Proof.
  apply (ConvertDefinitionRevName_not_canonical sample.ErrSyntax sample.ErrRange
           sample.ErrBadRevisionName "worker" "02" 2).
  - reflexivity.
  - vm_compute. reflexivity.
  - vm_compute. discriminate.
Defined.

(** X19 at the name [worker], on the sample cluster. *)
Lemma GetCapabilityDefinition_latest_witness :
  ∃ run,
    definitions.GetCapabilityDefinition string string string string unit
      sample.ErrSyntax sample.ErrRange sample.SystemDefinitonNamespace sample.IsNotFound
      sample.workerRevision sample.ErrBadRevisionName "" (oamutil.mkContext None)
      sample.capabilities
      (definitions.ComponentDefinitionObject string string string string unit "") "worker"
    = Some (run, sample.ErrBadRevisionName)
    ∧ oamutil.lookups run = [client.mkObjectKey "vela-system" "worker"]
    ∧ oamutil.fetched run
      = definitions.ComponentDefinitionObject string string string string unit "worker, latest"
    ∧ oamutil.failure run = None.
Proof.
  apply (GetCapabilityDefinition_latest string string string string unit
           sample.ErrSyntax sample.ErrRange sample.SystemDefinitonNamespace sample.IsNotFound
           sample.workerRevision sample.ErrBadRevisionName "" (oamutil.mkContext None)
           sample.capabilities
           (definitions.ComponentDefinitionObject string string string string unit "")
           "worker").
  intros Hsub. apply has_byte_substring in Hsub. vm_compute in Hsub. discriminate.
Defined.

(** X20 at the name [worker@vx], on the sample cluster: the name is looked
    up as it is, and not found. *)
Lemma GetCapabilityDefinition_bad_revision_witness :
  ∃ run,
    definitions.GetCapabilityDefinition string string string string unit
      sample.ErrSyntax sample.ErrRange sample.SystemDefinitonNamespace sample.IsNotFound
      sample.workerRevision sample.ErrBadRevisionName "" (oamutil.mkContext None)
      sample.capabilities
      (definitions.ComponentDefinitionObject string string string string unit "") "worker@vx"
    = Some (run, sample.ErrSyntax "x")
    ∧ oamutil.lookups run
      = [client.mkObjectKey "vela-system" "worker@vx";
         client.mkObjectKey "vela-system" "worker@vx";
         client.mkObjectKey "" "worker@vx"]
    ∧ oamutil.fetched run
      = definitions.ComponentDefinitionObject string string string string unit ""
    ∧ oamutil.failure run = Some (StatusError "NotFound" "worker@vx").
Proof.
  apply (GetCapabilityDefinition_bad_revision string string string string unit
           sample.ErrSyntax sample.ErrRange sample.SystemDefinitonNamespace sample.IsNotFound
           sample.workerRevision sample.ErrBadRevisionName (sample.ErrSyntax "x") ""
           (oamutil.mkContext None) sample.capabilities
           (definitions.ComponentDefinitionObject string string string string unit "")
           "worker" "x" 0).
  - reflexivity.
  - vm_compute. reflexivity.
Defined.

(** X21 at the name [worker@v2], on the sample cluster. *)
Lemma GetCapabilityDefinition_revision_witness :
  ∃ run,
    definitions.GetCapabilityDefinition string string string string unit
      sample.ErrSyntax sample.ErrRange sample.SystemDefinitonNamespace sample.IsNotFound
      sample.workerRevision sample.ErrBadRevisionName "" (oamutil.mkContext None)
      sample.capabilities
      (definitions.ComponentDefinitionObject string string string string unit "") "worker@v2"
    = Some (run, sample.ErrBadRevisionName)
    ∧ oamutil.lookups run = [client.mkObjectKey "vela-system" "worker-v2"]
    ∧ oamutil.failure run = None
    ∧ oamutil.fetched run
      = definitions.ComponentDefinitionObject string string string string unit
          "worker, revision 2".
Proof.
  apply (GetCapabilityDefinition_revision string string string string unit
           sample.ErrSyntax sample.ErrRange sample.SystemDefinitonNamespace sample.IsNotFound
           sample.workerRevision sample.ErrBadRevisionName "" (oamutil.mkContext None)
           sample.capabilities
           (definitions.ComponentDefinitionObject string string string string unit "")
           "worker" 2).
  - discriminate.
  - vm_compute. split; discriminate.
Defined.

(** X24 at the component [frontend-canary] with a trait of type [ingress]
    and the component [frontend] with a trait of type [canary-ingress]. *)
Lemma GenTraitName_ambiguous_witness :
  util.GenTraitName Unstructured sample.printer id "frontend-canary" sample.web "ingress"
  = util.GenTraitName Unstructured sample.printer id "frontend" sample.web "canary-ingress".
Proof.
  apply (GenTraitName_ambiguous Unstructured sample.printer id "frontend" "canary" "ingress"
           sample.web).
  - reflexivity.
  - reflexivity.
  - reflexivity.
  - reflexivity.
  - discriminate.
  - discriminate.
Defined.

(** X25 at the least [int]. *)
Lemma Abs_overflow_witness :
  (oamutil.minInt ≠ oamutil.minInt → oamutil.Abs oamutil.minInt = Z.abs oamutil.minInt)
  ∧ (oamutil.minInt = oamutil.minInt → oamutil.Abs oamutil.minInt = oamutil.minInt)
  ∧ (oamutil.minInt ≤ oamutil.Abs oamutil.minInt ≤ oamutil.maxInt)%Z.
Proof.
  apply (Abs_overflow oamutil.minInt). vm_compute. split; discriminate.
Defined.

(** X29 at the manifest [web], adding the annotations [owner] and [note]
    and removing [owner]. *)
Lemma RemoveAnnotations_AddAnnotations_witness :
  (∀ k, at_key (GetAnnotations
                  (oamutil.RemoveAnnotations
                     (util.AddAnnotations sample.web
                        (Some (list_to_map [("owner", "team-b"); ("note", "moved")])))
                     ["owner"])) k
        = if decide (k ∈ ["owner"]) then None
          else match (list_to_map [("owner", "team-b"); ("note", "moved")]
                        : gmap string string) !! k with
               | Some v => Some v
               | None => at_key (GetAnnotations sample.web) k
               end)
  ∧ GetLabels (oamutil.RemoveAnnotations
                 (util.AddAnnotations sample.web
                    (Some (list_to_map [("owner", "team-b"); ("note", "moved")])))
                 ["owner"])
    = GetLabels sample.web.
Proof.
  apply (RemoveAnnotations_AddAnnotations sample.web
           (list_to_map [("owner", "team-b"); ("note", "moved")]) ["owner"]).
  right. exists sample.webMetadata. reflexivity.
Defined.
